(** * FastFold feature embedders: a shallow embedding of
      [fastfold/model/nn/embedders.py] and the properties checked against it.

    The numeric embedders ([InputEmbedder], [TemplateAngleEmbedder],
    [TemplatePairEmbedder], [ExtraMSAEmbedder]) are modelled on nested lists
    over an abstract scalar type: every arithmetic operation of the tensor
    library is a field of the class [Scalar], so a statement that uses no law
    of that class holds for any deterministic arithmetic.  Python exceptions
    are values of the result type [Res]. *)

From Stdlib Require Import ZArith Lia.
From stdpp Require Import base option list list_monad strings gmap.

Open Scope Z_scope.

(** ** Python exceptions and the result monad *)

Inductive exn : Type :=
| RuntimeError        (* torch: shape or dtype mismatch *)
| IndexError          (* tuple or list index out of range *)
| KeyError (key : string)
| UnboundLocalError (name : string)
| TypeError.

Inductive Res (A : Type) : Type :=
| Ok (a : A)
| Raise (e : exn).
Arguments Ok {A} a.
Arguments Raise {A} e.

Global Instance Res_ret : MRet Res := λ A a, Ok a.
Global Instance Res_bind : MBind Res := λ A B f m,
  match m with Ok a => f a | Raise e => Raise e end.
Global Instance Res_fmap : FMap Res := λ A B f m,
  match m with Ok a => Ok (f a) | Raise e => Raise e end.

Definition is_Ok {A} (m : Res A) : Prop := ∃ a, m = Ok a.

(** Two outcomes agree: the same exception, or values related by [Q]. *)
Definition res_rel {A B} (Q : A → B → Prop) (r1 : Res A) (r2 : Res B) : Prop :=
  match r1, r2 with
  | Ok a, Ok b => Q a b
  | Raise e1, Raise e2 => e1 = e2
  | _, _ => False
  end.

(** Python sequence indexing [l[i]]: a negative index counts from the end. *)
Definition py_index {A} (l : list A) (i : Z) : Res A :=
  let n := Z.of_nat (length l) in
  let j := if decide (0 ≤ i) then i else n + i in
  if decide (0 ≤ j < n) then
    match l !! Z.to_nat j with Some a => Ok a | None => Raise IndexError end
  else Raise IndexError.

(** ** Scalars *)

(** The element type of a floating tensor with the operations the embedders
    use.  [of_Z] is the cast of an integer tensor element ([Tensor.type]),
    [bound_le b x] is the comparison [b <= x] of an integer bin boundary with
    an element. *)
Class Scalar (R : Type) : Type := {
  radd : R → R → R;
  rsub : R → R → R;
  rmul : R → R → R;
  rzero : R;
  rone : R;
  rrelu : R → R;
  of_Z : Z → R;
  bound_le : Z → R → bool
}.

(** Exactness of the scalar type on the integers of magnitude at most
    [bound]: the sum and the difference of two such integers, when within the
    bound themselves, and the comparison of two such integers are those of
    the integers.  A floating dtype with a significand of [p] bits has it for
    [bound = 2^p] and for no larger bound ([rounded] below); beyond the bound
    its sums and casts round. *)
Class ExactWithin (R : Type) `{Scalar R} (bound : Z) : Prop := {
  of_Z_add : ∀ a c,
    Z.abs a ≤ bound → Z.abs c ≤ bound → Z.abs (a + c) ≤ bound →
    radd (of_Z a) (of_Z c) = of_Z (a + c);
  of_Z_sub : ∀ a b,
    Z.abs a ≤ bound → Z.abs b ≤ bound → Z.abs (a - b) ≤ bound →
    rsub (of_Z a) (of_Z b) = of_Z (a - b);
  bound_le_of_Z : ∀ b z,
    Z.abs b ≤ bound → Z.abs z ≤ bound →
    bound_le b (of_Z z) = bool_decide (b ≤ z)
}.

(** The integers as scalars. *)
Global Instance Z_Scalar : Scalar Z := {|
  radd := Z.add; rsub := Z.sub; rmul := Z.mul; rzero := 0; rone := 1;
  rrelu := Z.max 0; of_Z := id; bound_le := λ b x, bool_decide (b ≤ x)
|}.

(** ** A floating dtype on integer values *)

(** The integer a floating dtype with a significand of [p] bits stores for
    the integer [n]: [n] itself while it has at most [p] significant bits,
    otherwise the nearest multiple of the power of two that leaves [p] bits,
    a tie going to the even significand (overflow aside).  [p = 8] is
    [bfloat16], [p = 11] [float16], [p = 24] [float32]. *)
Definition round_to (p n : Z) : Z :=
  let m := Z.abs n in
  let e := Z.log2 m + 1 - p in
  if e <=? 0 then n
  else
    let q := m / 2 ^ e in
    let r := m mod 2 ^ e in
    let half := 2 ^ (e - 1) in
    let q' := if r <? half then q
              else if half <? r then q + 1
              else if Z.even q then q else q + 1 in
    Z.sgn n * (q' * 2 ^ e).

(** Integer-valued elements of such a dtype.  Every operation returns the
    exact result rounded; an integer bin boundary is cast to the dtype before
    it is compared. *)
Inductive rounded (p : Z) : Type := Rounded (v : Z).
Arguments Rounded {p} v.

Definition rval {p : Z} (x : rounded p) : Z := match x with Rounded v => v end.

Global Instance rounded_Scalar (p : Z) : Scalar (rounded p) := {|
  radd := λ x y, Rounded (round_to p (rval x + rval y));
  rsub := λ x y, Rounded (round_to p (rval x - rval y));
  rmul := λ x y, Rounded (round_to p (rval x * rval y));
  rzero := Rounded 0;
  rone := Rounded 1;
  rrelu := λ x, Rounded (Z.max 0 (rval x));
  of_Z := λ n, Rounded (round_to p n);
  bound_le := λ b x, bool_decide (round_to p b ≤ rval x)
|}.

(** ** Tensors as nested lists *)

(** [tens k A]: [k] leading axes over elements of type [A]. A tensor of
    shape [[*, N, C]] with [k] batch axes is a [tens k (list (list R))]. *)
Fixpoint tens (k : nat) (A : Type) : Type :=
  match k with O => A | S k => list (tens k A) end.

Fixpoint tmap {A B} (k : nat) (f : A → B) : tens k A → tens k B :=
  match k with O => f | S k => fmap (M:=list) (tmap k f) end.

Fixpoint tmapM {A B} (k : nat) (f : A → Res B) : tens k A → Res (tens k B) :=
  match k with O => f | S k => mapM (tmapM k f) end.

(** Every element of a tensor satisfies [P]. *)
Fixpoint tall {A} (k : nat) (P : A → Prop) : tens k A → Prop :=
  match k with
  | O => P
  | S k => λ t : list (tens k A), Forall (tall k P) t
  end.

(** Element at a multi-index over the leading axes. *)
Fixpoint tget {A} (k : nat) : tens k A → list nat → option A :=
  match k with
  | O => λ a p, match p with [] => Some a | _ => None end
  | S k => λ (t : list (tens k A)) p,
      match p with
      | [] => None
      | i :: p => t !! i ≫= λ u, tget k u p
      end
  end.

(** [tshape k bs P t]: the leading axes of [t] have the sizes [bs] and every
    element satisfies [P]. *)
Fixpoint tshape {A} (k : nat) (bs : list nat) (P : A → Prop) : tens k A → Prop :=
  match k with
  | O => λ a, bs = [] ∧ P a
  | S k => λ t : list (tens k A),
      match bs with
      | [] => False
      | b :: bs => length t = b ∧ Forall (tshape k bs P) t
      end
  end.

(** Shapes of the trailing (non-batch) axes. *)
Definition shape1 {A} (c : nat) (v : list A) : Prop := length v = c.
Definition shape2 {A} (n c : nat) (m : list (list A)) : Prop :=
  length m = n ∧ Forall (shape1 c) m.
Definition shape3 {A} (a n c : nat) (t : list (list (list A))) : Prop :=
  length t = a ∧ Forall (shape2 n c) t.

(** Broadcasting of one axis for an out-of-place binary operation: equal
    sizes are combined pointwise, a size-1 axis is repeated, anything else is
    a shape error. *)
Definition bzip {A B C} (f : A → B → Res C) (xs : list A) (ys : list B)
    : Res (list C) :=
  if decide (length xs = length ys) then mapM (λ p, f p.1 p.2) (zip xs ys)
  else match xs, ys with
       | [x], _ => mapM (f x) ys
       | _, [y] => mapM (λ x, f x y) xs
       | _, _ => Raise RuntimeError
       end.

(** Broadcasting of one axis for an in-place operation ([a += b]): only the
    right operand may be repeated, the left one keeps its shape. *)
Definition izip {A B} (f : A → B → Res A) (xs : list A) (ys : list B)
    : Res (list A) :=
  if decide (length xs = length ys) then mapM (λ p, f p.1 p.2) (zip xs ys)
  else match ys with
       | [y] => mapM (λ x, f x y) xs
       | _ => Raise RuntimeError
       end.

Fixpoint tbzip {A B C} (k : nat) (f : A → B → Res C)
    : tens k A → tens k B → Res (tens k C) :=
  match k with O => f | S k => bzip (tbzip k f) end.

Fixpoint tizip {A B} (k : nat) (f : A → B → Res A)
    : tens k A → tens k B → Res (tens k A) :=
  match k with O => f | S k => izip (tizip k f) end.

(** ** Library primitives: [Linear], [one_hot], [arange] *)

Module Linear.
Section defs.
Context {R : Type} `{Scalar R}.

(** Modelled from the spec: the [Linear] primitive of
    [fastfold.model.nn.primitives] is not among the sources; the spec calls
    it a linear projection with weights fixed at construction.  It is the
    affine map [y = x W^T + b] over the final axis, [W] of shape
    [[out_features, in_features]], and an input whose final axis is not
    [in_features] wide is a shape error. *)
Record t : Type := mk {
  in_features : nat;
  out_features : nat;
  weight : list (list R);
  bias : list R
}.

(** What the constructor [Linear(in_features, out_features)] establishes. *)
Definition wf (l : t) : Prop :=
  length (weight l) = out_features l ∧
  Forall (λ w, length w = in_features l) (weight l) ∧
  length (bias l) = out_features l.

Definition dot (w x : list R) : R := foldr radd rzero (zip_with rmul x w).

Definition affine (l : t) (x : list R) : list R :=
  zip_with (λ w b, radd (dot w x) b) (weight l) (bias l).

Definition forward_vec (l : t) (x : list R) : Res (list R) :=
  if decide (length x = in_features l)
  then Ok (affine l x)
  else Raise RuntimeError.

(** [forward l k j x] applies the layer to a tensor with [k] batch axes and
    [j] further axes before the final one. *)
Definition forward (l : t) (k j : nat) (x : tens k (tens j (list R)))
    : Res (tens k (tens j (list R))) :=
  tmapM k (tmapM j (forward_vec l)) x.

End defs.
Global Arguments t R : clear implicits.
End Linear.

Section primitives.
Context {R : Type} `{Scalar R}.

(** [torch.arange(start, end)] on integers. *)
Definition arange (start stop : Z) : list Z :=
  (λ i : nat, start + Z.of_nat i) <$> seq 0 (Z.to_nat (stop - start)).

(** Index of the last boundary of [v_bins] that does not exceed [x], scanning
    from position [j]; [best] when there is none. *)
Fixpoint last_le (x : R) (v_bins : list Z) (j best : nat) : nat :=
  match v_bins with
  | [] => best
  | b :: bs => last_le x bs (S j) (if bound_le b x then j else best)
  end.

Definition bucket (x : R) (v_bins : list Z) : nat := last_le x v_bins 0%nat 0%nat.

(** Modelled from the spec: [one_hot] of [fastfold.utils.tensor_utils] is not
    among the sources.  The spec: for each offset value, select the bucket
    index of the largest boundary not exceeding it, clamping offsets beyond
    the boundaries into the extreme buckets; the result is a one-hot vector
    with one entry per boundary.  For ascending boundaries the largest
    boundary not exceeding [x] is the last one, and an offset below every
    boundary falls into bucket 0. *)
Definition one_hot (x : R) (v_bins : list Z) : list R :=
  (λ j : nat, if decide (j = bucket x v_bins) then rone else rzero)
    <$> seq 0 (length v_bins).

(** The one-hot vector of width [n] with its one at position [i]. *)
Definition unit_vec (n i : nat) : list R :=
  (λ j : nat, if decide (j = i) then rone else rzero) <$> seq 0 n.

(** [x.unsqueeze(-1)], [x.unsqueeze(-2)] on the trailing axes of one batch
    element. *)
Definition unsqueeze_last {A} (v : list A) : list (list A) := (λ x, [x]) <$> v.
Definition unsqueeze_front {A} (v : A) : list A := [v].

(** [Tensor.expand] on one axis: a size-1 axis is repeated [n] times, an axis
    that already has size [n] is kept. *)
Definition expand_axis {A} (n : nat) (l : list A) : Res (list A) :=
  match l with
  | [x] => Ok (replicate n x)
  | _ => if decide (length l = n) then Ok l else Raise RuntimeError
  end.

(** Size of the axis just below the batch axes ([shape[-3]] of a tensor with
    two further axes), read off the first batch element. *)
Fixpoint axis_len {A} (k : nat) : tens k (list A) → nat :=
  match k with
  | O => λ l, length l
  | S k => λ t : list (tens k (list A)),
      match t with [] => O | u :: _ => axis_len k u end
  end.

(** Pointwise scalar operations with broadcasting over [j] trailing axes. *)
Definition badd (j : nat) : tens j R → tens j R → Res (tens j R) :=
  tbzip j (λ x y, Ok (radd x y)).
Definition bsub (j : nat) : tens j R → tens j R → Res (tens j R) :=
  tbzip j (λ x y, Ok (rsub x y)).
Definition iadd (j : nat) : tens j R → tens j R → Res (tens j R) :=
  tizip j (λ x y, Ok (radd x y)).

End primitives.

(** ** [InputEmbedder] *)

Module InputEmbedder.
Section defs.
Context {R : Type} `{Scalar R}.

Record t : Type := mk {
  tf_dim : nat;
  msa_dim : nat;
  c_z : nat;
  c_m : nat;
  linear_tf_z_i : Linear.t R;
  linear_tf_z_j : Linear.t R;
  linear_tf_m : Linear.t R;
  linear_msa_m : Linear.t R;
  relpos_k : nat;
  no_bins : nat;
  linear_relpos : Linear.t R
}.

(** What [__init__] establishes: the widths of the five projections and
    [no_bins = 2 * relpos_k + 1]. *)
Definition has_dims (l : Linear.t R) (i o : nat) : Prop :=
  Linear.wf l ∧ Linear.in_features l = i ∧ Linear.out_features l = o.

Definition constructed (self : t) : Prop :=
  has_dims (linear_tf_z_i self) (tf_dim self) (c_z self) ∧
  has_dims (linear_tf_z_j self) (tf_dim self) (c_z self) ∧
  has_dims (linear_tf_m self) (tf_dim self) (c_m self) ∧
  has_dims (linear_msa_m self) (msa_dim self) (c_m self) ∧
  no_bins self = (2 * relpos_k self + 1)%nat ∧
  has_dims (linear_relpos self) (no_bins self) (c_z self).

(** [relpos] on a residue-index tensor [ri] of shape [[*, N]].  The elements
    of [ri] are of the scalar type of the weights, as [forward] passes them
    ([ri.type(tf_emb_i.dtype)]), so the cast [.type(ri.dtype)] of the one-hot
    encoding leaves it in that type. *)
Definition relpos (self : t) (k : nat) (ri : tens k (list R))
    : Res (tens k (list (list (list R)))) :=
  (* d = ri[..., None] - ri[..., None, :] *)
  d ← tbzip (C:=list (list R)) k (bsub (R:=R) 2)
        (tmap k unsqueeze_last ri) (tmap k unsqueeze_front ri);
  let boundaries := arange (- Z.of_nat (relpos_k self)) (Z.of_nat (relpos_k self) + 1) in
  (* oh = one_hot(d, boundaries).type(ri.dtype) *)
  let oh := tmap k (fmap (M:=list) (fmap (M:=list) (λ x : R, one_hot x boundaries))) d in
  Linear.forward (linear_relpos self) k 2 oh.

Definition forward (self : t) (k : nat)
    (tf : tens k (list (list R))) (ri : tens k (list Z))
    (msa : tens k (list (list (list R))))
    : Res (tens k (list (list (list R))) * tens k (list (list (list R)))) :=
  (* [*, N_res, c_z] *)
  tf_emb_i ← Linear.forward (linear_tf_z_i self) k 1 tf;
  tf_emb_j ← Linear.forward (linear_tf_z_j self) k 1 tf;
  (* [*, N_res, N_res, c_z] *)
  (* pair_emb = self.relpos(ri.type(tf_emb_i.dtype)) *)
  pair_emb ← relpos self k (tmap k (fmap (M:=list) of_Z) ri);
  (* pair_emb += tf_emb_i[..., None, :] + tf_emb_j[..., None, :, :] *)
  outer ← tbzip (C:=list (list (list R))) k (badd (R:=R) 3)
             (tmap k (fmap (M:=list) unsqueeze_front) tf_emb_i)
             (tmap k unsqueeze_front tf_emb_j);
  pair_emb ← tizip (A:=list (list (list R))) k (iadd (R:=R) 3) pair_emb outer;
  (* [*, N_clust, N_res, c_m] *)
  let n_clust := axis_len k msa in
  (* tf_m = self.linear_tf_m(tf).unsqueeze(-3).expand(..., n_clust, -1, -1) *)
  tf_m0 ← Linear.forward (linear_tf_m self) k 1 tf;
  tf_m ← tmapM k (expand_axis n_clust) (tmap k unsqueeze_front tf_m0);
  (* msa_emb = self.linear_msa_m(msa) + tf_m *)
  msa_m ← Linear.forward (linear_msa_m self) k 2 msa;
  msa_emb ← tbzip (C:=list (list (list R))) k (badd (R:=R) 3) msa_m tf_m;
  Ok (msa_emb, pair_emb).

End defs.
Global Arguments t R : clear implicits.
End InputEmbedder.

(** ** [TemplateAngleEmbedder], [TemplatePairEmbedder], [ExtraMSAEmbedder] *)

Module TemplateAngleEmbedder.
Section defs.
Context {R : Type} `{Scalar R}.

Record t : Type := mk {
  c_in : nat;
  c_out : nat;
  linear_1 : Linear.t R;
  linear_2 : Linear.t R
}.

(** What [__init__] establishes: [linear_1 = Linear(c_in, c_out)] and
    [linear_2 = Linear(c_out, c_out)]. *)
Definition constructed (self : t) : Prop :=
  InputEmbedder.has_dims (linear_1 self) (c_in self) (c_out self) ∧
  InputEmbedder.has_dims (linear_2 self) (c_out self) (c_out self).

(** [nn.ReLU] on a tensor with [k] leading axes. *)
Definition relu (k : nat) (x : tens k (list R)) : tens k (list R) :=
  tmap k (fmap (M:=list) rrelu) x.

(** [forward] on a tensor [x] of shape [[*, c_in]]; the leading axes
    ([*, N_templ, N_res] in the docstring) are the [k] axes of [tens]. *)
Definition forward (self : t) (k : nat) (x : tens k (list R)) : Res (tens k (list R)) :=
  x ← Linear.forward (linear_1 self) k 0 x;
  let x := relu k x in
  x ← Linear.forward (linear_2 self) k 0 x;
  Ok x.

End defs.
Global Arguments t R : clear implicits.
End TemplateAngleEmbedder.

Module TemplatePairEmbedder.
Section defs.
Context {R : Type} `{Scalar R}.

Record t : Type := mk { c_in : nat; c_out : nat; linear : Linear.t R }.

Definition forward (self : t) (k : nat) (x : tens k (list R)) : Res (tens k (list R)) :=
  x ← Linear.forward (linear self) k 0 x;
  Ok x.

End defs.
Global Arguments t R : clear implicits.
End TemplatePairEmbedder.

Module ExtraMSAEmbedder.
Section defs.
Context {R : Type} `{Scalar R}.

Record t : Type := mk { c_in : nat; c_out : nat; linear : Linear.t R }.

Definition forward (self : t) (k : nat) (x : tens k (list R)) : Res (tens k (list R)) :=
  x ← Linear.forward (linear self) k 0 x;
  Ok x.

End defs.
Global Arguments t R : clear implicits.
End ExtraMSAEmbedder.

(** ** Python values, tensor handles and the call trace

    [TemplateEmbedder.forward] orchestrates collaborators; what matters there
    is where a tensor lives, its shape and dtype, which values flow into which
    call, and which exception is raised.  A tensor is a handle: shape, dtype
    and device around a payload of an abstract type [D]. *)

(** The values the untyped argument [chunk_size] can take. [PyObject] stands
    for any object that is neither [None], a [bool], an [int] nor a [str] and
    has no multiplication with an [int]. *)
Inductive pyval : Type :=
| PyNone
| PyBool (b : bool)
| PyInt (n : Z)
| PyStr (s : string)
| PyObject (id : nat).

Global Instance pyval_eq_dec : EqDecision pyval.
Proof. solve_decision. Defined.

(** [isinstance(v, int)] with the integer value; [bool] is a subclass of
    [int] in Python. *)
Definition as_int (v : pyval) : option Z :=
  match v with
  | PyBool b => Some (if b then 1 else 0)
  | PyInt n => Some n
  | _ => None
  end.

Fixpoint str_repeat (s : string) (n : nat) : string :=
  match n with O => EmptyString | S n => String.append s (str_repeat s n) end.

(** [v * 256]. *)
Definition py_mul_256 (v : pyval) : Res pyval :=
  match v with
  | PyNone => Raise TypeError
  | PyBool b => Ok (PyInt ((if b then 1 else 0) * 256))
  | PyInt n => Ok (PyInt (n * 256))
  | PyStr s => Ok (PyStr (str_repeat s 256))
  | PyObject _ => Raise TypeError
  end.

Module Torch.

Inductive Device : Type := Cpu | Cuda (index : nat).
Inductive DType : Type := Float16 | BFloat16 | Float32 | Float64.

Global Instance Device_eq_dec : EqDecision Device.
Proof. solve_decision. Defined.
Global Instance DType_eq_dec : EqDecision DType.
Proof. solve_decision. Defined.

Section defs.
Context {D : Type}.

Record Tensor : Type := mkTensor {
  shape : list nat;
  dtype : DType;
  device : Device;
  data : D
}.

(** The accumulation tensor [t]: its first axis is the template axis, and
    [slots] holds what has been stored at each template index, [None] for the
    uninitialised memory [torch.empty] returns. *)
Record Buffer : Type := mkBuffer {
  b_shape : list nat;
  b_dtype : DType;
  b_device : Device;
  slots : list (option D)
}.

(** [torch.empty((n, d0, d1, c), dtype=, device=)]. *)
Definition empty (n d0 d1 c : nat) (dt : DType) (dev : Device) : Buffer :=
  mkBuffer [n; d0; d1; c] dt dev (replicate n None).

(** [x.to(device)]: the payload is unchanged. *)
Definition to_device (dev : Device) (x : Tensor) : Tensor :=
  mkTensor (shape x) (dtype x) dev (data x).

(** [x.to(dtype)], with the conversion of the payload a parameter. *)
Definition to_dtype (cast : DType → D → D) (dt : DType) (x : Tensor) : Tensor :=
  mkTensor (shape x) dt (device x) (cast dt (data x)).

(** [x.unsqueeze(-3)]: a new axis of size 1 third from the end; a tensor with
    fewer than two axes has no such position. *)
Definition unsqueeze_m3 (x : Tensor) : Res Tensor :=
  let r := length (shape x) in
  if decide (2 ≤ r)%nat
  then Ok (mkTensor (take (r - 2) (shape x) ++ 1%nat :: drop (r - 2) (shape x))
                    (dtype x) (device x) (data x))
  else Raise IndexError.

(** Shapes accepted by an indexed assignment [t[i] = v]: leading axes of size
    1 of [v] are dropped, and the rest must expand to the shape of [t[i]]
    (aligned at the last axis, each size equal or 1). *)
Fixpoint strip_ones (s : list nat) : list nat :=
  match s with
  | n :: s' => if decide (n = 1%nat) then strip_ones s' else s
  | [] => []
  end.

Fixpoint expands_rev (src dst : list nat) : bool :=
  match src, dst with
  | [], _ => true
  | _ :: _, [] => false
  | s :: src, d :: dst =>
      (bool_decide (s = d) || bool_decide (s = 1%nat)) && expands_rev src dst
  end.

Definition expands_to (src dst : list nat) : bool :=
  expands_rev (reverse src) (reverse dst).

Definition assignable (vshape slot_shape : list nat) : bool :=
  bool_decide (vshape = slot_shape) || expands_to (strip_ones vshape) slot_shape.

(** The shape of one slot [t[i]]. *)
Definition slot_shape (t : Buffer) : list nat := tail (b_shape t).

(** [t[i] = v]. *)
Definition setitem (t : Buffer) (i : nat) (v : Tensor) : Res Buffer :=
  if decide (i < length (slots t))%nat then
    if assignable (shape v) (slot_shape t)
    then Ok (mkBuffer (b_shape t) (b_dtype t) (b_device t) (<[i := Some (data v)]> (slots t)))
    else Raise RuntimeError
  else Raise IndexError.

End defs.
Global Arguments Tensor D : clear implicits.
Global Arguments Buffer D : clear implicits.
End Torch.

(** Calls whose arguments the properties below speak about. *)
Inductive event : Type :=
| EvEmpty (shape : list nat) (dtype : Torch.DType) (device : Torch.Device)
| EvPairFeat (i : nat) (chunk : pyval)
| EvPairStack (i : nat) (inplace : bool) (chunk_size : pyval) (mask_trans : bool)
| EvPointwiseAtt (chunk_size : pyval).

Definition is_alloc (e : event) : Prop :=
  match e with EvEmpty _ _ _ => True | _ => False end.

(** A computation that may raise and records its calls. *)
Record M (A : Type) : Type := mkM { trace : list event; result : Res A }.
Arguments mkM {A} trace result.
Arguments trace {A} m.
Arguments result {A} m.

Global Instance M_ret : MRet M := λ A a, mkM [] (Ok a).
Global Instance M_bind : MBind M := λ A B f m,
  match result m with
  | Ok a => mkM (trace m ++ trace (f a)) (result (f a))
  | Raise e => mkM (trace m) (Raise e)
  end.

Definition lift {A} (r : Res A) : M A := mkM [] r.
Definition emit (e : event) : M unit := mkM [e] (Ok ()).

(** [for x in xs: st = body(x, st)]. *)
Fixpoint for_each {A S} (xs : list A) (body : A → S → M S) (st : S) : M S :=
  match xs with
  | [] => mret st
  | x :: xs => st ← body x st; for_each xs body st
  end.

(** [d[key]] on a dict. *)
Definition getitem {V} (d : gmap string V) (key : string) : Res V :=
  match d !! key with Some v => Ok v | None => Raise (KeyError key) end.

(** [del name] on a local variable. *)
Definition del_local {V} (name : string) (v : option V) : Res unit :=
  match v with Some _ => Ok () | None => Raise (UnboundLocalError name) end.

(** ** [TemplateEmbedder] *)

Module TemplateEmbedder.
Import Torch.
Section defs.
Context {D : Type}.

Local Abbreviation Tensor := (Torch.Tensor D).
Local Abbreviation Buffer := (Torch.Buffer D).
Local Abbreviation Dict := (gmap string (Torch.Tensor D)).

(** The members of [self]: [config.embed_angles] and the four sub-modules
    built by [__init__].  The angle and pair embedders are the modules
    modelled above, here acting on tensor handles.  The pair stack and the
    pointwise attention ([fastfold.model.nn.template]) are not among the
    sources; they are taken as they are called, as functions that return a
    tensor or raise. *)
Record module : Type := mk {
  embed_angles : bool;
  template_angle_embedder : Tensor → Res Tensor;
  template_pair_embedder : Tensor → Res Tensor;
  template_pair_stack : Tensor → Tensor → pyval → bool → Res Tensor;
  template_pointwise_att : Buffer → Tensor → Tensor → pyval → Res Tensor
}.

(** The imported helpers [forward] calls ([fastfold.utils.feats],
    [fastfold.utils.tensor_utils], [torch]), none of them among the sources.
    [tensor_tree_index_select batch templ_dim i] is
    [tensor_tree_map(lambda t: torch.index_select(t, templ_dim, idx), batch)]
    for [idx = i]; [build_template_pair_feat feats chunk] has the
    configuration arguments fixed; [dict_multimap_cat templ_dim dicts] is
    [dict_multimap(partial(torch.cat, dim=templ_dim), dicts)]. *)
Record imports : Type := mkImports {
  cast : DType → D → D;
  tensor_tree_index_select : Dict → Z → nat → Res Dict;
  build_template_angle_feat : Dict → Res Tensor;
  build_template_pair_feat : Dict → pyval → Res Tensor;
  dict_multimap_cat : Z → list Dict → Res Dict
}.

(** Modelled from the spec: [TemplatePairStack.inplace] is not among the
    sources.  The spec: an in-place variant of the pair stack with identical
    contract, which mutates the wrapped single-element sequence it is given
    instead of allocating a fresh output, and returns that sequence. *)
Definition template_pair_stack_inplace (self : module) (tt : list Tensor)
    (mask : Tensor) (chunk_size : pyval) (_mask_trans : bool) : Res (list Tensor) :=
  x ← py_index tt 0;
  y ← template_pair_stack self x mask chunk_size _mask_trans;
  Ok (<[0%nat := y]> tt).

(** What the local name [tt] is bound to: a tensor, or the list that wraps
    it on the in-place path. *)
Inductive tt_value : Type :=
| TTensor (x : Tensor)
| TList (l : list Tensor).

(** The local variables that live across loop iterations; [None] is an
    unbound name. *)
Record locals : Type := mkLocals {
  t : Buffer;
  template_embeds : list Dict;
  tt : option tt_value;
  single_template_feats : option Dict
}.

(** [isinstance(chunk_size, int) and 1 <= chunk_size <= 4]. *)
Definition small_chunk (chunk_size : pyval) : bool :=
  match as_int chunk_size with
  | Some n => bool_decide (1 ≤ n ≤ 4)
  | None => false
  end.

(** [torch.empty((n_templ, z.shape[0], z.shape[1], 64), dtype=z.dtype,
    device=dev)]. *)
Definition empty_for (n_templ : nat) (z : Tensor) (dev : Device) : M Buffer :=
  z0 ← lift (py_index (shape z) 0);
  z1 ← lift (py_index (shape z) 1);
  emit (EvEmpty [n_templ; z0; z1; 64%nat] (dtype z) dev);;
  mret (empty n_templ z0 z1 64 (dtype z) dev).

(** One iteration of [for i in range(n_templ)]. *)
Definition loop_body (self : module) (imp : imports) (batch : Dict)
    (z pair_mask : Tensor) (templ_dim : Z) (chunk_size : pyval)
    (_mask_trans inplace : bool) (i : nat) (st : locals) : M locals :=
  single_template_feats ← lift (tensor_tree_index_select imp batch templ_dim i);
  single_template_embeds ←
    (if embed_angles self then
       template_angle_feat ← lift (build_template_angle_feat imp single_template_feats);
       a ← lift (template_angle_embedder self template_angle_feat);
       mret (<["angle" := a]> (∅ : Dict))
     else mret (∅ : Dict));
  emit (EvPairFeat i chunk_size);;
  tt ← lift (build_template_pair_feat imp single_template_feats chunk_size);
  let tt := to_device (device z) (to_dtype (cast imp) (dtype z) tt) in
  tt ← lift (template_pair_embedder self tt);
  let template_embeds := template_embeds st ++ [single_template_embeds] in
  if inplace then
    let tt := [tt] in
    mask ← lift (unsqueeze_m3 pair_mask);
    let mask := to_dtype (cast imp) (dtype z) mask in
    emit (EvPairStack i true chunk_size _mask_trans);;
    tt ← lift (template_pair_stack_inplace self tt mask chunk_size _mask_trans);
    r ← lift (py_index tt 0);
    t ← lift (setitem (t st) i (to_device (b_device (t st)) r));
    mret (mkLocals t template_embeds (Some (TList tt)) (Some single_template_feats))
  else
    mask ← lift (unsqueeze_m3 pair_mask);
    let mask := to_dtype (cast imp) (dtype z) mask in
    emit (EvPairStack i false chunk_size _mask_trans);;
    r ← lift (template_pair_stack self tt mask chunk_size _mask_trans);
    t ← lift (setitem (t st) i (to_device (b_device (t st)) r));
    mret (mkLocals t template_embeds (Some (TTensor tt)) (Some single_template_feats)).

(** The state after the allocation and the loop. *)
Definition embed_templates (self : module) (imp : imports) (batch : Dict)
    (z pair_mask : Tensor) (templ_dim : Z) (chunk_size : pyval)
    (_mask_trans inplace : bool) : M locals :=
  aatype ← lift (getitem batch "template_aatype");
  n_templ ← lift (py_index (shape aatype) templ_dim);
  t ← (if small_chunk chunk_size
       then empty_for n_templ z Cpu
       else empty_for n_templ z (device z));
  for_each (seq 0 n_templ)
    (loop_body self imp batch z pair_mask templ_dim chunk_size _mask_trans inplace)
    (mkLocals t [] None None).

(** [chunk_size * 256 if chunk_size is not None else chunk_size]. *)
Definition att_chunk_size (chunk_size : pyval) : Res pyval :=
  if decide (chunk_size = PyNone) then Ok chunk_size else py_mul_256 chunk_size.

Definition forward (self : module) (imp : imports) (batch : Dict)
    (z pair_mask : Tensor) (templ_dim : Z) (chunk_size : pyval)
    (_mask_trans inplace : bool) : M (Dict * Tensor) :=
  st ← embed_templates self imp batch z pair_mask templ_dim chunk_size _mask_trans inplace;
  (* del tt, single_template_feats *)
  lift (del_local "tt" (tt st));;
  lift (del_local "single_template_feats" (single_template_feats st));;
  template_embeds ← lift (dict_multimap_cat imp templ_dim (template_embeds st));
  template_mask ← lift (getitem batch "template_mask");
  let template_mask := to_dtype (cast imp) (dtype z) template_mask in
  chunk ← lift (att_chunk_size chunk_size);
  emit (EvPointwiseAtt chunk);;
  z ← lift (template_pointwise_att self (t st) z template_mask chunk);
  ret ← (if embed_angles self then
           a ← lift (getitem template_embeds "angle");
           mret (<["template_single_embedding" := a]> (∅ : Dict))
         else mret (∅ : Dict));
  mret (ret, z).

(** Modelled from the spec: the chunking contract of the collaborators, whose
    code is not among the sources.  The spec: chunking parameters control how
    the attention-stack and pointwise-attention collaborators internally
    subdivide their own computation; this is a performance knob that never
    alters an output.  [chunk_enabled] singles out the chunk sizes the
    contract speaks about, [None] and the positive integers; the pointwise
    attention also reads its template stack wherever the buffer was placed. *)
Definition chunk_enabled (chunk_size : pyval) : Prop :=
  chunk_size = PyNone ∨ ∃ n, chunk_size = PyInt n ∧ 1 ≤ n.

Record chunk_invariant (self : module) (imp : imports) : Prop := {
  pair_feat_chunk : ∀ feats c c',
    chunk_enabled c → chunk_enabled c' →
    build_template_pair_feat imp feats c = build_template_pair_feat imp feats c';
  pair_stack_chunk : ∀ x mask mt c c',
    chunk_enabled c → chunk_enabled c' →
    template_pair_stack self x mask c mt = template_pair_stack self x mask c' mt;
  pointwise_att_chunk : ∀ b b' z mask c c',
    chunk_enabled c → chunk_enabled c' →
    b_shape b = b_shape b' → b_dtype b = b_dtype b' → slots b = slots b' →
    template_pointwise_att self b z mask c = template_pointwise_att self b' z mask c'
}.

(** Two buffers with the same contents, possibly on different devices. *)
Definition same_contents (b b' : Buffer) : Prop :=
  b_shape b = b_shape b' ∧ b_dtype b = b_dtype b' ∧ slots b = slots b'.

(** Local states that differ at most in where the buffer lives. *)
Definition same_values (st st' : locals) : Prop :=
  same_contents (t st) (t st') ∧
  template_embeds st = template_embeds st' ∧
  tt st = tt st' ∧
  single_template_feats st = single_template_feats st'.

(** Local states that differ at most in what the name [tt] is bound to
    (the tensor, or the list that wraps it), bound in both or in neither. *)
Definition same_but_tt (st st' : locals) : Prop :=
  t st = t st' ∧
  template_embeds st = template_embeds st' ∧
  (is_Some (tt st) ↔ is_Some (tt st')) ∧
  single_template_feats st = single_template_feats st'.

(** What each recorded call must look like in a run with pair embedding [z]
    and argument [chunk_size]: the allocation has the dtype of [z] and sits
    on the CPU exactly for a small chunk size, otherwise on the device of
    [z]; the pair-feature builder and the pair stack receive [chunk_size]
    itself, the pointwise attention [chunk_size * 256] unless it is [None]. *)
Definition call_ok (z : Tensor) (chunk_size : pyval) (e : event) : Prop :=
  match e with
  | EvEmpty _ dt dev =>
      dt = dtype z ∧ dev = (if small_chunk chunk_size then Cpu else device z)
  | EvPairFeat _ c => c = chunk_size
  | EvPairStack _ _ c _ => c = chunk_size
  | EvPointwiseAtt c => att_chunk_size chunk_size = Ok c
  end.

(** The shape of the pair stack's output for one template, as the comments of
    [forward] give it, [[*, S_t, N, N, C_t]] with [S_t = 1] after the
    [index_select], and the same without the template axis. *)
Definition pair_stack_out_shape (bs : list nat) (n c_t : nat) : list nat :=
  bs ++ [1; n; n; c_t]%nat.
Definition per_template_shape (bs : list nat) (n c_t : nat) : list nat :=
  bs ++ [n; n; c_t]%nat.

End defs.
Global Arguments module D : clear implicits.
Global Arguments imports D : clear implicits.
Global Arguments locals D : clear implicits.
End TemplateEmbedder.

(** ** Reference forms used in the statements *)

(** Entries of a tensor with one and with two further axes before the
    channel axis: [t[p][i]] and [t[p][i][j]] for a batch index [p]. *)
Definition at2 {A} (k : nat) (t : tens k (list A)) (p : list nat) (i : nat) : option A :=
  m ← tget k t p; m !! i.
Definition at3 {A} (k : nat) (t : tens k (list (list A))) (p : list nat) (i j : nat)
    : option A :=
  m ← tget k t p; r ← m !! i; r !! j.

(** A batch index within the batch shape. *)
Definition in_batch (p bs : list nat) : Prop := Forall2 (λ i b : nat, (i < b)%nat) p bs.

(** The residues of [l] at the positions [idx], in that order (a gather
    along the residue axis; a permutation when [idx] is one). *)
Definition select {A} (idx : list nat) (l : list A) : list A :=
  omap (λ i, l !! i) idx.

(** Pointwise combination of two tensors over the leading axes. *)
Fixpoint tzip_with {A B C} (k : nat) (f : A → B → C) : tens k A → tens k B → tens k C :=
  match k with O => f | S k => zip_with (tzip_with k f) end.

(** An offset clamped to the window [[-k, k]]. *)
Definition clamp (k : nat) (d : Z) : Z := Z.max (- Z.of_nat k) (Z.min (Z.of_nat k) d).

(** A row of residue indices all of whose members, their shifts by [c] and
    their pairwise differences have magnitude at most [bound]. *)
Definition exact_row (bound c : Z) (v : list Z) : Prop :=
  Forall (λ a, Z.abs a ≤ bound ∧ Z.abs (a + c) ≤ bound ∧
               Forall (λ b, Z.abs (a - b) ≤ bound) v) v.

Section reference.
Context {R : Type} `{Scalar R}.

(** The one-hot encodings, of width [2k+1], of the clamped pairwise
    differences of an integer residue-index sequence. *)
Definition clamped_one_hot (k : nat) (zs : list Z) : list (list (list R)) :=
  (λ a, (λ b, unit_vec (2 * k + 1) (Z.to_nat (clamp k (a - b) + Z.of_nat k))) <$> zs) <$> zs.

(** [ri + c] for an integer constant [c]. *)
Definition shift (k : nat) (c : Z) (ri : tens k (list R)) : tens k (list R) :=
  tmap k (fmap (M:=list) (λ a, radd a (of_Z c))) ri.

(** The pairwise differences [d[i][j] = v[i] - v[j]]. *)
Definition outer_diff (v : list R) : list (list R) :=
  (λ a, (λ b, rsub a b) <$> v) <$> v.

(** Pointwise sum of two channel vectors. *)
Definition vadd (u v : list R) : list R := zip_with radd u v.

(** [relpos] of one batch element in closed form: the projection of the
    one-hot encodings of the pairwise differences. *)
Definition relpos_ref (self : InputEmbedder.t R) (v : list R) : list (list (list R)) :=
  fmap (M:=list) (fmap (M:=list) (Linear.affine (InputEmbedder.linear_relpos self)))
    (fmap (M:=list) (fmap (M:=list)
       (λ x, one_hot x (arange (- Z.of_nat (InputEmbedder.relpos_k self))
                               (Z.of_nat (InputEmbedder.relpos_k self) + 1))))
       (outer_diff v)).

(** The outer sum [s[i][j] = row[i] + col[j]] of two sequences of channel
    vectors. *)
Definition outer_sum (row col : list (list R)) : list (list (list R)) :=
  (λ a, (λ b, vadd a b) <$> col) <$> row.

(** One entry of the pair embedding, from the target features [x_i], [x_j]
    and the residue indices [r_i], [r_j] of the two residues alone. *)
Definition pair_entry (self : InputEmbedder.t R) (x_i x_j : list R) (r_i r_j : Z) : list R :=
  vadd
    (Linear.affine (InputEmbedder.linear_relpos self)
       (one_hot (rsub (of_Z r_i) (of_Z r_j))
          (arange (- Z.of_nat (InputEmbedder.relpos_k self))
                  (Z.of_nat (InputEmbedder.relpos_k self) + 1))))
    (vadd (Linear.affine (InputEmbedder.linear_tf_z_i self) x_i)
          (Linear.affine (InputEmbedder.linear_tf_z_j self) x_j)).

(** One entry of the MSA embedding, from the MSA features [m] of one cluster
    at one residue and the target features [x] of that residue. *)
Definition msa_entry (self : InputEmbedder.t R) (m x : list R) : list R :=
  vadd (Linear.affine (InputEmbedder.linear_msa_m self) m)
       (Linear.affine (InputEmbedder.linear_tf_m self) x).

(** The first channel vector of a block, the only one of a [[1, 1, C]]
    block. *)
Definition first_vec (t : list (list (list R))) : list R :=
  default [] (t !! 0%nat ≫= (.!! 0%nat)).

(** A block with the channel vector [v] added at every position. *)
Definition add_everywhere (t : list (list (list R))) (v : list R) : list (list (list R)) :=
  fmap (M:=list) (fmap (M:=list) (λ r, vadd r v)) t.

(** Pointwise sum of two [[N, M, C]] blocks. *)
Definition add3 (x y : list (list (list R))) : list (list (list R)) :=
  zip_with (zip_with vadd) x y.

End reference.

Section template_reference.
Import Torch TemplateEmbedder.
Context {D : Type}.

(** What one iteration of the loop of [TemplateEmbedder.forward] stores at
    [t[i]], computed from the arguments of [forward] and the index [i] alone:
    the pair stack applied to the embedded pair features of template [i]. *)
Definition template_slot (self : module D) (imp : imports D)
    (batch : gmap string (Tensor D)) (z pair_mask : Tensor D) (templ_dim : Z)
    (chunk_size : pyval) (_mask_trans : bool) (i : nat) : Res D :=
  feats ← tensor_tree_index_select imp batch templ_dim i;
  x ← build_template_pair_feat imp feats chunk_size;
  y ← template_pair_embedder self (to_device (device z) (to_dtype (cast imp) (dtype z) x));
  mask ← unsqueeze_m3 pair_mask;
  r ← template_pair_stack self y (to_dtype (cast imp) (dtype z) mask) chunk_size _mask_trans;
  Ok (data r).

(** The calls of one iteration that runs to its end. *)
Definition template_calls (chunk_size : pyval) (_mask_trans inplace : bool) (i : nat)
    : list event :=
  [EvPairFeat i chunk_size; EvPairStack i inplace chunk_size _mask_trans].

(** The per-template dictionary [single_template_embeds]: the one key
    ["angle"] when angles are embedded, empty otherwise. *)
Definition angle_only (self : module D) (d : gmap string (Tensor D)) : Prop :=
  if embed_angles self then ∃ a, d = <["angle" := a]> ∅ else d = ∅.

End template_reference.

(** ** Concrete instances

    A small integer-weighted [InputEmbedder], the two scenarios of the spec
    (with constant weights), and a [TemplateEmbedder] whose payloads are
    integers and whose collaborators ignore the chunk size. *)

Module Examples.
Import Torch TemplateEmbedder.

Definition input_small : InputEmbedder.t Z :=
  InputEmbedder.mk 2 1 2 1
    (Linear.mk 2 2 [[1; 0]; [0; 1]] [0; 0])
    (Linear.mk 2 2 [[10; 0]; [0; 10]] [0; 0])
    (Linear.mk 2 1 [[1; 1]] [5])
    (Linear.mk 1 1 [[2]] [0])
    1 3
    (Linear.mk 3 2 [[100; 200; 300]; [1; 2; 3]] [0; 0]).

(** The same embedder with [bfloat16] weights. *)
Definition bf16_linear (l : Linear.t Z) : Linear.t (rounded 8) :=
  Linear.mk (Linear.in_features l) (Linear.out_features l)
    (fmap (M:=list) (fmap (M:=list) of_Z) (Linear.weight l))
    (fmap (M:=list) of_Z (Linear.bias l)).

Definition input_bfloat16 : InputEmbedder.t (rounded 8) :=
  InputEmbedder.mk 2 1 2 1
    (bf16_linear (InputEmbedder.linear_tf_z_i input_small))
    (bf16_linear (InputEmbedder.linear_tf_z_j input_small))
    (bf16_linear (InputEmbedder.linear_tf_m input_small))
    (bf16_linear (InputEmbedder.linear_msa_m input_small))
    1 3
    (bf16_linear (InputEmbedder.linear_relpos input_small)).

(** [Linear(i, o)] with every weight 1 and every bias 0. *)
Definition ones (i o : nat) : Linear.t Z :=
  Linear.mk i o (replicate o (replicate i 1)) (replicate o 0).

(** [tf_dim=22, msa_dim=49, c_z=128, c_m=256, relpos_k=32]. *)
Definition input_scenario : InputEmbedder.t Z :=
  InputEmbedder.mk 22 49 128 256
    (ones 22 128) (ones 22 128) (ones 22 256) (ones 49 256)
    32 65 (ones 65 128).

(** Batch size 1, [N_res=10], [N_clust=4]. *)
Definition scenario_tf : tens 1 (list (list Z)) := [replicate 10 (replicate 22 1)].
Definition scenario_ri : tens 1 (list Z) := [Z.of_nat <$> seq 0 10].
Definition scenario_msa : tens 1 (list (list (list Z))) :=
  [replicate 4 (replicate 10 (replicate 49 1))].

(** [c_in=57, c_out=256] on an input of shape [[1, 4, 10, 57]]. *)
Definition angle_scenario : TemplateAngleEmbedder.t Z :=
  TemplateAngleEmbedder.mk 57 256 (ones 57 256) (ones 256 256).
Definition scenario_angle_feat : tens 3 (list Z) :=
  [replicate 4 (replicate 10 (replicate 57 1))].

(** A template embedder over integer payloads. The pair stack adds the mask
    payload and returns a tensor of shape [[1, N, N, 64]]; the pointwise
    attention sums what the buffer holds. *)
Definition sum_slots (l : list (option Z)) : Z :=
  foldr (λ o acc, match o with Some d => d + acc | None => acc end) 0 l.

Definition template_module : module Z := {|
  embed_angles := true;
  template_angle_embedder := λ x, Ok x;
  template_pair_embedder := λ x, Ok (mkTensor [1; 3; 3; 64]%nat (dtype x) (device x) (2 * data x));
  template_pair_stack := λ x mask _ _, Ok (mkTensor (shape x) (dtype x) (device x) (data x + data mask));
  template_pointwise_att := λ b z _ _,
    Ok (mkTensor (shape z) (dtype z) (device z) (data z + sum_slots (slots b)))
|}.

Definition template_imports : imports Z := {|
  cast := λ _ d, d;
  tensor_tree_index_select := λ batch _ i,
    Ok ((λ x, mkTensor (shape x) (dtype x) (device x) (data x + Z.of_nat i)) <$> batch);
  build_template_angle_feat := λ feats, getitem feats "template_aatype";
  build_template_pair_feat := λ feats _,
    x ← getitem feats "template_aatype";
    Ok (mkTensor [1; 3; 3; 88]%nat Float32 Cpu (data x));
  dict_multimap_cat := λ _ dicts,
    match dicts with [] => Raise IndexError | d :: _ => Ok d end
|}.

(** A batch with [T] templates, [N = 3]. *)
Definition template_batch (T : nat) : gmap string (Tensor Z) :=
  <["template_aatype" := mkTensor [T; 3%nat] Float32 (Cuda 0) 7]>
    (<["template_mask" := mkTensor [T] Float32 (Cuda 0) 1]> ∅).

Definition pair_z : Tensor Z := mkTensor [3; 3; 128]%nat BFloat16 (Cuda 0) 1000.
Definition pair_mask : Tensor Z := mkTensor [3; 3]%nat Float32 (Cuda 0) 1.

(** A pair embedding with a single axis, and what [forward] returns for
    [template_batch 2] and [pair_z]. *)
Definition flat_z : Tensor Z := mkTensor [3%nat] BFloat16 (Cuda 0) 1000.
Definition updated_z : Tensor Z := mkTensor [3; 3; 128]%nat BFloat16 (Cuda 0) 1032.
Definition angle_ret : gmap string (Tensor Z) :=
  <["template_single_embedding" := mkTensor [2; 3]%nat Float32 (Cuda 0) 7]> ∅.

(** Single-layer embedders with [c_in=3, c_out=2]. *)
Definition pair_small : TemplatePairEmbedder.t Z :=
  TemplatePairEmbedder.mk 3 2 (Linear.mk 3 2 [[100; 200; 300]; [1; 2; 3]] [0; 0]).
Definition extra_msa_small : ExtraMSAEmbedder.t Z :=
  ExtraMSAEmbedder.mk 3 2 (Linear.mk 3 2 [[1; 0; 0]; [0; 1; 1]] [5; 7]).

End Examples.

(** * Properties *)

(** ** The result monad and traversals *)

Lemma Res_bind_Ok {A B} (f : A → Res B) (a : A) : (Ok a ≫= f) = f a.
Proof. done. Qed.

Lemma Res_bind_eq {A B} (m : Res A) (a : A) (f : A → Res B) (r : Res B) :
  m = Ok a → f a = r → (m ≫= f) = r.
Proof. by intros -> <-. Qed.

Lemma mapM_Res_nil {A B} (f : A → Res B) : mapM f [] = Ok [].
Proof. done. Qed.

Lemma mapM_Res_cons {A B} (f : A → Res B) x l :
  mapM f (x :: l) = (y ← f x; k ← mapM f l; Ok (y :: k)).
Proof. done. Qed.

Section traversal.
Context {A B : Type}.
Implicit Types (f : A → Res B) (l : list A) (k : list B).

Lemma mapM_Ok_1 f l k : mapM f l = Ok k → Forall2 (λ x y, f x = Ok y) l k.
Proof.
  revert k. induction l as [|x l IH]; intros k.
  - rewrite mapM_Res_nil. intros [= <-]. constructor.
  - rewrite mapM_Res_cons.
    destruct (f x) as [y|e] eqn:Hx; [|discriminate].
    destruct (mapM f l) as [k'|e] eqn:Hl; [|discriminate].
    intros [= <-]. constructor; auto.
Qed.

Lemma mapM_Ok_2 f l k : Forall2 (λ x y, f x = Ok y) l k → mapM f l = Ok k.
Proof.
  induction 1 as [|x y l k Hx _ IH]; [done|].
  rewrite mapM_Res_cons, Hx, IH. done.
Qed.

Lemma mapM_Ok f l k : mapM f l = Ok k ↔ Forall2 (λ x y, f x = Ok y) l k.
Proof. split; auto using mapM_Ok_1, mapM_Ok_2. Qed.

Lemma mapM_Res_ext f (g : A → Res B) l :
  Forall (λ x, f x = g x) l → mapM f l = mapM g l.
Proof.
  induction 1 as [|x l Hx _ IH]; [done|].
  by rewrite !mapM_Res_cons, Hx, IH.
Qed.

Lemma mapM_pure (h : A → B) l : mapM (λ x, Ok (h x)) l = Ok (h <$> l).
Proof.
  induction l as [|x l IH]; [done|].
  by rewrite mapM_Res_cons, IH.
Qed.

Lemma mapM_is_Ok f l : Forall (λ x, is_Ok (f x)) l → is_Ok (mapM f l).
Proof.
  induction 1 as [|x l [y Hy] _ [k Hk]]; [by eexists|].
  rewrite mapM_Res_cons, Hy, Hk. by eexists.
Qed.

End traversal.

Lemma mapM_fmap_Res {A B C} (g : A → B) (f : B → Res C) (l : list A) :
  mapM f (g <$> l) = mapM (f ∘ g) l.
Proof.
  induction l as [|x l IH]; [done|].
  by rewrite fmap_cons, !mapM_Res_cons, IH.
Qed.

Lemma zip_fmap_diag {A B C} (g : A → B) (h : A → C) (l : list A) :
  zip (g <$> l) (h <$> l) = (λ x, (g x, h x)) <$> l.
Proof.
  induction l as [|x l IH]; [done|].
  rewrite !fmap_cons. cbn [zip_with]. by rewrite IH.
Qed.

Lemma bzip_same_length {A B C} (f : A → B → Res C) xs ys :
  length xs = length ys → bzip f xs ys = mapM (λ p, f p.1 p.2) (zip xs ys).
Proof. intros Hl. unfold bzip. by rewrite decide_True. Qed.

Lemma izip_same_length {A B} (f : A → B → Res A) xs ys :
  length xs = length ys → izip f xs ys = mapM (λ p, f p.1 p.2) (zip xs ys).
Proof. intros Hl. unfold izip. by rewrite decide_True. Qed.

Lemma bzip_bcast_r {A B C} (f : A → B → Res C) xs y :
  length xs ≠ 1%nat → bzip f xs [y] = mapM (λ x, f x y) xs.
Proof.
  intros Hl. unfold bzip. rewrite decide_False by done.
  destruct xs as [|x [|x' xs]]; done.
Qed.

Lemma bzip_bcast_l {A B C} (f : A → B → Res C) x ys :
  length ys ≠ 1%nat → bzip f [x] ys = mapM (f x) ys.
Proof. intros Hl. unfold bzip. rewrite decide_False; done. Qed.

Lemma bzip_diag {A B C E} (f : B → C → Res E) (g : A → B) (h : A → C) (l : list A) :
  bzip f (g <$> l) (h <$> l) = mapM (λ x, f (g x) (h x)) l.
Proof.
  rewrite bzip_same_length by (by rewrite !length_fmap).
  rewrite zip_fmap_diag, mapM_fmap_Res. done.
Qed.

(** ** Tensors with [k] leading axes *)

Section tens_lemmas.
Context {A B C : Type}.

Lemma tmap_tmap (k : nat) (g : A → B) (f : B → C) (t : tens k A) :
  tmap k f (tmap k g t) = tmap k (f ∘ g) t.
Proof.
  induction k as [|k IH]; [done|]. cbn [tmap].
  rewrite <-list_fmap_compose. apply list_fmap_ext. intros _ u _. apply IH.
Qed.

Lemma tmapM_tmap (k : nat) (g : A → B) (f : B → Res C) (t : tens k A) :
  tmapM k f (tmap k g t) = tmapM k (f ∘ g) t.
Proof.
  induction k as [|k IH]; [done|]. cbn [tmap tmapM].
  rewrite mapM_fmap_Res. apply mapM_Res_ext, Forall_forall. intros u _. apply IH.
Qed.

Lemma tmapM_ext (k : nat) (f g : A → Res B) (t : tens k A) :
  (∀ x, f x = g x) → tmapM k f t = tmapM k g t.
Proof.
  intros Hfg. induction k as [|k IH]; [apply Hfg|]. cbn [tmapM].
  apply mapM_Res_ext, Forall_forall. intros u _. apply IH.
Qed.

Lemma tmap_ext (k : nat) (f g : A → B) (t : tens k A) :
  (∀ x, f x = g x) → tmap k f t = tmap k g t.
Proof.
  intros Hfg. induction k as [|k IH]; [apply Hfg|]. cbn [tmap].
  apply list_fmap_ext. intros _ u _. apply IH.
Qed.

Lemma tmapM_pure (k : nat) (h : A → B) (t : tens k A) :
  tmapM k (λ x, Ok (h x)) t = Ok (tmap k h t).
Proof.
  induction k as [|k IH]; [done|]. cbn [tmap tmapM].
  etrans; [|apply (mapM_pure (tmap k h))].
  apply mapM_Res_ext, Forall_forall. intros u _. apply IH.
Qed.

End tens_lemmas.

Lemma tbzip_diag {A B C E} (k : nat) (f : B → C → Res E) (g : A → B) (h : A → C)
    (t : tens k A) :
  tbzip k f (tmap k g t) (tmap k h t) = tmapM k (λ u, f (g u) (h u)) t.
Proof.
  induction k as [|k IH]; [done|]. cbn [tmap tbzip tmapM].
  rewrite bzip_diag. apply mapM_Res_ext, Forall_forall. intros u _. apply IH.
Qed.

(** ** [relpos]: pairwise differences, buckets and translation *)

Section relpos_lemmas.
Context {R : Type} `{Scalar R}.

Lemma bsub_outer (v : list R) :
  bsub 2 (unsqueeze_last v) (unsqueeze_front v) = Ok (outer_diff v).
Proof.
  unfold bsub, unsqueeze_last, unsqueeze_front, outer_diff. cbn [tbzip].
  destruct (decide (length v = 1%nat)) as [Hv|Hv].
  - destruct v as [|a [|b v]]; try discriminate. done.
  - rewrite bzip_bcast_r by (by rewrite length_fmap).
    rewrite mapM_fmap_Res.
    etrans; [|apply mapM_pure]. apply mapM_Res_ext, Forall_forall. intros x _.
    unfold compose. rewrite bzip_bcast_l by done. apply mapM_pure.
Qed.

Lemma length_arange (start stop : Z) :
  length (arange start stop) = Z.to_nat (stop - start).
Proof. unfold arange. by rewrite length_fmap, length_seq. Qed.

Lemma one_hot_unit_vec (x : R) (v_bins : list Z) :
  one_hot x v_bins = unit_vec (length v_bins) (bucket x v_bins).
Proof. done. Qed.

End relpos_lemmas.

Section relpos_unfolding.
Context {R : Type} `{Scalar R}.

Lemma outer_diff_fmap {X} (g : X → R) (l : list X) :
  outer_diff (g <$> l) = (λ a, (λ b, rsub (g a) (g b)) <$> l) <$> l.
Proof.
  unfold outer_diff. rewrite <-list_fmap_compose.
  apply list_fmap_ext. intros _ a _. cbn. by rewrite <-list_fmap_compose.
Qed.

(** [relpos] as one traversal of the batch. *)
Lemma relpos_unfold (self : InputEmbedder.t R) (k : nat) (ri : tens k (list R)) :
  InputEmbedder.relpos self k ri =
  Linear.forward (InputEmbedder.linear_relpos self) k 2
    (tmap k (λ v, fmap (M:=list) (fmap (M:=list)
       (λ x, one_hot x (arange (- Z.of_nat (InputEmbedder.relpos_k self))
                               (Z.of_nat (InputEmbedder.relpos_k self) + 1))))
       (outer_diff v)) ri).
Proof.
  unfold InputEmbedder.relpos.
  rewrite tbzip_diag.
  rewrite (tmapM_ext k _ (λ v, Ok (outer_diff v))) by apply bsub_outer.
  rewrite tmapM_pure. cbn. by rewrite tmap_tmap.
Qed.

End relpos_unfolding.

Lemma tmap_ext_tall {A B} (k : nat) (P : A → Prop) (f g : A → B) (t : tens k A) :
  tall k P t → (∀ v, P v → f v = g v) → tmap k f t = tmap k g t.
Proof.
  intros Ht Hfg. induction k as [|k IH]; [by apply Hfg|].
  cbn [tmap]. apply Forall_fmap_ext_1.
  eapply Forall_impl; [exact Ht|]. intros u Hu. by apply IH.
Qed.

Section bucket_lemmas.
Context {R : Type} {SR : Scalar R} {bound : Z} {EX : ExactWithin R bound}.

(** On ascending consecutive boundaries [s+j, s+j+1, ..., s+j+n-1] within the
    bound, scanned from position [j], the selected bucket is the offset from
    [s], cut off at the last position. *)
Lemma last_le_consecutive (d s : Z) (n j best : nat) :
  Z.abs d ≤ bound →
  - bound ≤ s + Z.of_nat j → s + Z.of_nat j + Z.of_nat n ≤ bound + 1 →
  last_le (of_Z d) ((λ i : nat, s + Z.of_nat i) <$> seq j n) j best =
  if decide (s + Z.of_nat j ≤ d ∧ (0 < n)%nat)
  then Z.to_nat (Z.min (d - s) (Z.of_nat j + Z.of_nat n - 1))
  else best.
Proof.
  intros Hd. revert j best. induction n as [|n IH]; intros j best Hlo Hhi.
  - cbn. rewrite decide_False by lia. done.
  - cbn [seq]. rewrite fmap_cons. cbn [last_le].
    rewrite IH by lia. rewrite bound_le_of_Z by lia.
    destruct (decide (s + Z.of_nat j ≤ d)) as [Hle|Hgt].
    + rewrite bool_decide_true by done.
      rewrite (decide_True (P := _ ∧ (0 < S n)%nat)) by lia.
      destruct (decide (s + Z.of_nat (S j) ≤ d ∧ (0 < n)%nat)) as [[??]|Hn].
      * f_equal. lia.
      * assert (n = O ∨ d = s + Z.of_nat j) as [->| ->] by lia; lia.
    + rewrite bool_decide_false by done.
      rewrite (decide_False (P := _ ∧ (0 < S n)%nat)) by lia.
      rewrite decide_False by lia. done.
Qed.

Lemma bucket_clamp (k : nat) (d : Z) :
  Z.of_nat k ≤ bound → Z.abs d ≤ bound →
  bucket (of_Z d) (arange (- Z.of_nat k) (Z.of_nat k + 1)) =
  Z.to_nat (clamp k d + Z.of_nat k).
Proof.
  intros Hk Hd. unfold bucket, arange. rewrite last_le_consecutive by lia.
  unfold clamp. destruct (decide _) as [[Hle _]|Hn]; lia.
Qed.

Lemma one_hot_clamp (k : nat) (a b : Z) :
  Z.of_nat k ≤ bound →
  Z.abs a ≤ bound → Z.abs b ≤ bound → Z.abs (a - b) ≤ bound →
  one_hot (rsub (of_Z a) (of_Z b)) (arange (- Z.of_nat k) (Z.of_nat k + 1)) =
  unit_vec (2 * k + 1) (Z.to_nat (clamp k (a - b) + Z.of_nat k)).
Proof.
  intros Hk Ha Hb Hab.
  rewrite one_hot_unit_vec, of_Z_sub, bucket_clamp, length_arange by done.
  f_equal. lia.
Qed.

Lemma outer_diff_shift (c : Z) (zs : list Z) :
  Z.abs c ≤ bound → exact_row bound c zs →
  outer_diff ((λ a, radd a (of_Z c)) <$> (of_Z <$> zs)) = outer_diff (of_Z <$> zs).
Proof.
  intros Hc Hrow. rewrite <-list_fmap_compose, !outer_diff_fmap.
  apply list_fmap_ext. intros i a Ha. cbn.
  destruct (Forall_lookup_1 _ _ _ _ Hrow Ha) as (Ha1 & Ha2 & Hdiff).
  apply list_fmap_ext. intros j b Hb. cbn.
  destruct (Forall_lookup_1 _ _ _ _ Hrow Hb) as (Hb1 & Hb2 & _).
  pose proof (Forall_lookup_1 _ _ _ _ Hdiff Hb) as Hab. cbn in Hab.
  rewrite !of_Z_add by done.
  rewrite !of_Z_sub by (done || by replace (a + c - (b + c)) with (a - b) by lia).
  f_equal. lia.
Qed.

End bucket_lemmas.

(** Within [p] significant bits nothing is rounded. *)
Lemma round_to_exact (p n : Z) : 1 ≤ p → Z.abs n ≤ 2 ^ p → round_to p n = n.
Proof.
  intros Hp Hn. unfold round_to. cbv zeta.
  destruct (decide (Z.abs n < 2 ^ p)) as [Hlt|Hge].
  - assert (Z.log2 (Z.abs n) < p) as Hlog.
    { destruct (decide (Z.abs n = 0)) as [->|Hnz]; [cbn; lia|].
      apply Z.log2_lt_pow2; lia. }
    destruct (Z.leb_spec (Z.log2 (Z.abs n) + 1 - p) 0); [done|lia].
  - assert (Z.abs n = 2 ^ p) as Habs by lia.
    assert (2 ^ p = 2 ^ (p - 1) * 2) as Hpow.
    { replace p with (Z.succ (p - 1)) at 1 by lia. rewrite Z.pow_succ_r by lia. lia. }
    rewrite Habs, Z.log2_pow2 by lia.
    replace (p + 1 - p) with 1 by lia.
    change (1 <=? 0) with false. change (2 ^ 1) with 2. change (2 ^ (1 - 1)) with 1.
    cbv iota.
    rewrite Hpow, Z.div_mul, Z.mod_mul by lia.
    change (0 <? 1) with true. cbv iota.
    rewrite <-Hpow, <-Habs. lia.
Qed.

(** A dtype with a significand of [p] bits is exact up to [2^p]. *)
Lemma rounded_exact (p : Z) : 1 ≤ p → ExactWithin (rounded p) (2 ^ p).
Proof.
  intros Hp. split.
  - intros a c Ha Hc Hac. cbn [radd of_Z rounded_Scalar rval].
    by rewrite (round_to_exact p a), (round_to_exact p c), (round_to_exact p (a + c)).
  - intros a b Ha Hb Hab. cbn [rsub of_Z rounded_Scalar rval].
    by rewrite (round_to_exact p a), (round_to_exact p b), (round_to_exact p (a - b)).
  - intros b z Hb Hz. cbn [bound_le of_Z rounded_Scalar rval].
    by rewrite (round_to_exact p b), (round_to_exact p z).
Qed.

Global Instance Z_exact (bound : Z) : ExactWithin Z bound.
Proof. split; intros; cbn; done. Qed.

Global Instance bfloat16_exact : ExactWithin (rounded 8) 256.
Proof. apply (rounded_exact 8). lia. Qed.

(** C3 (what the code does). [relpos] computes in the dtype of the weights
    ([forward] passes [ri.type(tf_emb_i.dtype)]).  For an integer
    residue-index sequence (with any leading batch axes) and an integer
    constant [c] such that the indices, the shifted indices, [c] and the
    pairwise differences are all within the range on which that dtype is
    exact, [relpos(ri + c)] equals [relpos(ri)]; and if the window [k] is
    within that range too, [relpos(ri)] is the projection by [linear_relpos]
    of the one-hot encodings of the pairwise differences [ri[i] - ri[j]]
    clamped to [[-k, k]]. *)
Theorem relpos_translation_exact_range {R : Type} {SR : Scalar R} (bound : Z)
    {EX : ExactWithin R bound}
    (self : InputEmbedder.t R) (k : nat) (zs : tens k (list Z)) (c : Z) :
  Z.abs c ≤ bound →
  tall k (exact_row bound c) zs →
  let ri := tmap k (fmap (M:=list) of_Z) zs in
  InputEmbedder.relpos self k (shift k c ri) = InputEmbedder.relpos self k ri ∧
  (Z.of_nat (InputEmbedder.relpos_k self) ≤ bound →
   InputEmbedder.relpos self k ri =
     Linear.forward (InputEmbedder.linear_relpos self) k 2
       (tmap k (clamped_one_hot (InputEmbedder.relpos_k self)) zs)).
Proof.
  intros Hc Hrows ri. subst ri. unfold shift. rewrite !relpos_unfold, !tmap_tmap.
  split; [|intros Hk]; f_equal;
    apply (tmap_ext_tall k (exact_row bound c)); try done;
    intros v Hv; unfold compose.
  - by rewrite outer_diff_shift.
  - rewrite outer_diff_fmap. unfold clamped_one_hot. rewrite <-list_fmap_compose.
    apply list_fmap_ext. intros i a Ha. cbn. rewrite <-list_fmap_compose.
    destruct (Forall_lookup_1 _ _ _ _ Hv Ha) as (Ha1 & _ & Hdiff).
    apply list_fmap_ext. intros j b Hb. cbn.
    destruct (Forall_lookup_1 _ _ _ _ Hv Hb) as (Hb1 & _ & _).
    pose proof (Forall_lookup_1 _ _ _ _ Hdiff Hb) as Hab. cbn in Hab.
    by apply one_hot_clamp.
Qed.

(** ** Shapes and pure forms of the traversals *)

Lemma tshape_O {A} bs (P : A → Prop) (a : A) :
  tshape 0 bs P a ↔ bs = [] ∧ P a.
Proof. done. Qed.

Lemma tshape_S {A} (k : nat) b bs (P : A → Prop) (t : list (tens k A)) :
  tshape (S k) (b :: bs) P t ↔ length t = b ∧ Forall (tshape k bs P) t.
Proof. done. Qed.

Lemma tshape_S_inv {A} (k : nat) bs (P : A → Prop) (t : list (tens k A)) :
  tshape (S k) bs P t →
  ∃ b bs', bs = b :: bs' ∧ length t = b ∧ Forall (tshape k bs' P) t.
Proof. destruct bs as [|b bs']; [done|]. intros ?%tshape_S. eauto. Qed.

Section shape_lemmas.
Context {A B C : Type}.

Lemma tshape_weaken (k : nat) bs (P Q : A → Prop) (t : tens k A) :
  (∀ x, P x → Q x) → tshape k bs P t → tshape k bs Q t.
Proof.
  intros HPQ. revert bs t. induction k as [|k IH]; intros bs t.
  - intros [-> ?]%tshape_O. split; auto.
  - intros (b & bs' & -> & Hl & Hall)%tshape_S_inv. apply tshape_S. split; [done|].
    eapply Forall_impl; [exact Hall|]. intros u. apply IH.
Qed.

Lemma tshape_tmap (k : nat) bs (P : A → Prop) (Q : B → Prop) (g : A → B) (t : tens k A) :
  (∀ x, P x → Q (g x)) → tshape k bs P t → tshape k bs Q (tmap k g t).
Proof.
  intros HPQ. revert bs t. induction k as [|k IH]; intros bs t.
  - intros [-> ?]%tshape_O. split; auto.
  - intros (b & bs' & -> & Hl & Hall)%tshape_S_inv. apply tshape_S.
    cbn [tmap]. split.
    + by rewrite length_fmap.
    + apply Forall_fmap. eapply Forall_impl; [exact Hall|]. intros u. apply IH.
Qed.

Lemma tshape_tzip_with (k : nat) bs (P1 : A → Prop) (P2 : B → Prop) (Q : C → Prop)
    (g : A → B → C) (t1 : tens k A) (t2 : tens k B) :
  (∀ x y, P1 x → P2 y → Q (g x y)) →
  tshape k bs P1 t1 → tshape k bs P2 t2 → tshape k bs Q (tzip_with k g t1 t2).
Proof.
  intros HPQ. revert bs t1 t2. induction k as [|k IH]; intros bs t1 t2.
  - intros [-> ?]%tshape_O [_ ?]%tshape_O. split; auto.
  - intros (b & bs' & -> & Hl1 & Hall1)%tshape_S_inv [Hl2 Hall2]%tshape_S.
    apply tshape_S. cbn [tzip_with]. split.
    + rewrite length_zip_with, Hl1, Hl2. apply Nat.min_id.
    + apply Forall_zip_with_fst with (P := tshape k bs' P1); [done|].
      eapply Forall_impl; [exact Hall2|]. intros v Hv u Hu. by apply IH.
Qed.

Lemma tmapM_Ok_pure (k : nat) bs (P : A → Prop) (f : A → Res B) (g : A → B) (t : tens k A) :
  (∀ x, P x → f x = Ok (g x)) → tshape k bs P t → tmapM k f t = Ok (tmap k g t).
Proof.
  intros Hfg. revert bs t. induction k as [|k IH]; intros bs t.
  - intros [_ ?]%tshape_O. by apply Hfg.
  - intros (b & bs' & -> & _ & Hall)%tshape_S_inv. cbn [tmap tmapM].
    etrans; [|apply (mapM_pure (tmap k g))].
    apply mapM_Res_ext. eapply Forall_impl; [exact Hall|]. intros u. apply IH.
Qed.

Lemma tget_tmap (k : nat) (g : A → B) (t : tens k A) p :
  tget k (tmap k g t) p = g <$> tget k t p.
Proof.
  revert t p. induction k as [|k IH]; intros t p.
  - by destruct p.
  - destruct p as [|i p]; [done|]. cbn [tget tmap].
    rewrite list_lookup_fmap. change (tens (S k) A) with (list (tens k A)) in t.
    destruct (t !! i) as [u|]; [|done]. apply IH.
Qed.

Lemma tget_tzip_with (k : nat) (g : A → B → C) (t1 : tens k A) (t2 : tens k B) p :
  tget k (tzip_with k g t1 t2) p = (x ← tget k t1 p; y ← tget k t2 p; Some (g x y)).
Proof.
  revert t1 t2 p. induction k as [|k IH]; intros t1 t2 p.
  - by destruct p.
  - destruct p as [|i p]; [done|]. cbn [tget tzip_with].
    rewrite lookup_zip_with.
    change (tens (S k) A) with (list (tens k A)) in t1.
    change (tens (S k) B) with (list (tens k B)) in t2.
    destruct (t1 !! i) as [u|]; [|done]. cbn.
    destruct (t2 !! i) as [v|]; cbn; [apply IH|].
    by destruct (tget k u p).
Qed.

End shape_lemmas.

Lemma mapM_zip_pure {A B C} (P1 : A → Prop) (P2 : B → Prop)
    (f : A → B → Res C) (g : A → B → C) (xs : list A) (ys : list B) :
  (∀ x y, P1 x → P2 y → f x y = Ok (g x y)) →
  Forall P1 xs → Forall P2 ys →
  mapM (λ p, f p.1 p.2) (zip xs ys) = Ok (zip_with g xs ys).
Proof.
  intros Hfg H1. revert ys. induction H1 as [|x xs Hx _ IH]; intros ys H2; [done|].
  destruct H2 as [|y ys Hy H2]; [done|].
  cbn [zip_with]. rewrite mapM_Res_cons. cbn [fst snd].
  rewrite (Hfg x y Hx Hy), (IH ys H2). done.
Qed.

Lemma bzip_Ok_pure {A B C} (P1 : A → Prop) (P2 : B → Prop)
    (f : A → B → Res C) (g : A → B → C) (xs : list A) (ys : list B) :
  (∀ x y, P1 x → P2 y → f x y = Ok (g x y)) →
  length xs = length ys → Forall P1 xs → Forall P2 ys →
  bzip f xs ys = Ok (zip_with g xs ys).
Proof.
  intros Hfg Hl H1 H2. rewrite bzip_same_length by done.
  by apply mapM_zip_pure with (P1 := P1) (P2 := P2).
Qed.

Lemma izip_Ok_pure {A B} (P1 : A → Prop) (P2 : B → Prop)
    (f : A → B → Res A) (g : A → B → A) (xs : list A) (ys : list B) :
  (∀ x y, P1 x → P2 y → f x y = Ok (g x y)) →
  length xs = length ys → Forall P1 xs → Forall P2 ys →
  izip f xs ys = Ok (zip_with g xs ys).
Proof.
  intros Hfg Hl H1 H2. rewrite izip_same_length by done.
  by apply mapM_zip_pure with (P1 := P1) (P2 := P2).
Qed.

(** A size-1 axis is repeated, whatever the size of the other operand. *)
Lemma bzip_singleton_l {A B C} (f : A → B → Res C) x ys :
  bzip f [x] ys = mapM (f x) ys.
Proof.
  destruct (decide (length ys = 1%nat)) as [Hl|Hl].
  - destruct ys as [|y [|??]]; try discriminate. done.
  - by apply bzip_bcast_l.
Qed.

Lemma bzip_singleton_r {A B C} (f : A → B → Res C) xs y :
  bzip f xs [y] = mapM (λ x, f x y) xs.
Proof.
  destruct (decide (length xs = 1%nat)) as [Hl|Hl].
  - destruct xs as [|x [|??]]; try discriminate. done.
  - by apply bzip_bcast_r.
Qed.

Section zip_tens.
Context {A B C : Type}.

Lemma tbzip_Ok_pure (k : nat) bs (P1 : A → Prop) (P2 : B → Prop) (f : A → B → Res C)
    (g : A → B → C) (t1 : tens k A) (t2 : tens k B) :
  (∀ x y, P1 x → P2 y → f x y = Ok (g x y)) →
  tshape k bs P1 t1 → tshape k bs P2 t2 →
  tbzip k f t1 t2 = Ok (tzip_with k g t1 t2).
Proof.
  intros Hfg. revert bs t1 t2. induction k as [|k IH]; intros bs t1 t2.
  - intros [_ ?]%tshape_O [_ ?]%tshape_O. by apply Hfg.
  - intros (b & bs' & -> & Hl1 & Hall1)%tshape_S_inv [Hl2 Hall2]%tshape_S.
    cbn [tbzip tzip_with].
    apply bzip_Ok_pure with (P1 := tshape k bs' P1) (P2 := tshape k bs' P2);
      [|congruence|done|done].
    intros u v. apply IH.
Qed.

Lemma tizip_Ok_pure (k : nat) bs (P1 : A → Prop) (P2 : B → Prop) (f : A → B → Res A)
    (g : A → B → A) (t1 : tens k A) (t2 : tens k B) :
  (∀ x y, P1 x → P2 y → f x y = Ok (g x y)) →
  tshape k bs P1 t1 → tshape k bs P2 t2 →
  tizip k f t1 t2 = Ok (tzip_with k g t1 t2).
Proof.
  intros Hfg. revert bs t1 t2. induction k as [|k IH]; intros bs t1 t2.
  - intros [_ ?]%tshape_O [_ ?]%tshape_O. by apply Hfg.
  - intros (b & bs' & -> & Hl1 & Hall1)%tshape_S_inv [Hl2 Hall2]%tshape_S.
    cbn [tizip tzip_with].
    apply izip_Ok_pure with (P1 := tshape k bs' P1) (P2 := tshape k bs' P2);
      [|congruence|done|done].
    intros u v. apply IH.
Qed.

End zip_tens.

(** ** [Linear] and the broadcasting sums on well-shaped operands *)

Section linear_lemmas.
Context {R : Type} `{Scalar R}.
Implicit Types (l : Linear.t R).

Lemma affine_length l x :
  Linear.wf l → length (Linear.affine l x) = Linear.out_features l.
Proof.
  intros (Hw & _ & Hb). unfold Linear.affine.
  rewrite length_zip_with, Hw, Hb. apply Nat.min_id.
Qed.

Lemma forward_vec_Ok l x :
  length x = Linear.in_features l → Linear.forward_vec l x = Ok (Linear.affine l x).
Proof. intros Hx. unfold Linear.forward_vec. by rewrite decide_True. Qed.

Lemma forward_vec_mapM l (m : list (list R)) :
  Forall (shape1 (Linear.in_features l)) m →
  mapM (Linear.forward_vec l) m = Ok (Linear.affine l <$> m).
Proof.
  intros Hm. etrans; [|apply mapM_pure]. apply mapM_Res_ext.
  eapply Forall_impl; [exact Hm|]. intros x. apply forward_vec_Ok.
Qed.

Lemma Linear_forward_0 l k bs (x : tens k (list R)) :
  tshape k bs (shape1 (Linear.in_features l)) x →
  Linear.forward l k 0 x = Ok (tmap k (Linear.affine l) x).
Proof.
  intros Hx. unfold Linear.forward. cbn [tmapM].
  eapply tmapM_Ok_pure; [|exact Hx]. intros v. apply forward_vec_Ok.
Qed.

Lemma Linear_forward_1 l k bs n (x : tens k (list (list R))) :
  tshape k bs (shape2 n (Linear.in_features l)) x →
  Linear.forward l k 1 x = Ok (tmap k (fmap (M:=list) (Linear.affine l)) x).
Proof.
  intros Hx. unfold Linear.forward. cbn [tmapM].
  eapply tmapM_Ok_pure; [|exact Hx]. intros m [_ Hm]. by apply forward_vec_mapM.
Qed.

Lemma Linear_forward_2 l k bs a n (x : tens k (list (list (list R)))) :
  tshape k bs (shape3 a n (Linear.in_features l)) x →
  Linear.forward l k 2 x =
    Ok (tmap k (fmap (M:=list) (fmap (M:=list) (Linear.affine l))) x).
Proof.
  intros Hx. unfold Linear.forward. cbn [tmapM].
  eapply tmapM_Ok_pure; [|exact Hx]. intros t [_ Ht].
  etrans; [|apply mapM_pure]. apply mapM_Res_ext.
  eapply Forall_impl; [exact Ht|]. intros m [_ Hm]. by apply forward_vec_mapM.
Qed.

Lemma shape2_affine l n c (m : list (list R)) :
  Linear.wf l → length m = n → Linear.out_features l = c →
  shape2 n c (Linear.affine l <$> m).
Proof.
  intros Hwf Hm Hc. split; [by rewrite length_fmap|].
  apply Forall_fmap, Forall_forall. intros x _. unfold shape1. cbn.
  by rewrite affine_length.
Qed.

Lemma shape3_affine l a n c (t : list (list (list R))) :
  Linear.wf l → length t = a → Forall (λ m, length m = n) t →
  Linear.out_features l = c →
  shape3 a n c (fmap (M:=list) (Linear.affine l) <$> t).
Proof.
  intros Hwf Ht Hall Hc. split; [by rewrite length_fmap|].
  apply Forall_fmap. eapply Forall_impl; [exact Hall|]. intros m Hm. cbn.
  by apply shape2_affine.
Qed.

Lemma badd_1 (u v : list R) :
  length u = length v → badd 1 u v = Ok (vadd u v).
Proof.
  intros Hl. unfold badd, vadd. cbn [tbzip].
  by apply bzip_Ok_pure with (P1 := λ _, True) (P2 := λ _, True);
    [|done|apply Forall_true|apply Forall_true].
Qed.

Lemma badd_3_outer c (row col : list (list R)) :
  Forall (shape1 c) row → Forall (shape1 c) col →
  badd 3 (unsqueeze_front <$> row) (unsqueeze_front col) = Ok (outer_sum row col).
Proof.
  intros Hrow Hcol. unfold badd, unsqueeze_front, outer_sum. cbn [tbzip].
  rewrite bzip_singleton_r, mapM_fmap_Res.
  etrans; [|apply mapM_pure]. apply mapM_Res_ext.
  eapply Forall_impl; [exact Hrow|]. intros a Ha. unfold compose.
  rewrite bzip_singleton_l.
  etrans; [|apply mapM_pure]. apply mapM_Res_ext.
  eapply Forall_impl; [exact Hcol|]. intros b Hb.
  apply (badd_1 a b). unfold shape1 in *. congruence.
Qed.

Lemma badd_2_same n c (x y : list (list R)) :
  shape2 n c x → shape2 n c y →
  badd 2 x y = Ok (zip_with vadd x y).
Proof.
  intros [Hx Hxs] [Hy Hys]. unfold badd. cbn [tbzip].
  apply bzip_Ok_pure with (P1 := shape1 c) (P2 := shape1 c); [|congruence|done|done].
  intros u v Hu Hv. apply (badd_1 u v). unfold shape1 in *. congruence.
Qed.

Lemma badd_3_same a n c (x y : list (list (list R))) :
  shape3 a n c x → shape3 a n c y → badd 3 x y = Ok (add3 x y).
Proof.
  intros [Hx Hxs] [Hy Hys]. unfold add3.
  change (badd 3) with (bzip (badd 2)).
  apply bzip_Ok_pure with (P1 := shape2 n c) (P2 := shape2 n c); [|congruence|done|done].
  intros u v. apply badd_2_same.
Qed.

Lemma iadd_3_same a n c (x y : list (list (list R))) :
  shape3 a n c x → shape3 a n c y → iadd 3 x y = Ok (add3 x y).
Proof.
  intros [Hx Hxs] [Hy Hys]. unfold add3, iadd. cbn [tizip].
  apply izip_Ok_pure with (P1 := shape2 n c) (P2 := shape2 n c); [|congruence|done|done].
  intros u v [Hu Hus] [Hv Hvs].
  apply izip_Ok_pure with (P1 := shape1 c) (P2 := shape1 c); [|congruence|done|done].
  intros p q Hp Hq.
  apply izip_Ok_pure with (P1 := λ _, True) (P2 := λ _, True);
    [done| |apply Forall_true; done|apply Forall_true; done].
  etrans; [exact Hp|symmetry; exact Hq].
Qed.

Lemma shape3_outer_sum n m c (row col : list (list R)) :
  shape2 n c row → shape2 m c col → shape3 n m c (outer_sum row col).
Proof.
  intros [Hr Hrs] [Hc Hcs]. unfold outer_sum. split; [by rewrite length_fmap|].
  apply Forall_fmap. eapply Forall_impl; [exact Hrs|]. intros a Ha. cbn.
  split; [by rewrite length_fmap|].
  apply Forall_fmap. eapply Forall_impl; [exact Hcs|]. intros b Hb. cbn.
  unfold shape1, vadd in *. rewrite length_zip_with, Ha, Hb. apply Nat.min_id.
Qed.

Lemma shape3_add3 a n c (x y : list (list (list R))) :
  shape3 a n c x → shape3 a n c y → shape3 a n c (add3 x y).
Proof.
  intros [Hx Hxs] [Hy Hys]. unfold add3. split.
  - rewrite length_zip_with, Hx, Hy. apply Nat.min_id.
  - apply Forall_zip_with_fst with (P := shape2 n c); [done|].
    eapply Forall_impl; [exact Hys|]. intros v [Hv Hvs] u [Hu Hus]. split.
    + rewrite length_zip_with, Hu, Hv. apply Nat.min_id.
    + apply Forall_zip_with_fst with (P := shape1 c); [done|].
      eapply Forall_impl; [exact Hvs|]. intros q Hq p Hp.
      unfold shape1, vadd in *. rewrite length_zip_with, Hp, Hq. apply Nat.min_id.
Qed.

End linear_lemmas.

(** ** Batch indices and the size of the cluster axis *)

Lemma tget_tshape {A} (k : nat) bs (P : A → Prop) (t : tens k A) p :
  tshape k bs P t → in_batch p bs → ∃ x, tget k t p = Some x ∧ P x.
Proof.
  revert bs t p. induction k as [|k IH]; intros bs t p.
  - intros [-> ?]%tshape_O Hp. inversion Hp; subst. eauto.
  - change (tens (S k) A) with (list (tens k A)) in t.
    intros (b & bs' & -> & Hl & Hall)%tshape_S_inv Hp.
    inversion Hp as [|i b' p' bs'' Hi Hp']; subst. cbn [tget].
    destruct (lookup_lt_is_Some_2 t i) as [u Hu]; [lia|].
    rewrite Hu. cbn. eapply IH; [|exact Hp'].
    eapply Forall_lookup_1; [exact Hall|exact Hu].
Qed.

Lemma tshape_no_elements {A B} (k : nat) bs (P : B → Prop) (Q : B → Prop)
    (u : tens k A) (v : tens k B) :
  tshape k bs (λ _, False) u → tshape k bs P v → tshape k bs Q v.
Proof.
  revert bs u v. induction k as [|k IH]; intros bs u v.
  - by intros [_ []]%tshape_O.
  - intros (b & bs' & -> & Hlu & Hallu)%tshape_S_inv [Hlv Hallv]%tshape_S.
    apply tshape_S. split; [done|].
    destruct u as [|u0 u']; [subst b; by destruct v|].
    apply Forall_cons_1 in Hallu as [Hu0 _].
    eapply Forall_impl; [exact Hallv|]. intros v0. by apply IH with (u := u0).
Qed.

Lemma axis_len_or_empty {A} (k : nat) bs (P : list A → Prop) n (t : tens k (list A)) :
  (∀ x, P x → length x = n) → tshape k bs P t →
  axis_len k t = n ∨ tshape k bs (λ _, False) t.
Proof.
  intros HP. revert bs t. induction k as [|k IH]; intros bs t.
  - intros [_ ?]%tshape_O. left. by apply HP.
  - intros (b & bs' & -> & Hl & Hall)%tshape_S_inv.
    destruct t as [|u t'].
    + right. apply tshape_S. split; [done|constructor].
    + cbn [axis_len]. pose proof (Forall_cons_1 _ _ _ Hall) as [Hu _].
      destruct (IH _ _ Hu) as [?|Hempty]; [by left|right].
      apply tshape_S. split; [done|].
      eapply Forall_impl; [exact Hall|]. intros v.
      by apply tshape_no_elements with (u := u).
Qed.

Lemma tshape_axis_len {A} (k : nat) bs (P : list A → Prop) n (t : tens k (list A)) :
  (∀ x, P x → length x = n) → tshape k bs P t →
  tshape k bs (λ x, P x ∧ axis_len k t = n) t.
Proof.
  intros HP Ht. destruct (axis_len_or_empty k bs P n t HP Ht) as [Hn|Hempty].
  - eapply tshape_weaken; [|exact Ht]. auto.
  - eapply tshape_weaken; [|exact Hempty]. done.
Qed.

(** ** Operands that are maps of other tensors *)

Lemma bzip_ext {A B C} (f f' : A → B → Res C) xs ys :
  (∀ x y, f x y = f' x y) → bzip f xs ys = bzip f' xs ys.
Proof.
  intros Hf. unfold bzip. destruct (decide _).
  - apply mapM_Res_ext, Forall_forall. intros [x y] _. apply Hf.
  - destruct xs as [|x [|x' xs]], ys as [|y [|y' ys]]; try done;
      apply mapM_Res_ext, Forall_forall; intros ? _; apply Hf.
Qed.

Lemma zip_fmap_both {A A' B B'} (g1 : A → A') (g2 : B → B') xs ys :
  zip (g1 <$> xs) (g2 <$> ys) = (λ p, (g1 p.1, g2 p.2)) <$> zip xs ys.
Proof.
  revert ys. induction xs as [|x xs IH]; intros [|y ys]; try done.
  rewrite !fmap_cons. cbn [zip_with]. by rewrite fmap_cons, IH.
Qed.

Lemma bzip_fmap {A A' B B' C} (f : A' → B' → Res C) (g1 : A → A') (g2 : B → B') xs ys :
  bzip f (g1 <$> xs) (g2 <$> ys) = bzip (λ x y, f (g1 x) (g2 y)) xs ys.
Proof.
  unfold bzip. rewrite !length_fmap. destruct (decide _).
  - by rewrite zip_fmap_both, mapM_fmap_Res.
  - destruct xs as [|x [|x' xs]], ys as [|y [|y' ys]]; try done;
      rewrite ?fmap_cons, ?fmap_nil; cbv iota beta;
      rewrite <-?fmap_cons, ?mapM_fmap_Res; done.
Qed.

Lemma tbzip_tmap {A A' B B' C} (k : nat) (f : A' → B' → Res C) (g1 : A → A')
    (g2 : B → B') (t1 : tens k A) (t2 : tens k B) :
  tbzip k f (tmap k g1 t1) (tmap k g2 t2) = tbzip k (λ x y, f (g1 x) (g2 y)) t1 t2.
Proof.
  revert t1 t2. induction k as [|k IH]; intros t1 t2; [done|].
  cbn [tbzip tmap]. rewrite bzip_fmap. apply bzip_ext. intros x y. apply IH.
Qed.

(** ** [InputEmbedder.forward] on well-shaped inputs *)

Section forward_lemmas.
Context {R : Type} `{Scalar R}.
Implicit Types (self : InputEmbedder.t R).

Lemma length_one_hot (x : R) (v_bins : list Z) :
  length (one_hot x v_bins) = length v_bins.
Proof. unfold one_hot. by rewrite length_fmap, length_seq. Qed.

Lemma shape3_one_hot_outer n (v : list R) (v_bins : list Z) :
  length v = n →
  shape3 n n (length v_bins)
    (fmap (M:=list) (fmap (M:=list) (λ x, one_hot x v_bins)) (outer_diff v)).
Proof.
  intros Hv. unfold outer_diff. split; [by rewrite !length_fmap|].
  apply Forall_fmap, Forall_fmap, Forall_forall. intros a _. cbn.
  split; [by rewrite !length_fmap|].
  apply Forall_fmap, Forall_fmap, Forall_forall. intros b _. cbn.
  apply length_one_hot.
Qed.

Lemma relpos_pure self k bs n (ri : tens k (list R)) :
  InputEmbedder.constructed self → tshape k bs (shape1 n) ri →
  InputEmbedder.relpos self k ri = Ok (tmap k (relpos_ref self) ri) ∧
  tshape k bs (shape3 n n (InputEmbedder.c_z self)) (tmap k (relpos_ref self) ri).
Proof.
  intros (_ & _ & _ & _ & Hbins & Hwf & Hin & Hout) Hri.
  rewrite relpos_unfold.
  set (bins := arange _ _).
  assert (length bins = InputEmbedder.no_bins self) as Hlen.
  { unfold bins. rewrite length_arange, Hbins. lia. }
  split.
  - erewrite Linear_forward_2; [by rewrite tmap_tmap|].
    eapply tshape_tmap; [|exact Hri]. intros v Hv. cbn beta.
    rewrite Hin, <-Hlen. by apply shape3_one_hot_outer.
  - eapply tshape_tmap; [|exact Hri]. intros v Hv. unfold relpos_ref.
    fold bins. destruct (shape3_one_hot_outer n v bins Hv) as [Hl Hall].
    apply shape3_affine; [done|done| |done].
    eapply Forall_impl; [exact Hall|]. by intros m [? _].
Qed.

End forward_lemmas.

Section forward_pure.
Context {R : Type} `{Scalar R}.
Implicit Types (self : InputEmbedder.t R).

Lemma expand_unsqueeze {A} (n : nat) (m : A) :
  expand_axis n (unsqueeze_front m) = Ok (replicate n m).
Proof. done. Qed.

Lemma shape3_replicate {A} (a n c : nat) (m : list (list A)) :
  shape2 n c m → shape3 a n c (replicate a m).
Proof.
  intros Hm. split; [apply length_replicate|].
  apply Forall_replicate. done.
Qed.

Lemma forward_pure self k bs n nc
    (tf : tens k (list (list R))) (ri : tens k (list Z))
    (msa : tens k (list (list (list R)))) :
  InputEmbedder.constructed self →
  tshape k bs (shape2 n (InputEmbedder.tf_dim self)) tf →
  tshape k bs (shape1 n) ri →
  tshape k bs (shape3 nc n (InputEmbedder.msa_dim self)) msa →
  let row := tmap k (fmap (M:=list) (Linear.affine (InputEmbedder.linear_tf_z_i self))) tf in
  let col := tmap k (fmap (M:=list) (Linear.affine (InputEmbedder.linear_tf_z_j self))) tf in
  let rel := tmap k (relpos_ref self) (tmap k (fmap (M:=list) of_Z) ri) in
  let tf_m := tmap k (fmap (M:=list) (Linear.affine (InputEmbedder.linear_tf_m self))) tf in
  let msa_m := tmap k (fmap (M:=list) (fmap (M:=list)
                 (Linear.affine (InputEmbedder.linear_msa_m self)))) msa in
  InputEmbedder.forward self k tf ri msa =
    Ok (tzip_with k add3 msa_m (tmap k (replicate (axis_len k msa)) tf_m),
        tzip_with k add3 rel (tzip_with k outer_sum row col)).
Proof.
  intros Hc Htf Hri Hmsa row col rel tf_m msa_m.
  pose proof Hc as ((Hwi & Hii & Hoi) & (Hwj & Hij & Hoj) & (Hwm & Him & Hom)
                    & (Hwa & Hia & Hoa) & _ & _).
  assert (tshape k bs (shape2 n (InputEmbedder.c_z self)) row) as Hrow.
  { eapply tshape_tmap; [|exact Htf]. intros m [Hm _]. by apply shape2_affine. }
  assert (tshape k bs (shape2 n (InputEmbedder.c_z self)) col) as Hcol.
  { eapply tshape_tmap; [|exact Htf]. intros m [Hm _]. by apply shape2_affine. }
  assert (tshape k bs (shape2 n (InputEmbedder.c_m self)) tf_m) as Htfm.
  { eapply tshape_tmap; [|exact Htf]. intros m [Hm _]. by apply shape2_affine. }
  assert (tshape k bs (shape1 n) (tmap k (fmap (M:=list) (of_Z (R:=R))) ri)) as Hri'.
  { eapply tshape_tmap; [|exact Hri]. intros v Hv. unfold shape1 in *.
    by rewrite length_fmap. }
  destruct (relpos_pure self k bs n _ Hc Hri') as [Hrel Hrels]. fold rel in Hrel, Hrels.
  assert (tshape k bs (shape3 n n (InputEmbedder.c_z self))
            (tzip_with k outer_sum row col)) as Houter.
  { eapply tshape_tzip_with; [|exact Hrow|exact Hcol]. intros ??. apply shape3_outer_sum. }
  unfold InputEmbedder.forward.
  eapply Res_bind_eq; [by apply (Linear_forward_1 _ k bs n tf); rewrite Hii|].
  eapply Res_bind_eq; [by apply (Linear_forward_1 _ k bs n tf); rewrite Hij|].
  eapply Res_bind_eq; [exact Hrel|].
  eapply Res_bind_eq.
  { rewrite tbzip_tmap.
    apply (tbzip_Ok_pure k bs (shape2 n (InputEmbedder.c_z self))
             (shape2 n (InputEmbedder.c_z self)) _ outer_sum); [|exact Hrow|exact Hcol].
    intros x y [_ Hx] [_ Hy]. by eapply badd_3_outer. }
  eapply Res_bind_eq.
  { apply (tizip_Ok_pure k bs (shape3 n n (InputEmbedder.c_z self))
             (shape3 n n (InputEmbedder.c_z self)) _ add3); [|exact Hrels|exact Houter].
    intros x y. apply iadd_3_same. }
  eapply Res_bind_eq; [by apply (Linear_forward_1 _ k bs n tf); rewrite Him|].
  eapply Res_bind_eq.
  { rewrite tmapM_tmap.
    etrans; [|apply (tmapM_pure k (replicate (axis_len k msa)))].
    apply tmapM_ext. intros m. apply expand_unsqueeze. }
  eapply Res_bind_eq; [by apply (Linear_forward_2 _ k bs nc n msa); rewrite Hia|].
  eapply Res_bind_eq; [|done].
  apply (tbzip_Ok_pure k bs
           (λ x, shape3 nc n (InputEmbedder.c_m self) x ∧ axis_len k msa = nc)
           (shape3 (axis_len k msa) n (InputEmbedder.c_m self)) _ add3).
  - intros x y [Hx Hn]. rewrite Hn. by apply badd_3_same.
  - eapply tshape_tmap;
      [|apply (tshape_axis_len k bs _ nc msa (λ x Hx, proj1 Hx) Hmsa)].
    intros t [[Ht Hall] Hn]. cbn beta. split; [|done].
    apply shape3_affine; [done|done| |done].
    eapply Forall_impl; [exact Hall|]. by intros m [? _].
  - eapply tshape_tmap; [|exact Htfm]. intros m. apply shape3_replicate.
Qed.

End forward_pure.

Section forward_results.
Context {R : Type} `{Scalar R}.
Implicit Types (self : InputEmbedder.t R).

Lemma at3_add3 (x y : list (list (list R))) i j r s :
  x !! i ≫= (.!! j) = Some r → y !! i ≫= (.!! j) = Some s →
  add3 x y !! i ≫= (.!! j) = Some (vadd r s).
Proof.
  unfold add3. rewrite lookup_zip_with.
  destruct (x !! i) as [xi|]; [|done]. destruct (y !! i) as [yi|]; [|done]. cbn.
  intros Hr Hs. by rewrite lookup_zip_with, Hr, Hs.
Qed.

Lemma at3_outer_sum (row col : list (list R)) i j a b :
  row !! i = Some a → col !! j = Some b →
  outer_sum row col !! i ≫= (.!! j) = Some (vadd a b).
Proof.
  intros Ha Hb. unfold outer_sum. rewrite list_lookup_fmap, Ha. cbn.
  by rewrite list_lookup_fmap, Hb.
Qed.

Lemma shape3_lookup {A} a n c (x : list (list (list A))) i j :
  shape3 a n c x → (i < a)%nat → (j < n)%nat →
  ∃ v, x !! i ≫= (.!! j) = Some v ∧ length v = c.
Proof.
  intros [Hx Hall] Hi Hj.
  destruct (lookup_lt_is_Some_2 x i) as [m Hm]; [lia|].
  destruct (Forall_lookup_1 _ _ _ _ Hall Hm) as [Hlm Hmall].
  destruct (lookup_lt_is_Some_2 m j) as [v Hv]; [lia|].
  exists v. rewrite Hm. cbn. split; [done|].
  apply (Forall_lookup_1 _ _ _ _ Hmall Hv).
Qed.

Lemma shape2_lookup {A} n c (x : list (list A)) i :
  shape2 n c x → (i < n)%nat → ∃ v, x !! i = Some v ∧ length v = c.
Proof.
  intros [Hx Hall] Hi.
  destruct (lookup_lt_is_Some_2 x i) as [v Hv]; [lia|].
  exists v. split; [done|]. apply (Forall_lookup_1 _ _ _ _ Hall Hv).
Qed.

Lemma forward_shapes self k bs n nc
    (tf : tens k (list (list R))) (ri : tens k (list Z))
    (msa : tens k (list (list (list R)))) :
  InputEmbedder.constructed self →
  tshape k bs (shape2 n (InputEmbedder.tf_dim self)) tf →
  tshape k bs (shape1 n) ri →
  tshape k bs (shape3 nc n (InputEmbedder.msa_dim self)) msa →
  ∃ msa_emb pair_emb,
    InputEmbedder.forward self k tf ri msa = Ok (msa_emb, pair_emb) ∧
    tshape k bs (shape3 nc n (InputEmbedder.c_m self)) msa_emb ∧
    tshape k bs (shape3 n n (InputEmbedder.c_z self)) pair_emb.
Proof.
  intros Hc Htf Hri Hmsa.
  pose proof Hc as ((Hwi & Hii & Hoi) & (Hwj & Hij & Hoj) & (Hwm & Him & Hom)
                    & (Hwa & Hia & Hoa) & _ & _).
  eexists _, _. split; [by eapply forward_pure|]. split.
  - eapply (tshape_tzip_with k bs
              (λ x, shape3 nc n (InputEmbedder.c_m self) x ∧ axis_len k msa = nc)
              (shape3 (axis_len k msa) n (InputEmbedder.c_m self))).
    + intros x y [Hx Hn]. rewrite Hn. by apply shape3_add3.
    + eapply tshape_tmap;
        [|apply (tshape_axis_len k bs _ nc msa (λ x Hx, proj1 Hx) Hmsa)].
      intros t [[Ht Hall] Hn]. cbn beta. split; [|done].
      apply shape3_affine; [done|done| |done].
      eapply Forall_impl; [exact Hall|]. by intros m [? _].
    + eapply tshape_tmap; [|eapply tshape_tmap; [|exact Htf]].
      * intros m. apply shape3_replicate.
      * intros m [Hm _]. by apply shape2_affine.
  - eapply tshape_tzip_with; [intros x y; apply shape3_add3| |].
    + eapply relpos_pure; [done|].
      eapply tshape_tmap; [|exact Hri]. intros v Hv. unfold shape1 in *.
      by rewrite length_fmap.
    + eapply tshape_tzip_with; [intros x y; apply shape3_outer_sum| |].
      * eapply tshape_tmap; [|exact Htf]. intros m [Hm _]. by apply shape2_affine.
      * eapply tshape_tmap; [|exact Htf]. intros m [Hm _]. by apply shape2_affine.
Qed.

End forward_results.

(** C4. On inputs of the documented shapes, [InputEmbedder.forward] returns,
    and its pair embedding is, at every batch index [p] and every position
    [(i, j)], [relpos(ri)[i, j] + (row_role(tf)[i] + column_role(tf)[j])],
    where the row and column roles are the projections [linear_tf_z_i] and
    [linear_tf_z_j] of the target features.  No law of the scalar arithmetic
    is used: the sum is grouped as the code computes it. *)
Theorem forward_pair_embedding {R : Type} `{Scalar R} (self : InputEmbedder.t R)
    (k : nat) (bs : list nat) (n nc : nat)
    (tf : tens k (list (list R))) (ri : tens k (list Z))
    (msa : tens k (list (list (list R)))) :
  InputEmbedder.constructed self →
  tshape k bs (shape2 n (InputEmbedder.tf_dim self)) tf →
  tshape k bs (shape1 n) ri →
  tshape k bs (shape3 nc n (InputEmbedder.msa_dim self)) msa →
  ∃ rel row col msa_emb pair_emb,
    InputEmbedder.relpos self k (tmap k (fmap (M:=list) of_Z) ri) = Ok rel ∧
    Linear.forward (InputEmbedder.linear_tf_z_i self) k 1 tf = Ok row ∧
    Linear.forward (InputEmbedder.linear_tf_z_j self) k 1 tf = Ok col ∧
    InputEmbedder.forward self k tf ri msa = Ok (msa_emb, pair_emb) ∧
    ∀ p i j, in_batch p bs → (i < n)%nat → (j < n)%nat →
      ∃ r a b,
        at3 k rel p i j = Some r ∧
        at2 k row p i = Some a ∧
        at2 k col p j = Some b ∧
        at3 k pair_emb p i j = Some (vadd r (vadd a b)).
Proof.
  intros Hc Htf Hri Hmsa.
  pose proof Hc as ((Hwi & Hii & Hoi) & (Hwj & Hij & Hoj) & _).
  assert (tshape k bs (shape1 n) (tmap k (fmap (M:=list) (of_Z (R:=R))) ri)) as Hri'.
  { eapply tshape_tmap; [|exact Hri]. intros v Hv. unfold shape1 in *.
    by rewrite length_fmap. }
  destruct (relpos_pure self k bs n _ Hc Hri') as [Hrel Hrels].
  eexists _, _, _, _, _. split; [exact Hrel|].
  split; [by apply (Linear_forward_1 _ k bs n tf); rewrite Hii|].
  split; [by apply (Linear_forward_1 _ k bs n tf); rewrite Hij|].
  split; [by eapply forward_pure|].
  intros p i j Hp Hi Hj.
  destruct (tget_tshape k bs _ _ p Hrels Hp) as (REL & HREL & HRs).
  assert (tshape k bs (shape2 n (InputEmbedder.c_z self))
            (tmap k (fmap (M:=list) (Linear.affine (InputEmbedder.linear_tf_z_i self))) tf))
    as Hrow.
  { eapply tshape_tmap; [|exact Htf]. intros m [Hm _]. by apply shape2_affine. }
  assert (tshape k bs (shape2 n (InputEmbedder.c_z self))
            (tmap k (fmap (M:=list) (Linear.affine (InputEmbedder.linear_tf_z_j self))) tf))
    as Hcol.
  { eapply tshape_tmap; [|exact Htf]. intros m [Hm _]. by apply shape2_affine. }
  destruct (tget_tshape k bs _ _ p Hrow Hp) as (ROW & HROW & HRows).
  destruct (tget_tshape k bs _ _ p Hcol Hp) as (COL & HCOL & HCols).
  destruct (shape3_lookup _ _ _ REL i j HRs Hi Hj) as (r & Hr & _).
  destruct (shape2_lookup _ _ ROW i HRows Hi) as (a & Ha & _).
  destruct (shape2_lookup _ _ COL j HCols Hj) as (b & Hb & _).
  exists r, a, b. unfold at3, at2.
  rewrite !tget_tzip_with, HREL, HROW, HCOL. cbn.
  repeat split; [exact Hr|exact Ha|exact Hb|].
  apply at3_add3; [exact Hr|]. by apply at3_outer_sum.
Qed.

(** C5. On inputs of the documented shapes, [InputEmbedder.forward] returns
    an MSA embedding of shape [[*, N_clust, N_res, c_m]] and a pair embedding
    of shape [[*, N_res, N_res, c_z]]; the MSA embedding is, at every batch
    index, cluster [s] and residue [i], the projection [linear_msa_m] of the
    raw MSA features plus the projection [linear_tf_m] of the target
    features at residue [i], the same for every cluster. *)
Theorem forward_msa_embedding {R : Type} `{Scalar R} (self : InputEmbedder.t R)
    (k : nat) (bs : list nat) (n nc : nat)
    (tf : tens k (list (list R))) (ri : tens k (list Z))
    (msa : tens k (list (list (list R)))) :
  InputEmbedder.constructed self →
  tshape k bs (shape2 n (InputEmbedder.tf_dim self)) tf →
  tshape k bs (shape1 n) ri →
  tshape k bs (shape3 nc n (InputEmbedder.msa_dim self)) msa →
  ∃ msa_m tf_m msa_emb pair_emb,
    Linear.forward (InputEmbedder.linear_msa_m self) k 2 msa = Ok msa_m ∧
    Linear.forward (InputEmbedder.linear_tf_m self) k 1 tf = Ok tf_m ∧
    InputEmbedder.forward self k tf ri msa = Ok (msa_emb, pair_emb) ∧
    tshape k bs (shape3 nc n (InputEmbedder.c_m self)) msa_emb ∧
    tshape k bs (shape3 n n (InputEmbedder.c_z self)) pair_emb ∧
    ∀ p s i, in_batch p bs → (s < nc)%nat → (i < n)%nat →
      ∃ x y,
        at3 k msa_m p s i = Some x ∧
        at2 k tf_m p i = Some y ∧
        at3 k msa_emb p s i = Some (vadd x y).
Proof.
  intros Hc Htf Hri Hmsa.
  pose proof Hc as (_ & _ & (Hwm & Him & Hom) & (Hwa & Hia & Hoa) & _ & _).
  destruct (forward_shapes self k bs n nc tf ri msa Hc Htf Hri Hmsa)
    as (msa_emb & pair_emb & Hfwd & Hms & Hps).
  pose proof (forward_pure self k bs n nc tf ri msa Hc Htf Hri Hmsa) as Hpure.
  cbv zeta in Hpure. rewrite Hpure in Hfwd. injection Hfwd as <- <-.
  eexists _, _, _, _.
  split; [by apply (Linear_forward_2 _ k bs nc n msa); rewrite Hia|].
  split; [by apply (Linear_forward_1 _ k bs n tf); rewrite Him|].
  split; [exact Hpure|]. split; [exact Hms|]. split; [exact Hps|].
  intros p s i Hp Hs Hi.
  assert (tshape k bs (λ x, shape3 nc n (InputEmbedder.c_m self) x ∧ axis_len k msa = nc)
            (tmap k (fmap (M:=list) (fmap (M:=list)
               (Linear.affine (InputEmbedder.linear_msa_m self)))) msa)) as Hmm.
  { eapply tshape_tmap;
      [|apply (tshape_axis_len k bs _ nc msa (λ x Hx, proj1 Hx) Hmsa)].
    intros t [[Ht Hall] Hn]. cbn beta. split; [|done].
    apply shape3_affine; [done|done| |done].
    eapply Forall_impl; [exact Hall|]. by intros m [? _]. }
  assert (tshape k bs (shape2 n (InputEmbedder.c_m self))
            (tmap k (fmap (M:=list) (Linear.affine (InputEmbedder.linear_tf_m self))) tf))
    as Htfm.
  { eapply tshape_tmap; [|exact Htf]. intros m [Hm _]. by apply shape2_affine. }
  destruct (tget_tshape k bs _ _ p Hmm Hp) as (MM & HMM & HMs & Hn).
  destruct (tget_tshape k bs _ _ p Htfm Hp) as (TM & HTM & HTs).
  destruct (shape3_lookup _ _ _ MM s i HMs Hs Hi) as (x & Hx & _).
  destruct (shape2_lookup _ _ TM i HTs Hi) as (y & Hy & _).
  exists x, y. unfold at3, at2.
  rewrite tget_tzip_with, HMM, HTM. cbn. rewrite tget_tmap, HTM. cbn.
  repeat split; [exact Hx|exact Hy|].
  apply at3_add3; [exact Hx|].
  rewrite Hn, lookup_replicate_2 by done. exact Hy.
Qed.

(** ** [TemplateAngleEmbedder] *)

Lemma Res_bind_ret {A} (m : Res A) : (x ← m; Ok x) = m.
Proof. by destruct m. Qed.

(** C6. [TemplateAngleEmbedder.forward(x)] is [linear_2(relu(linear_1(x)))];
    on an input whose final axis is [c_in] wide it returns a tensor with the
    same leading axes and a final axis [c_out] wide, whose vector at every
    leading index is the second affine map applied to the rectified first
    affine map of the input vector there. *)
Theorem angle_embedder_forward {R : Type} `{Scalar R}
    (self : TemplateAngleEmbedder.t R) (k : nat) (bs : list nat)
    (x : tens k (list R)) :
  TemplateAngleEmbedder.constructed self →
  tshape k bs (shape1 (TemplateAngleEmbedder.c_in self)) x →
  TemplateAngleEmbedder.forward self k x =
    (h ← Linear.forward (TemplateAngleEmbedder.linear_1 self) k 0 x;
     Linear.forward (TemplateAngleEmbedder.linear_2 self) k 0
       (TemplateAngleEmbedder.relu k h)) ∧
  ∃ y,
    TemplateAngleEmbedder.forward self k x = Ok y ∧
    tshape k bs (shape1 (TemplateAngleEmbedder.c_out self)) y ∧
    ∀ p, in_batch p bs →
      ∃ v, tget k x p = Some v ∧
           tget k y p =
             Some (Linear.affine (TemplateAngleEmbedder.linear_2 self)
                     (rrelu <$> Linear.affine (TemplateAngleEmbedder.linear_1 self) v)).
Proof.
  intros ((Hw1 & Hi1 & Ho1) & (Hw2 & Hi2 & Ho2)) Hx.
  assert (TemplateAngleEmbedder.forward self k x =
    (h ← Linear.forward (TemplateAngleEmbedder.linear_1 self) k 0 x;
     Linear.forward (TemplateAngleEmbedder.linear_2 self) k 0
       (TemplateAngleEmbedder.relu k h))) as Hdef.
  { unfold TemplateAngleEmbedder.forward.
    destruct (Linear.forward _ k 0 x) as [h|e]; [|done].
    rewrite !Res_bind_Ok. apply Res_bind_ret. }
  split; [exact Hdef|].
  set (l1 := TemplateAngleEmbedder.linear_1 self) in *.
  set (l2 := TemplateAngleEmbedder.linear_2 self) in *.
  assert (tshape k bs (shape1 (Linear.in_features l2))
            (TemplateAngleEmbedder.relu k (tmap k (Linear.affine l1) x))) as Hmid.
  { unfold TemplateAngleEmbedder.relu. rewrite tmap_tmap.
    eapply tshape_tmap; [|exact Hx]. intros v Hv. unfold compose, shape1.
    rewrite length_fmap, affine_length by done. congruence. }
  exists (tmap k (Linear.affine l2)
            (TemplateAngleEmbedder.relu k (tmap k (Linear.affine l1) x))).
  split; [|split].
  - rewrite Hdef.
    eapply Res_bind_eq; [by apply (Linear_forward_0 l1 k bs x); rewrite Hi1|].
    by apply (Linear_forward_0 l2 k bs).
  - eapply tshape_tmap; [|exact Hmid]. intros v _. unfold shape1.
    by rewrite affine_length.
  - intros p Hp. destruct (tget_tshape k bs _ x p Hx Hp) as (v & Hv & _).
    exists v. split; [done|].
    unfold TemplateAngleEmbedder.relu. by rewrite !tget_tmap, Hv.
Qed.

(** ** The trace monad *)

Section monad_lemmas.
Context {A B : Type}.
Implicit Types (m : M A) (f : A → M B).

Lemma result_bind m f :
  result (m ≫= f) = match result m with Ok a => result (f a) | Raise e => Raise e end.
Proof. unfold mbind, M_bind. by destruct (result m). Qed.

Lemma trace_bind m f :
  trace (m ≫= f) = trace m ++ match result m with Ok a => trace (f a) | Raise _ => [] end.
Proof. unfold mbind, M_bind. destruct (result m); [done|]. by rewrite app_nil_r. Qed.

Lemma bind_lift_Ok (a : A) f : (lift (Ok a) ≫= f) = f a.
Proof. unfold mbind, M_bind, lift. cbn. by destruct (f a). Qed.

Lemma bind_lift_Raise (e : exn) f : (lift (Raise e) ≫= f) = mkM [] (Raise e).
Proof. done. Qed.

Lemma bind_mret (a : A) f : (mret a ≫= f) = f a.
Proof. unfold mbind, M_bind, mret, M_ret. cbn. by destruct (f a). Qed.

End monad_lemmas.

Lemma bind_emit {B} (e : event) (f : unit → M B) :
  (emit e ≫= f) = mkM (e :: trace (f ())) (result (f ())).
Proof. done. Qed.

Lemma py_index_0 {A} (a : A) (l : list A) : py_index (a :: l) 0 = Ok a.
Proof.
  unfold py_index. cbv zeta. cbn [length].
  repeat case_decide; try lia. done.
Qed.

Lemma py_index_1 {A} (a b : A) (l : list A) : py_index (a :: b :: l) 1 = Ok b.
Proof.
  unfold py_index. cbv zeta. cbn [length].
  repeat case_decide; try lia. done.
Qed.

(** ** [TemplateEmbedder.forward] *)

Section template_lemmas.
Import Torch TemplateEmbedder.
Context {D : Type}.
Implicit Types (self : module D) (imp : imports D) (batch : gmap string (Tensor D))
  (z pair_mask : Tensor D) (chunk_size : pyval) (st : locals D).

Lemma empty_for_eq (n_templ : nat) z (dev : Device) (z0 z1 : nat) (zs : list nat) :
  shape z = z0 :: z1 :: zs →
  empty_for n_templ z dev =
    mkM [EvEmpty [n_templ; z0; z1; 64%nat] (dtype z) dev]
        (Ok (empty n_templ z0 z1 64 (dtype z) dev)).
Proof.
  intros Hz. unfold empty_for. rewrite Hz, py_index_0, py_index_1.
  by rewrite !bind_lift_Ok.
Qed.

(** The allocation and the loop, once the template count and the two
    leading sizes of [z] are known. *)
Lemma embed_templates_eq self imp batch z pair_mask templ_dim chunk_size mt ip
    (aatype : Tensor D) (n_templ z0 z1 : nat) (zs : list nat) :
  batch !! "template_aatype" = Some aatype →
  py_index (shape aatype) templ_dim = Ok n_templ →
  shape z = z0 :: z1 :: zs →
  let dev := if small_chunk chunk_size then Cpu else device z in
  embed_templates self imp batch z pair_mask templ_dim chunk_size mt ip =
    (emit (EvEmpty [n_templ; z0; z1; 64%nat] (dtype z) dev);;
     for_each (seq 0 n_templ)
       (loop_body self imp batch z pair_mask templ_dim chunk_size mt ip)
       (mkLocals (empty n_templ z0 z1 64 (dtype z) dev) [] None None)).
Proof.
  intros Hb Hn Hz dev. unfold embed_templates, getitem.
  rewrite Hb, bind_lift_Ok, Hn, bind_lift_Ok.
  subst dev. destruct (small_chunk chunk_size);
    by rewrite (empty_for_eq _ _ _ z0 z1 zs Hz).
Qed.

End template_lemmas.

(** C1 (what the code does). With a template axis of length 0 the loop body
    never runs, the names [tt] and [single_template_feats] are never bound,
    and [del tt, single_template_feats] raises: [forward] does not return. *)
Theorem forward_no_templates_raises {D : Type}
    (self : TemplateEmbedder.module D) (imp : TemplateEmbedder.imports D)
    (batch : gmap string (Torch.Tensor D)) (z pair_mask : Torch.Tensor D)
    (templ_dim : Z) (chunk_size : pyval) (mask_trans inplace : bool)
    (aatype : Torch.Tensor D) (z0 z1 : nat) (zs : list nat) :
  batch !! "template_aatype" = Some aatype →
  py_index (Torch.shape aatype) templ_dim = Ok 0%nat →
  Torch.shape z = z0 :: z1 :: zs →
  result (TemplateEmbedder.forward self imp batch z pair_mask templ_dim
            chunk_size mask_trans inplace)
  = Raise (UnboundLocalError "tt").
Proof.
  intros Hb Hn Hz. unfold TemplateEmbedder.forward.
  rewrite (embed_templates_eq self imp batch z pair_mask templ_dim chunk_size
             mask_trans inplace aatype 0 z0 z1 zs Hb Hn Hz).
  cbv zeta. rewrite result_bind. done.
Qed.

(** ** Invariants of the call trace *)

Section trace_invariants.
Context (P : event → Prop).

Lemma traces_bind {A B} (m : M A) (f : A → M B) :
  Forall P (trace m) → (∀ a, result m = Ok a → Forall P (trace (f a))) →
  Forall P (trace (m ≫= f)).
Proof.
  intros Hm Hf. rewrite trace_bind. apply Forall_app. split; [done|].
  destruct (result m) as [a|e]; [by apply Hf|constructor].
Qed.

Lemma traces_lift {A} (r : Res A) : Forall P (trace (lift r)).
Proof. constructor. Qed.

Lemma traces_mret {A} (a : A) : Forall P (trace (mret a : M A)).
Proof. constructor. Qed.

Lemma traces_emit (e : event) : P e → Forall P (trace (emit e)).
Proof. intros He. by repeat constructor. Qed.

Lemma traces_for_each {A S} (xs : list A) (body : A → S → M S) (st : S) :
  (∀ x s, Forall P (trace (body x s))) → Forall P (trace (for_each xs body st)).
Proof.
  intros Hbody. revert st. induction xs as [|x xs IH]; intros st; cbn [for_each].
  - apply traces_mret.
  - apply traces_bind; [apply Hbody|]. intros s _. apply IH.
Qed.

End trace_invariants.

Ltac traces_step :=
  first
    [ apply traces_lift
    | apply traces_mret
    | apply traces_for_each; intros ? ?
    | apply traces_bind; [|intros ? ?]
    | match goal with
      | |- Forall _ (trace (if ?b then _ else _)) => destruct b eqn:?
      end ].

Section template_traces.
Import Torch TemplateEmbedder.
Context {D : Type}.
Implicit Types (self : module D) (imp : imports D) (batch : gmap string (Tensor D))
  (z pair_mask : Tensor D) (chunk_size : pyval) (st : locals D).

Lemma loop_body_calls self imp batch z pair_mask templ_dim chunk_size mt ip i st :
  Forall (call_ok z chunk_size)
    (trace (loop_body self imp batch z pair_mask templ_dim chunk_size mt ip i st)).
Proof.
  unfold loop_body. repeat traces_step; by apply traces_emit.
Qed.

Lemma loop_body_no_alloc self imp batch z pair_mask templ_dim chunk_size mt ip i st :
  Forall (λ e, ¬ is_alloc e)
    (trace (loop_body self imp batch z pair_mask templ_dim chunk_size mt ip i st)).
Proof.
  unfold loop_body. repeat traces_step; apply traces_emit; by intros [].
Qed.

(** Every call recorded in a run of [forward] has the form [call_ok]
    describes. *)
Lemma forward_calls self imp batch z pair_mask templ_dim chunk_size mt ip :
  Forall (call_ok z chunk_size)
    (trace (forward self imp batch z pair_mask templ_dim chunk_size mt ip)).
Proof.
  unfold forward, embed_templates, empty_for.
  repeat first [apply loop_body_calls | traces_step];
    apply traces_emit; cbn;
    repeat match goal with H : small_chunk _ = _ |- _ => rewrite H end; done.
Qed.

End template_traces.

Section template_allocation.
Import Torch TemplateEmbedder.
Context {D : Type}.
Implicit Types (self : module D) (imp : imports D) (batch : gmap string (Tensor D))
  (z pair_mask : Tensor D) (chunk_size : pyval) (st : locals D).

Lemma small_chunk_spec chunk_size :
  small_chunk chunk_size = true ↔ ∃ n, as_int chunk_size = Some n ∧ 1 ≤ n ≤ 4.
Proof.
  unfold small_chunk. destruct (as_int chunk_size) as [n|].
  - rewrite bool_decide_eq_true. split; [eauto|]. by intros (? & [= <-] & ?).
  - split; [done|]. by intros (? & [=] & _).
Qed.

(** The trace of [forward] starts with the one allocation of the buffer. *)
Lemma forward_trace_alloc self imp batch z pair_mask templ_dim chunk_size mt ip
    (aatype : Tensor D) (n_templ z0 z1 : nat) (zs : list nat) :
  batch !! "template_aatype" = Some aatype →
  py_index (shape aatype) templ_dim = Ok n_templ →
  shape z = z0 :: z1 :: zs →
  ∃ rest,
    trace (forward self imp batch z pair_mask templ_dim chunk_size mt ip) =
      EvEmpty [n_templ; z0; z1; 64%nat] (dtype z)
              (if small_chunk chunk_size then Cpu else device z) :: rest ∧
    Forall (λ e, ¬ is_alloc e) rest.
Proof.
  intros Hb Hn Hz. unfold forward.
  rewrite (embed_templates_eq self imp batch z pair_mask templ_dim chunk_size
             mt ip aatype n_templ z0 z1 zs Hb Hn Hz).
  cbv zeta. rewrite trace_bind, bind_emit. cbn [trace result].
  eexists. split; [reflexivity|].
  apply Forall_app. split.
  - apply traces_for_each. intros i st. apply loop_body_no_alloc.
  - destruct (result (for_each _ _ _)) as [st|e]; [|constructor].
    repeat traces_step; apply traces_emit; by intros [].
Qed.

End template_allocation.

(** C7. In every call that reaches the allocation (the batch has
    [template_aatype] with a template axis, [z] has at least two axes), the
    buffer of shape [[T, z.shape[0], z.shape[1], 64]] is allocated once, with
    the dtype of [z]; it is placed on the CPU when [chunk_size] is an integer
    from 1 to 4, and on the device of [z] in every other case. *)
Theorem buffer_placement {D : Type}
    (self : TemplateEmbedder.module D) (imp : TemplateEmbedder.imports D)
    (batch : gmap string (Torch.Tensor D)) (z pair_mask : Torch.Tensor D)
    (templ_dim : Z) (chunk_size : pyval) (mask_trans inplace : bool)
    (aatype : Torch.Tensor D) (n_templ z0 z1 : nat) (zs : list nat) :
  batch !! "template_aatype" = Some aatype →
  py_index (Torch.shape aatype) templ_dim = Ok n_templ →
  Torch.shape z = z0 :: z1 :: zs →
  ∃ dev rest,
    trace (TemplateEmbedder.forward self imp batch z pair_mask templ_dim
             chunk_size mask_trans inplace) =
      EvEmpty [n_templ; z0; z1; 64%nat] (Torch.dtype z) dev :: rest ∧
    Forall (λ e, ¬ is_alloc e) rest ∧
    (TemplateEmbedder.small_chunk chunk_size = true → dev = Torch.Cpu) ∧
    (TemplateEmbedder.small_chunk chunk_size = false → dev = Torch.device z) ∧
    (TemplateEmbedder.small_chunk chunk_size = true ↔
       ∃ n, as_int chunk_size = Some n ∧ 1 ≤ n ≤ 4).
Proof.
  intros Hb Hn Hz.
  destruct (forward_trace_alloc self imp batch z pair_mask templ_dim chunk_size
              mask_trans inplace aatype n_templ z0 z1 zs Hb Hn Hz) as (rest & Htr & Hrest).
  eexists _, rest. split; [exact Htr|]. split; [exact Hrest|].
  split; [by intros ->|]. split; [by intros ->|].
  apply small_chunk_spec.
Qed.

(** ** Shapes accepted by the indexed assignment into the buffer *)

Section assignable_lemmas.
Import Torch TemplateEmbedder.

Lemma expands_rev_length (src dst : list nat) :
  expands_rev src dst = true → (length src ≤ length dst)%nat.
Proof.
  revert dst. induction src as [|s src IH]; intros [|d dst]; cbn; try done; try lia.
  intros [_ Hrest]%andb_true_iff. apply IH in Hrest. lia.
Qed.

Lemma expands_to_length (src dst : list nat) :
  expands_to src dst = true → (length src ≤ length dst)%nat.
Proof.
  unfold expands_to. intros Hlen%expands_rev_length.
  by rewrite !length_reverse in Hlen.
Qed.

Lemma strip_ones_batched (bs l : list nat) (n : nat) :
  (2 ≤ n)%nat →
  (Forall (λ b, b = 1%nat) bs ∧ strip_ones (bs ++ 1%nat :: n :: l) = n :: l) ∨
  (length l + 3 ≤ length (strip_ones (bs ++ 1%nat :: n :: l)))%nat.
Proof.
  intros Hn. induction bs as [|b bs IH].
  - left. split; [constructor|]. cbn [app strip_ones].
    rewrite decide_True by done. rewrite decide_False by lia. done.
  - cbn [app strip_ones]. destruct (decide (b = 1%nat)) as [->|Hb].
    + destruct IH as [[Hall Hs]|Hlen]; [left|by right]. split; [by constructor|done].
    + right. cbn [length]. rewrite length_app. cbn [length]. lia.
Qed.

Lemma assignable_unbatched (n : nat) :
  assignable (pair_stack_out_shape [] n 64) [n; n; 64%nat] = true.
Proof.
  unfold assignable, pair_stack_out_shape. apply orb_true_iff. right.
  cbn [app strip_ones]. rewrite decide_True by done.
  destruct (decide (n = 1%nat)) as [->|Hn].
  - done.
  - unfold expands_to. cbn. by rewrite !(bool_decide_true (n = n)).
Qed.

Lemma assignable_batched (bs : list nat) (n c c_t z0 z1 : nat) (zs : list nat) :
  bs ≠ [] → (2 ≤ n)%nat → bs ++ [n; n; c] = z0 :: z1 :: zs →
  assignable (pair_stack_out_shape bs n c_t) [z0; z1; 64%nat] = false.
Proof.
  intros Hbs Hn Hz. unfold assignable, pair_stack_out_shape.
  apply orb_false_iff. split.
  - apply bool_decide_eq_false. intros Heq%(f_equal length).
    rewrite length_app in Heq. cbn in Heq. lia.
  - destruct (strip_ones_batched bs [n; c_t] n Hn) as [[Hall Hs]|Hlen].
    + rewrite Hs. destruct bs as [|b bs']; [done|].
      apply Forall_cons_1 in Hall as [-> _]. injection Hz as <- _.
      unfold expands_to. cbn.
      rewrite (bool_decide_false (n = 1%nat)) by lia.
      by rewrite !andb_false_r.
    + destruct (expands_to _ _) eqn:He; [|done].
      apply expands_to_length in He. cbn [length] in *. lia.
Qed.

End assignable_lemmas.

(** C10. The buffer is allocated with the sizes [z.shape[0]], [z.shape[1]]
    and the constant 64.  For a pair embedding of shape [[*, N, N, C]] and a
    pair stack of output width [c_t], one slot of the buffer has the shape of
    one template's result exactly when there is no batch axis and
    [c_t = 64]; in that case the assignment [t[i] = ...] is accepted, and
    with any batch axis (and [N >= 2]) it is rejected. *)
Theorem buffer_shape {D : Type}
    (self : TemplateEmbedder.module D) (imp : TemplateEmbedder.imports D)
    (batch : gmap string (Torch.Tensor D)) (z pair_mask : Torch.Tensor D)
    (templ_dim : Z) (chunk_size : pyval) (mask_trans inplace : bool)
    (aatype : Torch.Tensor D) (n_templ : nat) (bs : list nat) (n c c_t : nat) :
  batch !! "template_aatype" = Some aatype →
  py_index (Torch.shape aatype) templ_dim = Ok n_templ →
  Torch.shape z = bs ++ [n; n; c] →
  ∃ z0 z1 dev rest,
    py_index (Torch.shape z) 0 = Ok z0 ∧
    py_index (Torch.shape z) 1 = Ok z1 ∧
    trace (TemplateEmbedder.forward self imp batch z pair_mask templ_dim
             chunk_size mask_trans inplace) =
      EvEmpty [n_templ; z0; z1; 64%nat] (Torch.dtype z) dev :: rest ∧
    ([z0; z1; 64%nat] = TemplateEmbedder.per_template_shape bs n c_t ↔
       bs = [] ∧ c_t = 64%nat) ∧
    (bs = [] → c_t = 64%nat →
       Torch.assignable (TemplateEmbedder.pair_stack_out_shape bs n c_t)
         [z0; z1; 64%nat] = true) ∧
    (bs ≠ [] → (2 ≤ n)%nat →
       Torch.assignable (TemplateEmbedder.pair_stack_out_shape bs n c_t)
         [z0; z1; 64%nat] = false).
Proof.
  intros Hb Hn Hz.
  assert (∃ z0 z1 zs, bs ++ [n; n; c] = z0 :: z1 :: zs) as (z0 & z1 & zs & Hsh).
  { destruct bs as [|b0 [|b1 bs']]; cbn; eauto. }
  pose proof Hz as Hz'. rewrite Hsh in Hz'.
  destruct (forward_trace_alloc self imp batch z pair_mask templ_dim chunk_size
              mask_trans inplace aatype n_templ z0 z1 zs Hb Hn Hz') as (rest & Htr & _).
  exists z0, z1. eexists _, rest.
  split; [by rewrite Hz', py_index_0|]. split; [by rewrite Hz', py_index_1|].
  split; [exact Htr|]. split; [|split].
  - unfold TemplateEmbedder.per_template_shape. split.
    + intros Heq. pose proof (f_equal length Heq) as Hlen.
      rewrite length_app in Hlen. cbn in Hlen.
      destruct bs; [|cbn in Hlen; lia]. cbn in Heq. by injection Heq as _ _ <-.
    + intros [-> ->]. cbn in Hsh. by injection Hsh as <- <- _.
  - intros -> ->. cbn in Hsh. injection Hsh as <- <- _. apply assignable_unbatched.
  - intros Hbs Hn2. by eapply assignable_batched.
Qed.

(** ** Relating two runs *)

Section relating_runs.
Context {A A' B B' : Type}.

Lemma res_rel_bind (Q : A → A' → Prop) (Q' : B → B' → Prop)
    (m : M A) (m' : M A') (f : A → M B) (f' : A' → M B') :
  res_rel Q (result m) (result m') →
  (∀ a a', Q a a' → res_rel Q' (result (f a)) (result (f' a'))) →
  res_rel Q' (result (m ≫= f)) (result (m' ≫= f')).
Proof.
  intros Hm Hf. rewrite !result_bind.
  destruct (result m) as [a|e], (result m') as [a'|e']; try done. by apply Hf.
Qed.

End relating_runs.

Lemma res_rel_bind_eq {A B B'} (Q' : B → B' → Prop)
    (m m' : M A) (f : A → M B) (f' : A → M B') :
  result m = result m' →
  (∀ a, result m = Ok a → res_rel Q' (result (f a)) (result (f' a))) →
  res_rel Q' (result (m ≫= f)) (result (m' ≫= f')).
Proof.
  intros Hm Hf. rewrite !result_bind, <-Hm.
  destruct (result m) as [a|e]; [by apply Hf|done].
Qed.

Lemma res_rel_eq {A} (r r' : Res A) : res_rel eq r r' ↔ r = r'.
Proof.
  destruct r, r'; cbn; split; try done; try congruence.
Qed.

Lemma res_rel_refl {A} (Q : A → A → Prop) (r : Res A) :
  (∀ a, Q a a) → res_rel Q r r.
Proof. intros HQ. destruct r; cbn; auto. Qed.

Lemma for_each_rel {X S S'} (Q : S → S' → Prop) (xs : list X)
    (body : X → S → M S) (body' : X → S' → M S') (st : S) (st' : S') :
  (∀ x s s', Q s s' → res_rel Q (result (body x s)) (result (body' x s'))) →
  Q st st' →
  res_rel Q (result (for_each xs body st)) (result (for_each xs body' st')).
Proof.
  intros Hbody. revert st st'. induction xs as [|x xs IH]; intros st st' Hst.
  - done.
  - cbn [for_each]. eapply res_rel_bind; [by apply Hbody|]. intros s s'. apply IH.
Qed.

(** ** In-place and standard pair stack *)

Section template_inplace.
Import Torch TemplateEmbedder.
Context {D : Type}.
Implicit Types (self : module D) (imp : imports D) (batch : gmap string (Tensor D))
  (z pair_mask : Tensor D) (chunk_size : pyval) (st : locals D).

Lemma inplace_single self (x mask : Tensor D) chunk_size mt :
  (tt ← template_pair_stack_inplace self [x] mask chunk_size mt; py_index tt 0) =
  template_pair_stack self x mask chunk_size mt.
Proof.
  unfold template_pair_stack_inplace. rewrite py_index_0, Res_bind_Ok.
  destruct (template_pair_stack self x mask chunk_size mt) as [y|e]; [|done].
  rewrite !Res_bind_Ok. apply py_index_0.
Qed.

Lemma loop_body_inplace self imp batch z pair_mask templ_dim chunk_size mt i st st' :
  same_but_tt st st' →
  res_rel same_but_tt
    (result (loop_body self imp batch z pair_mask templ_dim chunk_size mt true i st))
    (result (loop_body self imp batch z pair_mask templ_dim chunk_size mt false i st')).
Proof.
  intros (Ht & He & Htt & Hf). unfold loop_body.
  apply res_rel_bind_eq; [done|intros feats _].
  apply res_rel_bind_eq; [done|intros emb _].
  apply res_rel_bind_eq; [done|intros [] _].
  apply res_rel_bind_eq; [done|intros x _].
  apply res_rel_bind_eq; [done|intros y _].
  cbv iota.
  apply res_rel_bind_eq; [done|intros mask _].
  apply res_rel_bind_eq; [done|intros [] _].
  pose proof (inplace_single self y (to_dtype (cast imp) (dtype z) mask) chunk_size mt)
    as Hsingle.
  destruct (template_pair_stack_inplace self [y] _ chunk_size mt) as [l|e];
    rewrite <-Hsingle; [|done].
  rewrite bind_lift_Ok, Res_bind_Ok.
  apply res_rel_bind_eq; [done|intros r _].
  rewrite Ht. apply res_rel_bind_eq; [done|intros b _].
  cbn. repeat split; cbn; eauto. by rewrite He.
Qed.

Lemma embed_templates_inplace self imp batch z pair_mask templ_dim chunk_size mt :
  res_rel same_but_tt
    (result (embed_templates self imp batch z pair_mask templ_dim chunk_size mt true))
    (result (embed_templates self imp batch z pair_mask templ_dim chunk_size mt false)).
Proof.
  unfold embed_templates.
  apply res_rel_bind_eq; [done|intros aatype _].
  apply res_rel_bind_eq; [done|intros n_templ _].
  apply res_rel_bind_eq; [done|intros b _].
  apply for_each_rel; [|done].
  intros i s s'. apply loop_body_inplace.
Qed.

End template_inplace.

(** C9. For every template index and every state of the loop, the iteration
    on the in-place path and the iteration on the standard path raise the
    same exception or leave the same accumulation buffer (and the same
    collected embeddings); and [forward] returns the same with [inplace] set
    or not.  The in-place pair stack is the one modelled from the spec. *)
Theorem inplace_matches_standard {D : Type}
    (self : TemplateEmbedder.module D) (imp : TemplateEmbedder.imports D)
    (batch : gmap string (Torch.Tensor D)) (z pair_mask : Torch.Tensor D)
    (templ_dim : Z) (chunk_size : pyval) (mask_trans : bool) :
  (∀ (i : nat) (st : TemplateEmbedder.locals D),
     res_rel TemplateEmbedder.same_but_tt
       (result (TemplateEmbedder.loop_body self imp batch z pair_mask templ_dim
                  chunk_size mask_trans true i st))
       (result (TemplateEmbedder.loop_body self imp batch z pair_mask templ_dim
                  chunk_size mask_trans false i st))) ∧
  result (TemplateEmbedder.forward self imp batch z pair_mask templ_dim
            chunk_size mask_trans true) =
  result (TemplateEmbedder.forward self imp batch z pair_mask templ_dim
            chunk_size mask_trans false).
Proof.
  split.
  - intros i st. apply loop_body_inplace. by repeat split.
  - apply res_rel_eq. unfold TemplateEmbedder.forward.
    eapply res_rel_bind; [apply embed_templates_inplace|].
    intros st st' (Ht & He & Htt & Hf).
    eapply (res_rel_bind (λ _ _, True)).
    { destruct (TemplateEmbedder.tt st) as [v|], (TemplateEmbedder.tt st') as [v'|];
        try done.
      - by destruct (proj1 Htt).
      - by destruct (proj2 Htt). }
    intros _ _ _. rewrite Ht, He, Hf.
    apply res_rel_refl. done.
Qed.

(** ** Chunk size *)

Section template_chunk.
Import Torch TemplateEmbedder.
Context {D : Type}.
Implicit Types (self : module D) (imp : imports D) (batch : gmap string (Tensor D))
  (z pair_mask : Tensor D) (st : locals D) (c : pyval).

Lemma setitem_same_contents (b b' : Buffer D) (i : nat) (v v' : Tensor D) :
  same_contents b b' → shape v = shape v' → data v = data v' →
  res_rel same_contents (setitem b i v) (setitem b' i v').
Proof.
  intros (Hs & Hd & Hsl) Hv Hdv. unfold setitem, slot_shape.
  rewrite Hs, Hsl, Hv, Hdv.
  destruct (decide _); [|done]. destruct (assignable _ _); [|done].
  cbn. by repeat split.
Qed.

Lemma empty_for_same_contents (n_templ : nat) z (dev dev' : Device) :
  res_rel same_contents (result (empty_for n_templ z dev))
    (result (empty_for n_templ z dev')).
Proof.
  unfold empty_for.
  apply res_rel_bind_eq; [done|intros z0 _].
  apply res_rel_bind_eq; [done|intros z1 _].
  apply res_rel_bind_eq; [done|intros [] _]. by repeat split.
Qed.

Lemma att_chunk_enabled c :
  chunk_enabled c → ∃ a, att_chunk_size c = Ok a ∧ chunk_enabled a.
Proof.
  intros [->|(n & -> & Hn)].
  - exists PyNone. split; [done|by left].
  - exists (PyInt (n * 256)). split; [done|]. right. eexists. split; [done|lia].
Qed.

Section with_contract.
Context (self : module D) (imp : imports D) (Hinv : chunk_invariant self imp).
Context (c c' : pyval) (Hc : chunk_enabled c) (Hc' : chunk_enabled c').

Lemma loop_body_chunk batch z pair_mask templ_dim mt ip i st st' :
  same_values st st' →
  res_rel same_values
    (result (loop_body self imp batch z pair_mask templ_dim c mt ip i st))
    (result (loop_body self imp batch z pair_mask templ_dim c' mt ip i st')).
Proof.
  intros (Ht & He & Htt & Hf). unfold loop_body.
  apply res_rel_bind_eq; [done|intros feats _].
  apply res_rel_bind_eq; [done|intros emb _].
  apply res_rel_bind_eq; [done|intros [] _].
  apply res_rel_bind_eq;
    [cbn; by rewrite (pair_feat_chunk _ _ Hinv feats c c')|intros x _].
  apply res_rel_bind_eq; [done|intros y _].
  destruct ip.
  - apply res_rel_bind_eq; [done|intros mask _].
    apply res_rel_bind_eq; [done|intros [] _].
    apply res_rel_bind_eq.
    { cbn. unfold template_pair_stack_inplace. rewrite py_index_0, !Res_bind_Ok.
      by rewrite (pair_stack_chunk _ _ Hinv y _ mt c c'). }
    intros l _.
    apply res_rel_bind_eq; [done|intros r _].
    eapply res_rel_bind; [by apply setitem_same_contents|].
    intros b b' Hb. cbn. repeat split; cbn; try apply Hb. by rewrite He.
  - apply res_rel_bind_eq; [done|intros mask _].
    apply res_rel_bind_eq; [done|intros [] _].
    apply res_rel_bind_eq;
      [cbn; by rewrite (pair_stack_chunk _ _ Hinv y _ mt c c')|intros r _].
    eapply res_rel_bind; [by apply setitem_same_contents|].
    intros b b' Hb. cbn. repeat split; cbn; try apply Hb. by rewrite He.
Qed.

Lemma embed_templates_chunk batch z pair_mask templ_dim mt ip :
  res_rel same_values
    (result (embed_templates self imp batch z pair_mask templ_dim c mt ip))
    (result (embed_templates self imp batch z pair_mask templ_dim c' mt ip)).
Proof.
  unfold embed_templates.
  apply res_rel_bind_eq; [done|intros aatype _].
  apply res_rel_bind_eq; [done|intros n_templ _].
  eapply res_rel_bind.
  { destruct (small_chunk c), (small_chunk c'); apply empty_for_same_contents. }
  intros b b' Hb. apply for_each_rel; [|by split].
  intros i s s'. apply loop_body_chunk.
Qed.

Lemma forward_chunk batch z pair_mask templ_dim mt ip :
  result (forward self imp batch z pair_mask templ_dim c mt ip) =
  result (forward self imp batch z pair_mask templ_dim c' mt ip).
Proof.
  apply res_rel_eq. unfold forward.
  eapply res_rel_bind; [apply embed_templates_chunk|].
  intros st st' ((Hs & Hd & Hsl) & He & Htt & Hf).
  rewrite Htt, Hf, He.
  apply res_rel_bind_eq; [done|intros [] _].
  apply res_rel_bind_eq; [done|intros [] _].
  apply res_rel_bind_eq; [done|intros embeds _].
  apply res_rel_bind_eq; [done|intros mask _].
  destruct (att_chunk_enabled c Hc) as (a & Ha & Hae).
  destruct (att_chunk_enabled c' Hc') as (a' & Ha' & Hae').
  rewrite Ha, Ha', !bind_lift_Ok.
  apply res_rel_bind_eq; [done|intros [] _].
  apply res_rel_bind_eq.
  { cbn. by apply (pointwise_att_chunk _ _ Hinv). }
  intros z' _. apply res_rel_refl. done.
Qed.

End with_contract.
End template_chunk.

(** C2. Under the chunking contract of the collaborators (their outputs do
    not depend on the chunk size), [forward] returns the same output mapping
    and the same updated pair embedding, or raises the same exception, for
    any two chunk sizes among [None] and the positive integers, in
    particular among [None], 1, 4 and 16. *)
Theorem chunk_size_invariance {D : Type}
    (self : TemplateEmbedder.module D) (imp : TemplateEmbedder.imports D)
    (batch : gmap string (Torch.Tensor D)) (z pair_mask : Torch.Tensor D)
    (templ_dim : Z) (mask_trans inplace : bool) (c c' : pyval) :
  TemplateEmbedder.chunk_invariant self imp →
  TemplateEmbedder.chunk_enabled c → TemplateEmbedder.chunk_enabled c' →
  result (TemplateEmbedder.forward self imp batch z pair_mask templ_dim c
            mask_trans inplace) =
  result (TemplateEmbedder.forward self imp batch z pair_mask templ_dim c'
            mask_trans inplace).
Proof. intros Hinv Hc Hc'. by apply forward_chunk. Qed.

(** C8 (as amended). For a [chunk_size] that is not an integer from 1 to 4,
    the buffer is allocated exactly as for [chunk_size=None], on the device
    and with the dtype of [z]; the chunk size is still handed on: every call
    of the pair-feature builder and of the pair stack receives [chunk_size]
    itself, and the pointwise attention receives [chunk_size * 256] unless
    [chunk_size] is [None]. *)
Theorem unsupported_chunk_size_forwarded {D : Type}
    (self : TemplateEmbedder.module D) (imp : TemplateEmbedder.imports D)
    (batch : gmap string (Torch.Tensor D)) (z pair_mask : Torch.Tensor D)
    (templ_dim : Z) (chunk_size : pyval) (mask_trans inplace : bool)
    (aatype : Torch.Tensor D) (n_templ z0 z1 : nat) (zs : list nat) :
  TemplateEmbedder.small_chunk chunk_size = false →
  batch !! "template_aatype" = Some aatype →
  py_index (Torch.shape aatype) templ_dim = Ok n_templ →
  Torch.shape z = z0 :: z1 :: zs →
  let alloc := EvEmpty [n_templ; z0; z1; 64%nat] (Torch.dtype z) (Torch.device z) in
  (∃ rest rest_none,
     trace (TemplateEmbedder.forward self imp batch z pair_mask templ_dim
              chunk_size mask_trans inplace) = alloc :: rest ∧
     trace (TemplateEmbedder.forward self imp batch z pair_mask templ_dim
              PyNone mask_trans inplace) = alloc :: rest_none) ∧
  Forall (TemplateEmbedder.call_ok z chunk_size)
    (trace (TemplateEmbedder.forward self imp batch z pair_mask templ_dim
              chunk_size mask_trans inplace)) ∧
  (chunk_size ≠ PyNone →
   TemplateEmbedder.att_chunk_size chunk_size = py_mul_256 chunk_size).
Proof.
  intros Hsmall Hb Hn Hz alloc. split; [|split].
  - destruct (forward_trace_alloc self imp batch z pair_mask templ_dim chunk_size
                mask_trans inplace aatype n_templ z0 z1 zs Hb Hn Hz) as (rest & Htr & _).
    destruct (forward_trace_alloc self imp batch z pair_mask templ_dim PyNone
                mask_trans inplace aatype n_templ z0 z1 zs Hb Hn Hz) as (rest0 & Htr0 & _).
    rewrite Hsmall in Htr. exists rest, rest0. by split.
  - apply forward_calls.
  - intros Hne. unfold TemplateEmbedder.att_chunk_size. by rewrite decide_False.
Qed.

(** ** The claims at concrete inputs *)

Section witnesses.
Import Torch TemplateEmbedder Examples.

Lemma relpos_translation_witness :
  let ri : tens 1 (list (rounded 8)) := tmap 1 (fmap (M:=list) of_Z) [[5; 6; 9]] in
  InputEmbedder.relpos input_bfloat16 1 (shift 1 3 ri)
    = InputEmbedder.relpos input_bfloat16 1 ri ∧
  (Z.of_nat (InputEmbedder.relpos_k input_bfloat16) ≤ 256 →
   InputEmbedder.relpos input_bfloat16 1 ri =
     Linear.forward (InputEmbedder.linear_relpos input_bfloat16) 1 2
       (tmap 1 (clamped_one_hot (InputEmbedder.relpos_k input_bfloat16))
          ([[5; 6; 9]] : tens 1 (list Z)))).
Proof.
  apply (relpos_translation_exact_range (R:=rounded 8) 256 input_bfloat16 1
           [[5; 6; 9]] 3);
    [lia|repeat constructor; cbn; lia].
Defined.

(** C3 (as stated) fails.  In [bfloat16], whose significand has 8 bits, the
    residue indices [0, 1] shifted by [c = 256] are both stored as 256: the
    sum [1 + 256] rounds, and so does the cast of the integer 257.  [relpos]
    then sees two residues at the same position, and its output differs from
    that for [0, 1]. *)
Lemma relpos_shift_rounds :
  let ri : tens 1 (list (rounded 8)) := tmap 1 (fmap (M:=list) of_Z) [[0; 1]] in
  shift 1 256 ri = [[Rounded 256; Rounded 256]] ∧
  tmap 1 (fmap (M:=list) of_Z) ([[256; 257]] : tens 1 (list Z))
    = ([[Rounded 256; Rounded 256]] : tens 1 (list (rounded 8))) ∧
  InputEmbedder.relpos input_bfloat16 1 ri
    = Ok [[[[Rounded 200; Rounded 2]; [Rounded 100; Rounded 1]];
           [[Rounded 300; Rounded 3]; [Rounded 200; Rounded 2]]]] ∧
  InputEmbedder.relpos input_bfloat16 1 (shift 1 256 ri)
    = Ok [[[[Rounded 200; Rounded 2]; [Rounded 200; Rounded 2]];
           [[Rounded 200; Rounded 2]; [Rounded 200; Rounded 2]]]] ∧
  ¬ (InputEmbedder.relpos input_bfloat16 1 (shift 1 256 ri)
       = InputEmbedder.relpos input_bfloat16 1 ri).
Proof.
  cbv zeta. repeat split; try (vm_compute; reflexivity).
  intros Heq. vm_compute in Heq. discriminate Heq.
Qed.

Lemma forward_pair_embedding_witness :
  ∃ rel row col msa_emb pair_emb,
    InputEmbedder.relpos input_small 1 (tmap 1 (fmap (M:=list) of_Z) [[7; 8]]) = Ok rel ∧
    Linear.forward (InputEmbedder.linear_tf_z_i input_small) 1 1 [[[1; 2]; [3; 4]]] = Ok row ∧
    Linear.forward (InputEmbedder.linear_tf_z_j input_small) 1 1 [[[1; 2]; [3; 4]]] = Ok col ∧
    InputEmbedder.forward input_small 1 [[[1; 2]; [3; 4]]] [[7; 8]]
      [[[[1]; [2]]; [[3]; [4]]; [[5]; [6]]]] = Ok (msa_emb, pair_emb) ∧
    ∀ p i j, in_batch p [1%nat] → (i < 2)%nat → (j < 2)%nat →
      ∃ r a b,
        at3 1 rel p i j = Some r ∧
        at2 1 row p i = Some a ∧
        at2 1 col p j = Some b ∧
        at3 1 pair_emb p i j = Some (vadd r (vadd a b)).
Proof.
  apply (forward_pair_embedding input_small 1 [1%nat] 2 3
           [[[1; 2]; [3; 4]]] [[7; 8]] [[[[1]; [2]]; [[3]; [4]]; [[5]; [6]]]]);
    repeat constructor.
Defined.

Lemma forward_scenario_witness :
  ∃ msa_m tf_m msa_emb pair_emb,
    Linear.forward (InputEmbedder.linear_msa_m input_scenario) 1 2 scenario_msa = Ok msa_m ∧
    Linear.forward (InputEmbedder.linear_tf_m input_scenario) 1 1 scenario_tf = Ok tf_m ∧
    InputEmbedder.forward input_scenario 1 scenario_tf scenario_ri scenario_msa
      = Ok (msa_emb, pair_emb) ∧
    tshape 1 [1%nat] (shape3 4 10 256) msa_emb ∧
    tshape 1 [1%nat] (shape3 10 10 128) pair_emb ∧
    ∀ p s i, in_batch p [1%nat] → (s < 4)%nat → (i < 10)%nat →
      ∃ x y,
        at3 1 msa_m p s i = Some x ∧
        at2 1 tf_m p i = Some y ∧
        at3 1 msa_emb p s i = Some (vadd x y).
Proof.
  apply (forward_msa_embedding input_scenario 1 [1%nat] 10 4
           scenario_tf scenario_ri scenario_msa);
    repeat constructor.
Defined.

Lemma angle_scenario_witness :
  TemplateAngleEmbedder.forward angle_scenario 3 scenario_angle_feat =
    (h ← Linear.forward (TemplateAngleEmbedder.linear_1 angle_scenario) 3 0 scenario_angle_feat;
     Linear.forward (TemplateAngleEmbedder.linear_2 angle_scenario) 3 0
       (TemplateAngleEmbedder.relu 3 h)) ∧
  ∃ y,
    TemplateAngleEmbedder.forward angle_scenario 3 scenario_angle_feat = Ok y ∧
    tshape 3 [1; 4; 10]%nat (shape1 256) y ∧
    ∀ p, in_batch p [1; 4; 10]%nat →
      ∃ v, tget 3 scenario_angle_feat p = Some v ∧
           tget 3 y p =
             Some (Linear.affine (TemplateAngleEmbedder.linear_2 angle_scenario)
                     (rrelu <$> Linear.affine (TemplateAngleEmbedder.linear_1 angle_scenario) v)).
Proof.
  apply (angle_embedder_forward angle_scenario 3 [1; 4; 10]%nat scenario_angle_feat);
    repeat constructor.
Defined.

Lemma forward_no_templates_witness :
  result (forward template_module template_imports (template_batch 0) pair_z
            pair_mask 0 (PyInt 4) true false)
  = Raise (UnboundLocalError "tt").
Proof.
  apply (forward_no_templates_raises template_module template_imports
           (template_batch 0) pair_z pair_mask 0 (PyInt 4) true false
           (mkTensor [0; 3]%nat Float32 (Cuda 0) 7) 3 3 [128%nat]);
    reflexivity.
Defined.

Lemma chunk_size_invariance_witness :
  result (forward template_module template_imports (template_batch 2) pair_z
            pair_mask 0 (PyInt 4) true false) =
  result (forward template_module template_imports (template_batch 2) pair_z
            pair_mask 0 (PyInt 16) true false).
Proof.
  apply (chunk_size_invariance template_module template_imports
           (template_batch 2) pair_z pair_mask 0 true false (PyInt 4) (PyInt 16)).
  - split; [reflexivity|reflexivity|].
    intros b b' z mask c c' _ _ _ _ Hs. simpl. rewrite Hs. reflexivity.
  - right. exists 4. split; [reflexivity|lia].
  - right. exists 16. split; [reflexivity|lia].
Defined.

Lemma buffer_placement_witness :
  ∃ dev rest,
    trace (forward template_module template_imports (template_batch 2) pair_z
             pair_mask 0 (PyInt 4) true false) =
      EvEmpty [2; 3; 3; 64]%nat (dtype pair_z) dev :: rest ∧
    Forall (λ e, ¬ is_alloc e) rest ∧
    (small_chunk (PyInt 4) = true → dev = Cpu) ∧
    (small_chunk (PyInt 4) = false → dev = device pair_z) ∧
    (small_chunk (PyInt 4) = true ↔ ∃ n, as_int (PyInt 4) = Some n ∧ 1 ≤ n ≤ 4).
Proof.
  apply (buffer_placement template_module template_imports (template_batch 2)
           pair_z pair_mask 0 (PyInt 4) true false
           (mkTensor [2; 3]%nat Float32 (Cuda 0) 7) 2 3 3 [128%nat]);
    reflexivity.
Defined.

Lemma unsupported_chunk_size_witness :
  let alloc := EvEmpty [2; 3; 3; 64]%nat (dtype pair_z) (device pair_z) in
  (∃ rest rest_none,
     trace (forward template_module template_imports (template_batch 2) pair_z
              pair_mask 0 (PyInt 16) true false) = alloc :: rest ∧
     trace (forward template_module template_imports (template_batch 2) pair_z
              pair_mask 0 PyNone true false) = alloc :: rest_none) ∧
  Forall (call_ok pair_z (PyInt 16))
    (trace (forward template_module template_imports (template_batch 2) pair_z
              pair_mask 0 (PyInt 16) true false)) ∧
  (PyInt 16 ≠ PyNone → att_chunk_size (PyInt 16) = py_mul_256 (PyInt 16)).
Proof.
  apply (unsupported_chunk_size_forwarded template_module template_imports
           (template_batch 2) pair_z pair_mask 0 (PyInt 16) true false
           (mkTensor [2; 3]%nat Float32 (Cuda 0) 7) 2 3 3 [128%nat]);
    reflexivity.
Defined.

Lemma buffer_shape_witness :
  ∃ z0 z1 dev rest,
    py_index (shape pair_z) 0 = Ok z0 ∧
    py_index (shape pair_z) 1 = Ok z1 ∧
    trace (forward template_module template_imports (template_batch 2) pair_z
             pair_mask 0 PyNone true false) =
      EvEmpty [2%nat; z0; z1; 64%nat] (dtype pair_z) dev :: rest ∧
    ([z0; z1; 64%nat] = per_template_shape [] 3 64 ↔ ([] : list nat) = [] ∧ 64%nat = 64%nat) ∧
    (([] : list nat) = [] → 64%nat = 64%nat →
       assignable (pair_stack_out_shape [] 3 64) [z0; z1; 64%nat] = true) ∧
    (([] : list nat) ≠ [] → (2 ≤ 3)%nat →
       assignable (pair_stack_out_shape [] 3 64) [z0; z1; 64%nat] = false).
Proof.
  apply (buffer_shape template_module template_imports (template_batch 2)
           pair_z pair_mask 0 PyNone true false
           (mkTensor [2; 3]%nat Float32 (Cuda 0) 7) 2 [] 3 128 64);
    reflexivity.
Defined.

(** C8 (as stated) fails: with [chunk_size = 16], which is outside the
    small-buffer range, the collaborators are called with chunk sizes 16 and
    4096 instead of [None]; and with a [chunk_size] that cannot be multiplied
    by an integer the call raises where [chunk_size=None] returns. *)
Lemma chunk_size_16_is_chunked :
  ¬ (∀ chunk_size, small_chunk chunk_size = false →
       trace (forward template_module template_imports (template_batch 1) pair_z
                pair_mask 0 chunk_size true false) =
       trace (forward template_module template_imports (template_batch 1) pair_z
                pair_mask 0 PyNone true false)) ∧
  ¬ (∀ chunk_size, small_chunk chunk_size = false →
       result (forward template_module template_imports (template_batch 1) pair_z
                 pair_mask 0 chunk_size true false) =
       result (forward template_module template_imports (template_batch 1) pair_z
                 pair_mask 0 PyNone true false)).
Proof.
  split.
  - intros Hall. specialize (Hall (PyInt 16) eq_refl).
    vm_compute in Hall. discriminate Hall.
  - intros Hall. specialize (Hall (PyObject 0) eq_refl).
    vm_compute in Hall. discriminate Hall.
Qed.

End witnesses.

(** * Further properties of the embedders *)

(** ** Entries of the input embeddings in closed form *)

Lemma select_lookup {A} (idx : list nat) (l : list A) (i i' : nat) :
  Forall (λ j, (j < length l)%nat) idx → idx !! i = Some i' →
  select idx l !! i = l !! i'.
Proof.
  intros Hall. revert i. unfold select.
  induction Hall as [|j idx Hj _ IH]; intros i Hi; [done|].
  destruct (lookup_lt_is_Some_2 l j Hj) as [x Hx]. cbn. rewrite Hx. cbn.
  destruct i as [|i]; cbn in *; [by injection Hi as ->|by apply IH].
Qed.

Lemma select_length {A} (idx : list nat) (l : list A) :
  Forall (λ j, (j < length l)%nat) idx → length (select idx l) = length idx.
Proof.
  unfold select. induction 1 as [|j idx Hj _ IH]; [done|].
  destruct (lookup_lt_is_Some_2 l j Hj) as [x Hx]. cbn. rewrite Hx. cbn. by rewrite IH.
Qed.

Section entries.
Context {R : Type} `{Scalar R}.
Implicit Types (self : InputEmbedder.t R).

Lemma relpos_ref_lookup self (v : list R) (i j : nat) (a b : R) :
  v !! i = Some a → v !! j = Some b →
  relpos_ref self v !! i ≫= (.!! j) =
    Some (Linear.affine (InputEmbedder.linear_relpos self)
            (one_hot (rsub a b)
               (arange (- Z.of_nat (InputEmbedder.relpos_k self))
                       (Z.of_nat (InputEmbedder.relpos_k self) + 1)))).
Proof.
  intros Ha Hb. unfold relpos_ref, outer_diff.
  rewrite !list_lookup_fmap, Ha. cbn. by rewrite !list_lookup_fmap, Hb.
Qed.

(** The entries of both embeddings, read off the inputs. *)
Lemma forward_entries self k bs n nc
    (tf : tens k (list (list R))) (ri : tens k (list Z))
    (msa : tens k (list (list (list R)))) :
  InputEmbedder.constructed self →
  tshape k bs (shape2 n (InputEmbedder.tf_dim self)) tf →
  tshape k bs (shape1 n) ri →
  tshape k bs (shape3 nc n (InputEmbedder.msa_dim self)) msa →
  ∃ msa_emb pair_emb,
    InputEmbedder.forward self k tf ri msa = Ok (msa_emb, pair_emb) ∧
    (∀ p i j x_i x_j r_i r_j,
       at2 k tf p i = Some x_i → at2 k tf p j = Some x_j →
       at2 k ri p i = Some r_i → at2 k ri p j = Some r_j →
       at3 k pair_emb p i j = Some (pair_entry self x_i x_j r_i r_j)) ∧
    (∀ p s i m x,
       in_batch p bs → at3 k msa p s i = Some m → at2 k tf p i = Some x →
       at3 k msa_emb p s i = Some (msa_entry self m x)).
Proof.
  intros Hc Htf Hri Hmsa.
  eexists _, _. split; [by eapply forward_pure|]. split.
  - intros p i j x_i x_j r_i r_j. unfold at2, at3.
    rewrite !tget_tzip_with, !tget_tmap.
    destruct (tget k tf p) as [TF|]; [|done].
    destruct (tget k ri p) as [RI|]; [|done]. cbn.
    intros Hxi Hxj Hri' Hrj.
    apply at3_add3.
    + apply relpos_ref_lookup; by rewrite list_lookup_fmap, ?Hri', ?Hrj.
    + apply at3_outer_sum; by rewrite list_lookup_fmap, ?Hxi, ?Hxj.
  - intros p s i m x Hp. unfold at2, at3.
    rewrite !tget_tzip_with, !tget_tmap.
    destruct (tget_tshape k bs _ msa p
                (tshape_axis_len k bs _ nc msa (λ x Hx, proj1 Hx) Hmsa) Hp)
      as (MSA & HMSA & [HMs _] & Hn).
    rewrite HMSA. destruct (tget k tf p) as [TF|]; [|done]. cbn.
    intros Hm Hx.
    destruct (MSA !! s) as [row|] eqn:Hrow; [|done]. cbn in Hm.
    apply at3_add3.
    + by rewrite !list_lookup_fmap, Hrow; cbn; rewrite list_lookup_fmap, Hm.
    + rewrite Hn, lookup_replicate_2.
      * cbn. by rewrite list_lookup_fmap, Hx.
      * rewrite <-HMs. by eapply lookup_lt_Some.
Qed.

End entries.

Lemma select_Forall {A} (P : A → Prop) (idx : list nat) (l : list A) :
  Forall P l → Forall P (select idx l).
Proof.
  intros Hl. unfold select. induction idx as [|j idx IH]; [constructor|].
  cbn. destruct (l !! j) as [x|] eqn:Hx; [|done].
  constructor; [|done]. exact (Forall_lookup_1 _ _ _ _ Hl Hx).
Qed.

(** X1. [relpos] on a residue-index tensor that already has the dtype of the
    weights, which is how [forward] calls it ([ri.type(tf_emb_i.dtype)]): for
    an embedder as [__init__] builds it and such an [ri] of shape [[*, N]] it
    returns a tensor of shape [[*, N, N, c_z]] whose entry [(i, j)] is the
    projection of the one-hot encoding of the difference [ri[i] - ri[j]]
    taken in that dtype, whatever the other indices are.  A tensor of another
    dtype (an integer [ri] passed to [relpos] directly) is not covered. *)
Theorem relpos_entries {R : Type} `{Scalar R} (self : InputEmbedder.t R)
    (k : nat) (bs : list nat) (n : nat) (ri : tens k (list R)) :
  InputEmbedder.constructed self →
  tshape k bs (shape1 n) ri →
  ∃ rel,
    InputEmbedder.relpos self k ri = Ok rel ∧
    tshape k bs (shape3 n n (InputEmbedder.c_z self)) rel ∧
    ∀ p i j a b,
      at2 k ri p i = Some a → at2 k ri p j = Some b →
      at3 k rel p i j =
        Some (Linear.affine (InputEmbedder.linear_relpos self)
                (one_hot (rsub a b)
                   (arange (- Z.of_nat (InputEmbedder.relpos_k self))
                           (Z.of_nat (InputEmbedder.relpos_k self) + 1)))).
Proof.
  intros Hc Hri. destruct (relpos_pure self k bs n ri Hc Hri) as [Hrel Hshape].
  eexists. split; [exact Hrel|]. split; [exact Hshape|].
  intros p i j a b. unfold at2, at3. rewrite tget_tmap.
  destruct (tget k ri p) as [RI|]; [|done]. cbn. apply relpos_ref_lookup.
Qed.

(** X2. Every entry of the embeddings [InputEmbedder.forward] returns is a
    function of the residues it is indexed by: [pair_emb[i][j]] is computed
    from the target features and residue indices of residues [i] and [j]
    alone (not from the MSA features, nor from any other residue), and
    [msa_emb[s][i]] from the MSA features of cluster [s] at residue [i] and
    the target features of residue [i] alone. *)
Theorem forward_entries_closed_form {R : Type} `{Scalar R} (self : InputEmbedder.t R)
    (k : nat) (bs : list nat) (n nc : nat)
    (tf : tens k (list (list R))) (ri : tens k (list Z))
    (msa : tens k (list (list (list R)))) :
  InputEmbedder.constructed self →
  tshape k bs (shape2 n (InputEmbedder.tf_dim self)) tf →
  tshape k bs (shape1 n) ri →
  tshape k bs (shape3 nc n (InputEmbedder.msa_dim self)) msa →
  ∃ msa_emb pair_emb,
    InputEmbedder.forward self k tf ri msa = Ok (msa_emb, pair_emb) ∧
    (∀ p i j x_i x_j r_i r_j,
       at2 k tf p i = Some x_i → at2 k tf p j = Some x_j →
       at2 k ri p i = Some r_i → at2 k ri p j = Some r_j →
       at3 k pair_emb p i j = Some (pair_entry self x_i x_j r_i r_j)) ∧
    (∀ p s i m x,
       in_batch p bs → at3 k msa p s i = Some m → at2 k tf p i = Some x →
       at3 k msa_emb p s i = Some (msa_entry self m x)).
Proof. apply forward_entries. Qed.

(** X3. [InputEmbedder.forward] commutes with reordering the residues:
    gathering the residues at positions [idx] (a permutation, or any
    selection) in the target features, the residue indices and the MSA
    features gathers both residue axes of the pair embedding and the residue
    axis of the MSA embedding in the same way. *)
Theorem forward_select_equivariant {R : Type} `{Scalar R} (self : InputEmbedder.t R)
    (k : nat) (bs : list nat) (n nc : nat) (idx : list nat)
    (tf : tens k (list (list R))) (ri : tens k (list Z))
    (msa : tens k (list (list (list R)))) :
  InputEmbedder.constructed self →
  tshape k bs (shape2 n (InputEmbedder.tf_dim self)) tf →
  tshape k bs (shape1 n) ri →
  tshape k bs (shape3 nc n (InputEmbedder.msa_dim self)) msa →
  Forall (λ i, (i < n)%nat) idx →
  ∃ msa_emb pair_emb msa_emb' pair_emb',
    InputEmbedder.forward self k tf ri msa = Ok (msa_emb, pair_emb) ∧
    InputEmbedder.forward self k (tmap k (select idx) tf) (tmap k (select idx) ri)
      (tmap k (fmap (M:=list) (select idx)) msa) = Ok (msa_emb', pair_emb') ∧
    ∀ p i i', in_batch p bs → idx !! i = Some i' →
      (∀ j j', idx !! j = Some j' →
         at3 k pair_emb' p i j = at3 k pair_emb p i' j') ∧
      (∀ s, (s < nc)%nat → at3 k msa_emb' p s i = at3 k msa_emb p s i').
Proof.
  intros Hc Htf Hri Hmsa Hidx.
  assert (tshape k bs (shape2 (length idx) (InputEmbedder.tf_dim self))
            (tmap k (select idx) tf)) as Htf'.
  { eapply tshape_tmap; [|exact Htf]. intros TF [Hl Hall]. split.
    - apply select_length. by rewrite Hl.
    - by apply select_Forall. }
  assert (tshape k bs (shape1 (length idx)) (tmap k (select idx) ri)) as Hri'.
  { eapply tshape_tmap; [|exact Hri]. intros RI Hl.
    apply select_length. unfold shape1 in Hl. by rewrite Hl. }
  assert (tshape k bs (shape3 nc (length idx) (InputEmbedder.msa_dim self))
            (tmap k (fmap (M:=list) (select idx)) msa)) as Hmsa'.
  { eapply tshape_tmap; [|exact Hmsa]. intros MSA [Hl Hall].
    split; [by rewrite length_fmap|].
    apply Forall_fmap. eapply Forall_impl; [exact Hall|]. intros m [Hm Hms]. split.
    - apply select_length. by rewrite Hm.
    - by apply select_Forall. }
  destruct (forward_entries self k bs n nc tf ri msa Hc Htf Hri Hmsa)
    as (msa_emb & pair_emb & Hfwd & Hpair & Hmsae).
  destruct (forward_entries self k bs _ nc _ _ _ Hc Htf' Hri' Hmsa')
    as (msa_emb' & pair_emb' & Hfwd' & Hpair' & Hmsae').
  exists msa_emb, pair_emb, msa_emb', pair_emb'.
  split; [exact Hfwd|]. split; [exact Hfwd'|].
  intros p i i' Hp Hi.
  destruct (tget_tshape k bs _ tf p Htf Hp) as (TF & HTF & HTFs).
  destruct (tget_tshape k bs _ ri p Hri Hp) as (RI & HRI & HRIs).
  destruct (tget_tshape k bs _ msa p Hmsa Hp) as (MSA & HMSA & HMSAs).
  assert (∀ j j', idx !! j = Some j' → (j' < n)%nat) as Hlt.
  { intros j j' Hj. by eapply (Forall_lookup_1 _ _ _ _ Hidx). }
  assert (∀ j j', idx !! j = Some j' →
            ∃ x r, at2 k tf p j' = Some x ∧ at2 k ri p j' = Some r ∧
                   at2 k (tmap k (select idx) tf) p j = Some x ∧
                   at2 k (tmap k (select idx) ri) p j = Some r) as Hsel.
  { intros j j' Hj. pose proof (Hlt j j' Hj) as Hj'.
    destruct (shape2_lookup _ _ TF j' HTFs Hj') as (x & Hx & _).
    destruct (lookup_lt_is_Some_2 RI j') as [r Hr];
      [unfold shape1 in HRIs; by rewrite HRIs|].
    exists x, r. unfold at2. rewrite !tget_tmap, HTF, HRI. cbn.
    destruct HTFs as [HTFl _]. unfold shape1 in HRIs.
    rewrite (select_lookup idx TF j j'), (select_lookup idx RI j j') by
      (done || (rewrite ?HTFl, ?HRIs; done)).
    done. }
  split.
  - intros j j' Hj.
    destruct (Hsel i i' Hi) as (x_i & r_i & Hxi & Hri0 & Hxi' & Hri0').
    destruct (Hsel j j' Hj) as (x_j & r_j & Hxj & Hrj & Hxj' & Hrj').
    rewrite (Hpair' p i j x_i x_j r_i r_j) by done.
    by rewrite (Hpair p i' j' x_i x_j r_i r_j).
  - intros s Hs.
    destruct (Hsel i i' Hi) as (x_i & r_i & Hxi & _ & Hxi' & _).
    destruct (shape3_lookup _ _ _ MSA s i' HMSAs Hs (Hlt i i' Hi)) as (m & Hm & _).
    assert (at3 k msa p s i' = Some m) as Hm0.
    { unfold at3. by rewrite HMSA. }
    assert (at3 k (tmap k (fmap (M:=list) (select idx)) msa) p s i = Some m) as Hm1.
    { unfold at3. rewrite tget_tmap, HMSA. cbn. rewrite list_lookup_fmap.
      destruct (MSA !! s) as [row|] eqn:Hrow; [|done]. cbn in *.
      destruct HMSAs as [_ Hall].
      destruct (Forall_lookup_1 _ _ _ _ Hall Hrow) as [Hrl _].
      rewrite (select_lookup idx row i i'); [done| |done].
      by rewrite Hrl. }
    rewrite (Hmsae' p s i m x_i) by done.
    by rewrite (Hmsae p s i' m x_i).
Qed.

(** ** Shape errors of [InputEmbedder.forward] *)

Lemma Res_bind_Raise {A B} (f : A → Res B) (e : exn) : (Raise e ≫= f) = Raise e.
Proof. done. Qed.

Lemma mapM_Raise_head {A B} (f : A → Res B) (x : A) (l : list A) (e : exn) :
  f x = Raise e → mapM f (x :: l) = Raise e.
Proof. intros Hx. by rewrite mapM_Res_cons, Hx. Qed.

Lemma tmapM_Raise {A B} (k : nat) bs (P : A → Prop) (f : A → Res B) (e : exn)
    (t : tens k A) :
  (∀ x, P x → f x = Raise e) → Forall (λ b, (0 < b)%nat) bs →
  tshape k bs P t → tmapM k f t = Raise e.
Proof.
  intros Hf. revert bs t. induction k as [|k IH]; intros bs t Hpos.
  - intros [_ ?]%tshape_O. by apply Hf.
  - change (tens (S k) A) with (list (tens k A)) in t.
    intros (b & bs' & -> & Hl & Hall)%tshape_S_inv.
    apply Forall_cons_1 in Hpos as [Hb Hpos].
    destruct t as [|u t']; [cbn in Hl; lia|].
    apply Forall_cons_1 in Hall as [Hu _].
    cbn [tmapM]. apply mapM_Raise_head. by eapply IH.
Qed.

Lemma tizip_Raise {A B} (k : nat) bs (P1 : A → Prop) (P2 : B → Prop)
    (f : A → B → Res A) (e : exn) (t1 : tens k A) (t2 : tens k B) :
  (∀ x y, P1 x → P2 y → f x y = Raise e) → Forall (λ b, (0 < b)%nat) bs →
  tshape k bs P1 t1 → tshape k bs P2 t2 → tizip k f t1 t2 = Raise e.
Proof.
  intros Hf. revert bs t1 t2. induction k as [|k IH]; intros bs t1 t2 Hpos.
  - intros [_ ?]%tshape_O [_ ?]%tshape_O. by apply Hf.
  - change (tens (S k) A) with (list (tens k A)) in t1.
    change (tens (S k) B) with (list (tens k B)) in t2.
    intros (b & bs' & -> & Hl1 & Hall1)%tshape_S_inv [Hl2 Hall2]%tshape_S.
    apply Forall_cons_1 in Hpos as [Hb Hpos].
    destruct t1 as [|u t1']; [cbn in Hl1; lia|].
    destruct t2 as [|v t2']; [cbn in Hl2; lia|].
    apply Forall_cons_1 in Hall1 as [Hu _]. apply Forall_cons_1 in Hall2 as [Hv _].
    cbn [tizip]. rewrite izip_same_length by (cbn in *; lia).
    cbn [zip_with]. apply mapM_Raise_head. cbn [fst snd]. by eapply IH.
Qed.

Section forward_errors.
Context {R : Type} `{Scalar R}.
Implicit Types (self : InputEmbedder.t R) (l : Linear.t R).

Lemma forward_vec_Raise l (x : list R) :
  length x ≠ Linear.in_features l → Linear.forward_vec l x = Raise RuntimeError.
Proof. intros Hx. unfold Linear.forward_vec. by rewrite decide_False. Qed.

Lemma Linear_forward_1_Raise l k bs n w (x : tens k (list (list R))) :
  w ≠ Linear.in_features l → (0 < n)%nat → Forall (λ b, (0 < b)%nat) bs →
  tshape k bs (shape2 n w) x →
  Linear.forward l k 1 x = Raise RuntimeError.
Proof.
  intros Hw Hn Hpos Hx. unfold Linear.forward. cbn [tmapM].
  eapply tmapM_Raise; [|exact Hpos|exact Hx].
  intros m [Hm Hall]. destruct m as [|v m]; [cbn in Hm; lia|].
  apply Forall_cons_1 in Hall as [Hv _].
  apply mapM_Raise_head, forward_vec_Raise. unfold shape1 in Hv. congruence.
Qed.

Lemma iadd_3_mismatch (x y : list (list (list R))) :
  length x ≠ length y → length y ≠ 1%nat → iadd 3 x y = Raise RuntimeError.
Proof.
  intros Hxy Hy. unfold iadd. cbn [tizip]. unfold izip at 1.
  rewrite decide_False by done. by destruct y as [|y0 [|y1 y]].
Qed.

End forward_errors.

(** X4. Target features whose final axis is not [tf_dim] wide are rejected:
    on a non-empty tensor [InputEmbedder.forward] raises the shape error of
    the first projection, whatever the residue indices and MSA features. *)
Theorem forward_rejects_wrong_width {R : Type} `{Scalar R} (self : InputEmbedder.t R)
    (k : nat) (bs : list nat) (n w : nat)
    (tf : tens k (list (list R))) (ri : tens k (list Z))
    (msa : tens k (list (list (list R)))) :
  InputEmbedder.constructed self →
  tshape k bs (shape2 n w) tf →
  Forall (λ b, (0 < b)%nat) bs → (0 < n)%nat →
  w ≠ InputEmbedder.tf_dim self →
  InputEmbedder.forward self k tf ri msa = Raise RuntimeError.
Proof.
  intros ((_ & Hii & _) & _) Htf Hpos Hn Hw. unfold InputEmbedder.forward.
  rewrite (Linear_forward_1_Raise (InputEmbedder.linear_tf_z_i self) k bs n w tf)
    by (done || by rewrite Hii).
  done.
Qed.

(** X5. A residue-index tensor whose length differs from the number of
    residues of the target features is rejected by the in-place sum
    [pair_emb += ...], unless the target features have exactly one residue
    (which broadcasts): [InputEmbedder.forward] raises a shape error. *)
Theorem forward_rejects_residue_mismatch {R : Type} `{Scalar R}
    (self : InputEmbedder.t R) (k : nat) (bs : list nat) (n n' : nat)
    (tf : tens k (list (list R))) (ri : tens k (list Z))
    (msa : tens k (list (list (list R)))) :
  InputEmbedder.constructed self →
  tshape k bs (shape2 n (InputEmbedder.tf_dim self)) tf →
  tshape k bs (shape1 n') ri →
  Forall (λ b, (0 < b)%nat) bs →
  n' ≠ n → n ≠ 1%nat →
  InputEmbedder.forward self k tf ri msa = Raise RuntimeError.
Proof.
  intros Hc Htf Hri Hpos Hnn Hn1.
  pose proof Hc as ((Hwi & Hii & Hoi) & (Hwj & Hij & Hoj) & _).
  set (row := tmap k (fmap (M:=list) (Linear.affine (InputEmbedder.linear_tf_z_i self))) tf).
  set (col := tmap k (fmap (M:=list) (Linear.affine (InputEmbedder.linear_tf_z_j self))) tf).
  assert (tshape k bs (shape2 n (InputEmbedder.c_z self)) row) as Hrow.
  { eapply tshape_tmap; [|exact Htf]. intros m [Hm _]. by apply shape2_affine. }
  assert (tshape k bs (shape2 n (InputEmbedder.c_z self)) col) as Hcol.
  { eapply tshape_tmap; [|exact Htf]. intros m [Hm _]. by apply shape2_affine. }
  assert (tshape k bs (shape1 n') (tmap k (fmap (M:=list) (of_Z (R:=R))) ri)) as Hri'.
  { eapply tshape_tmap; [|exact Hri]. intros v Hv. unfold shape1 in *.
    by rewrite length_fmap. }
  destruct (relpos_pure self k bs n' _ Hc Hri') as [Hrel Hrels].
  assert (tshape k bs (shape3 n n (InputEmbedder.c_z self))
            (tzip_with k outer_sum row col)) as Houter.
  { eapply tshape_tzip_with; [|exact Hrow|exact Hcol]. intros ??. apply shape3_outer_sum. }
  unfold InputEmbedder.forward.
  eapply Res_bind_eq; [by apply (Linear_forward_1 _ k bs n tf); rewrite Hii|].
  eapply Res_bind_eq; [by apply (Linear_forward_1 _ k bs n tf); rewrite Hij|].
  eapply Res_bind_eq; [exact Hrel|].
  eapply Res_bind_eq.
  { rewrite tbzip_tmap.
    apply (tbzip_Ok_pure k bs (shape2 n (InputEmbedder.c_z self))
             (shape2 n (InputEmbedder.c_z self)) _ outer_sum); [|exact Hrow|exact Hcol].
    intros x y [_ Hx] [_ Hy]. by eapply badd_3_outer. }
  erewrite (tizip_Raise k bs); [done| |exact Hpos|exact Hrels|exact Houter].
  intros x y [Hx _] [Hy _]. apply iadd_3_mismatch; congruence.
Qed.

(** ** Broadcasting of a single target-feature residue *)

Lemma izip_singleton_r {A B} (f : A → B → Res A) xs y :
  izip f xs [y] = mapM (λ x, f x y) xs.
Proof.
  unfold izip. destruct (decide _) as [Hl|Hl]; [|done].
  destruct xs as [|x [|??]]; try discriminate. done.
Qed.

Section single_residue.
Context {R : Type} `{Scalar R}.
Implicit Types (self : InputEmbedder.t R).

Lemma iadd_3_bcast a n c (x : list (list (list R))) (v : list R) :
  shape3 a n c x → length v = c →
  iadd 3 x [[v]] = Ok (add_everywhere x v).
Proof.
  intros [_ Hall] Hv. unfold iadd, add_everywhere. cbn [tizip].
  rewrite izip_singleton_r. etrans; [|apply mapM_pure].
  apply mapM_Res_ext. eapply Forall_impl; [exact Hall|]. intros m [_ Hm].
  rewrite izip_singleton_r. etrans; [|apply mapM_pure].
  apply mapM_Res_ext. eapply Forall_impl; [exact Hm|]. intros r Hr.
  apply izip_Ok_pure with (P1 := λ _, True) (P2 := λ _, True);
    [done| |apply Forall_true; done|apply Forall_true; done].
  etrans; [exact Hr|by symmetry].
Qed.

Lemma badd_3_bcast a n c (x : list (list (list R))) (w : list R) :
  shape3 a n c x → length w = c →
  badd 3 x (replicate a [w]) = Ok (add_everywhere x (first_vec (replicate a [w]))).
Proof.
  intros [Hx Hall] Hw. destruct a as [|a].
  { destruct x; [done|discriminate]. }
  change (first_vec (replicate (S a) [w])) with w.
  unfold badd, add_everywhere. cbn [tbzip].
  rewrite (bzip_Ok_pure (shape2 n c) (λ y, y = [w]) _
             (λ m _, fmap (M:=list) (λ r, vadd r w) m)).
  - by rewrite zip_with_replicate_r_eq.
  - intros m y [_ Hm] ->. rewrite bzip_singleton_r. etrans; [|apply mapM_pure].
    apply mapM_Res_ext. eapply Forall_impl; [exact Hm|]. intros r Hr.
    apply (badd_1 r w). etrans; [exact Hr|by symmetry].
  - by rewrite length_replicate.
  - done.
  - by apply Forall_replicate.
Qed.

Lemma add_everywhere_lookup (x : list (list (list R))) (v : list R) i j r :
  x !! i ≫= (.!! j) = Some r →
  add_everywhere x v !! i ≫= (.!! j) = Some (vadd r v).
Proof.
  unfold add_everywhere. rewrite list_lookup_fmap.
  destruct (x !! i) as [m|]; [|done]. cbn. rewrite list_lookup_fmap.
  by intros ->.
Qed.

End single_residue.

(** X6. The three inputs need not agree on the number of residues when the
    target features have exactly one: [InputEmbedder.forward] then returns
    without error for a residue index of any length [N] and MSA features
    with any number [M] of residues, the single row role and column role
    being added at every position of the [[N, N]] pair embedding and the
    single target projection at every residue of the MSA embedding. *)
Theorem forward_single_residue_broadcasts {R : Type} `{Scalar R}
    (self : InputEmbedder.t R) (k : nat) (bs : list nat) (n m nc : nat)
    (tf : tens k (list (list R))) (ri : tens k (list Z))
    (msa : tens k (list (list (list R)))) :
  InputEmbedder.constructed self →
  tshape k bs (shape2 1 (InputEmbedder.tf_dim self)) tf →
  tshape k bs (shape1 n) ri →
  tshape k bs (shape3 nc m (InputEmbedder.msa_dim self)) msa →
  ∃ msa_emb pair_emb,
    InputEmbedder.forward self k tf ri msa = Ok (msa_emb, pair_emb) ∧
    (∀ p i j x r_i r_j,
       at2 k tf p 0 = Some x →
       at2 k ri p i = Some r_i → at2 k ri p j = Some r_j →
       at3 k pair_emb p i j = Some (pair_entry self x x r_i r_j)) ∧
    (∀ p s i mv x,
       in_batch p bs → at3 k msa p s i = Some mv → at2 k tf p 0 = Some x →
       at3 k msa_emb p s i = Some (msa_entry self mv x)).
Proof.
  intros Hc Htf Hri Hmsa.
  pose proof Hc as ((Hwi & Hii & Hoi) & (Hwj & Hij & Hoj) & (Hwm & Him & Hom)
                    & (Hwa & Hia & Hoa) & _ & _).
  set (row := tmap k (fmap (M:=list) (Linear.affine (InputEmbedder.linear_tf_z_i self))) tf).
  set (col := tmap k (fmap (M:=list) (Linear.affine (InputEmbedder.linear_tf_z_j self))) tf).
  set (tf_m := tmap k (fmap (M:=list) (Linear.affine (InputEmbedder.linear_tf_m self))) tf).
  set (msa_m := tmap k (fmap (M:=list) (fmap (M:=list)
                  (Linear.affine (InputEmbedder.linear_msa_m self)))) msa).
  set (rel := tmap k (relpos_ref self) (tmap k (fmap (M:=list) (of_Z (R:=R))) ri)).
  assert (tshape k bs (shape2 1 (InputEmbedder.c_z self)) row) as Hrow.
  { eapply tshape_tmap; [|exact Htf]. intros x [Hx _]. by apply shape2_affine. }
  assert (tshape k bs (shape2 1 (InputEmbedder.c_z self)) col) as Hcol.
  { eapply tshape_tmap; [|exact Htf]. intros x [Hx _]. by apply shape2_affine. }
  assert (tshape k bs (shape1 n) (tmap k (fmap (M:=list) (of_Z (R:=R))) ri)) as Hri'.
  { eapply tshape_tmap; [|exact Hri]. intros v Hv. unfold shape1 in *.
    by rewrite length_fmap. }
  destruct (relpos_pure self k bs n _ Hc Hri') as [Hrel Hrels]. fold rel in Hrel, Hrels.
  assert (tshape k bs (λ o, ∃ v, o = [[v]] ∧ length v = InputEmbedder.c_z self)
            (tzip_with k outer_sum row col)) as Houter.
  { eapply tshape_tzip_with; [|exact Hrow|exact Hcol].
    intros x y [Hx Hxs] [Hy Hys].
    destruct x as [|a [|??]]; try discriminate. destruct y as [|b [|??]]; try discriminate.
    apply Forall_cons_1 in Hxs as [Ha _]. apply Forall_cons_1 in Hys as [Hb _].
    eexists. split; [reflexivity|]. unfold vadd, shape1 in *.
    rewrite length_zip_with, Ha, Hb. apply Nat.min_id. }
  assert (tshape k bs
            (λ y, ∃ w, y = replicate (axis_len k msa) [w] ∧ length w = InputEmbedder.c_m self)
            (tmap k (replicate (axis_len k msa)) tf_m)) as Htfm.
  { unfold tf_m. rewrite tmap_tmap. eapply tshape_tmap; [|exact Htf].
    intros x [Hx Hxs]. destruct x as [|a [|??]]; try discriminate.
    unfold compose. cbn. eexists. split; [reflexivity|].
    by rewrite affine_length. }
  assert (tshape k bs
            (λ x, shape3 nc m (InputEmbedder.c_m self) x ∧ axis_len k msa = nc) msa_m)
    as Hmsam.
  { eapply tshape_tmap;
      [|apply (tshape_axis_len k bs _ nc msa (λ x Hx, proj1 Hx) Hmsa)].
    intros t [[Ht Hall] Hn]. cbn beta. split; [|done].
    apply shape3_affine; [done|done| |done].
    eapply Forall_impl; [exact Hall|]. by intros ? [? _]. }
  exists (tzip_with k (λ x y, add_everywhere x (first_vec y)) msa_m
            (tmap k (replicate (axis_len k msa)) tf_m)),
         (tzip_with k (λ x o, add_everywhere x (first_vec o)) rel
            (tzip_with k outer_sum row col)).
  split; [|split].
  - unfold InputEmbedder.forward.
    eapply Res_bind_eq; [by apply (Linear_forward_1 _ k bs 1 tf); rewrite Hii|].
    eapply Res_bind_eq; [by apply (Linear_forward_1 _ k bs 1 tf); rewrite Hij|].
    eapply Res_bind_eq; [exact Hrel|].
    eapply Res_bind_eq.
    { rewrite tbzip_tmap.
      apply (tbzip_Ok_pure k bs (shape2 1 (InputEmbedder.c_z self))
               (shape2 1 (InputEmbedder.c_z self)) _ outer_sum); [|exact Hrow|exact Hcol].
      intros x y [_ Hx] [_ Hy]. by eapply badd_3_outer. }
    eapply Res_bind_eq.
    { eapply (tizip_Ok_pure k bs _ _ _ (λ x o, add_everywhere x (first_vec o)));
        [|exact Hrels|exact Houter].
      intros x o Hx (v & -> & Hv). by eapply iadd_3_bcast. }
    eapply Res_bind_eq; [by apply (Linear_forward_1 _ k bs 1 tf); rewrite Him|].
    eapply Res_bind_eq.
    { rewrite tmapM_tmap.
      etrans; [|apply (tmapM_pure k (replicate (axis_len k msa)))].
      apply tmapM_ext. intros x. apply expand_unsqueeze. }
    eapply Res_bind_eq; [by apply (Linear_forward_2 _ k bs nc m msa); rewrite Hia|].
    eapply Res_bind_eq; [|done].
    eapply (tbzip_Ok_pure k bs _ _ _ (λ x y, add_everywhere x (first_vec y)));
      [|exact Hmsam|exact Htfm].
    intros x y [Hx Hn] (w & -> & Hw). rewrite Hn. by eapply badd_3_bcast.
  - intros p i j x r_i r_j. unfold at2, at3.
    rewrite !tget_tzip_with. unfold rel, row, col. rewrite !tget_tmap.
    destruct (tget k tf p) as [TF|]; [|done].
    destruct (tget k ri p) as [RI|]; [|done]. cbn.
    intros Hx Hri0 Hrj.
    destruct TF as [|x0 TF]; [done|]. cbn in Hx. injection Hx as ->.
    apply add_everywhere_lookup.
    apply relpos_ref_lookup; by rewrite list_lookup_fmap, ?Hri0, ?Hrj.
  - intros p s i mv x Hp. unfold at2, at3.
    rewrite !tget_tzip_with. unfold msa_m, tf_m. rewrite !tget_tmap.
    destruct (tget_tshape k bs _ msa p
                (tshape_axis_len k bs _ nc msa (λ x Hx, proj1 Hx) Hmsa) Hp)
      as (MSA & HMSA & [HMs _] & Hn).
    rewrite HMSA. destruct (tget k tf p) as [TF|]; [|done]. cbn.
    intros Hmv Hx.
    destruct TF as [|x0 TF]; [done|]. cbn in Hx. injection Hx as ->.
    destruct (MSA !! s) as [mrow|] eqn:Hmrow; [|done]. cbn in Hmv.
    assert (0 < axis_len k msa)%nat as Hpos.
    { rewrite Hn, <-HMs. apply lookup_lt_Some in Hmrow. lia. }
    destruct (axis_len k msa) as [|a']; [lia|].
    apply add_everywhere_lookup.
    by rewrite !list_lookup_fmap, Hmrow; cbn; rewrite list_lookup_fmap, Hmv.
Qed.

(** ** The single-layer embedders *)

Section single_layer.
Context {R : Type} `{Scalar R}.

Lemma Linear_forward_0_Raise (l : Linear.t R) k bs w (x : tens k (list R)) :
  w ≠ Linear.in_features l → Forall (λ b, (0 < b)%nat) bs →
  tshape k bs (shape1 w) x →
  Linear.forward l k 0 x = Raise RuntimeError.
Proof.
  intros Hw Hpos Hx. unfold Linear.forward. cbn [tmapM].
  eapply tmapM_Raise; [|exact Hpos|exact Hx].
  intros v Hv. apply forward_vec_Raise. unfold shape1 in Hv. congruence.
Qed.

(** One [Linear] layer over the final axis of a tensor with final axis [w]:
    the affine map at every leading index when [w] is the input width, a
    shape error on a non-empty tensor otherwise. *)
Lemma linear_layer (l : Linear.t R) (i o : nat) k bs w (x : tens k (list R)) :
  InputEmbedder.has_dims l i o → tshape k bs (shape1 w) x →
  (w = i →
     tshape k bs (shape1 o) (tmap k (Linear.affine l) x) ∧
     Linear.forward l k 0 x = Ok (tmap k (Linear.affine l) x)) ∧
  (w ≠ i → Forall (λ b, (0 < b)%nat) bs →
     Linear.forward l k 0 x = Raise RuntimeError).
Proof.
  intros (Hwf & Hi & Ho) Hx. split.
  - intros ->. split.
    + eapply tshape_tmap; [|exact Hx]. intros v _. unfold shape1.
      by rewrite affine_length.
    + apply (Linear_forward_0 l k bs). by rewrite Hi.
  - intros Hw Hpos. apply (Linear_forward_0_Raise l k bs w); [congruence|done|done].
Qed.

End single_layer.

(** X7. [TemplatePairEmbedder.forward] maps a tensor of shape [[*, c_in]] to
    one of shape [[*, c_out]] with the same leading axes, the vector at every
    leading index being the affine image of the input vector there; on a
    non-empty tensor whose final axis is not [c_in] wide it raises a shape
    error. *)
Theorem pair_embedder_forward {R : Type} `{Scalar R} (self : TemplatePairEmbedder.t R)
    (k : nat) (bs : list nat) (w : nat) (x : tens k (list R)) :
  InputEmbedder.has_dims (TemplatePairEmbedder.linear self)
    (TemplatePairEmbedder.c_in self) (TemplatePairEmbedder.c_out self) →
  tshape k bs (shape1 w) x →
  (w = TemplatePairEmbedder.c_in self →
     ∃ y, TemplatePairEmbedder.forward self k x = Ok y ∧
          tshape k bs (shape1 (TemplatePairEmbedder.c_out self)) y ∧
          ∀ p, tget k y p = Linear.affine (TemplatePairEmbedder.linear self) <$> tget k x p) ∧
  (w ≠ TemplatePairEmbedder.c_in self → Forall (λ b, (0 < b)%nat) bs →
     TemplatePairEmbedder.forward self k x = Raise RuntimeError).
Proof.
  intros Hd Hx. destruct (linear_layer _ _ _ k bs w x Hd Hx) as [Hok Herr].
  unfold TemplatePairEmbedder.forward. split.
  - intros Hw. destruct (Hok Hw) as [Hs Hf]. eexists.
    split; [by rewrite Hf|]. split; [exact Hs|]. intros p. apply tget_tmap.
  - intros Hw Hpos. by rewrite Herr.
Qed.

(** X8. [ExtraMSAEmbedder.forward] maps a tensor of shape
    [[*, N_extra_seq, N_res, c_in]] to one with the same leading axes and
    final axis [c_out], the vector at every leading index being the affine
    image of the input vector there; on a non-empty tensor whose final axis
    is not [c_in] wide it raises a shape error. *)
Theorem extra_msa_embedder_forward {R : Type} `{Scalar R} (self : ExtraMSAEmbedder.t R)
    (k : nat) (bs : list nat) (w : nat) (x : tens k (list R)) :
  InputEmbedder.has_dims (ExtraMSAEmbedder.linear self)
    (ExtraMSAEmbedder.c_in self) (ExtraMSAEmbedder.c_out self) →
  tshape k bs (shape1 w) x →
  (w = ExtraMSAEmbedder.c_in self →
     ∃ y, ExtraMSAEmbedder.forward self k x = Ok y ∧
          tshape k bs (shape1 (ExtraMSAEmbedder.c_out self)) y ∧
          ∀ p, tget k y p = Linear.affine (ExtraMSAEmbedder.linear self) <$> tget k x p) ∧
  (w ≠ ExtraMSAEmbedder.c_in self → Forall (λ b, (0 < b)%nat) bs →
     ExtraMSAEmbedder.forward self k x = Raise RuntimeError).
Proof.
  intros Hd Hx. destruct (linear_layer _ _ _ k bs w x Hd Hx) as [Hok Herr].
  unfold ExtraMSAEmbedder.forward. split.
  - intros Hw. destruct (Hok Hw) as [Hs Hf]. eexists.
    split; [by rewrite Hf|]. split; [exact Hs|]. intros p. apply tget_tmap.
  - intros Hw Hpos. by rewrite Herr.
Qed.

(** ** Runs of [TemplateEmbedder.forward] *)

Section monad_runs.
Context {A B : Type}.
Implicit Types (m : M A) (f : A → M B).

(** A bind that returns: both parts returned, and the trace is the two
    traces in order. *)
Lemma run_bind m f b :
  result (m ≫= f) = Ok b →
  ∃ a, result m = Ok a ∧ result (f a) = Ok b ∧ trace (m ≫= f) = trace m ++ trace (f a).
Proof.
  rewrite result_bind, trace_bind. destruct (result m) as [a|e]; [eauto|done].
Qed.

Lemma bind_raise tr (e : exn) f : (mkM tr (Raise e) ≫= f) = mkM tr (Raise e).
Proof. done. Qed.

End monad_runs.

Lemma result_lift {A} (r : Res A) : result (lift r) = r.
Proof. done. Qed.

(** A loop over [range] that returns: an invariant indexed by the number of
    iterations done is carried through, and the trace is the traces of the
    iterations in order. *)
Lemma for_each_seq_Ok {St} (Inv : nat → St → Prop) (tr : nat → list event)
    (body : nat → St → M St) (n a : nat) (st st' : St) :
  (∀ i s s', (a ≤ i < a + n)%nat → Inv i s → result (body i s) = Ok s' →
     Inv (S i) s' ∧ trace (body i s) = tr i) →
  Inv a st →
  result (for_each (seq a n) body st) = Ok st' →
  Inv (a + n)%nat st' ∧ trace (for_each (seq a n) body st) = flat_map tr (seq a n).
Proof.
  revert a st. induction n as [|n IH]; intros a st Hstep Hinv Hres.
  - cbn in Hres. injection Hres as <-. by rewrite Nat.add_0_r.
  - cbn [seq for_each] in Hres |- *.
    apply run_bind in Hres as (s1 & H1 & Hres & ->).
    destruct (Hstep a st s1 ltac:(lia) Hinv H1) as [Hinv1 ->].
    destruct (IH (S a) s1) as [Hfin ->]; [|done|done|].
    + intros i s s' Hi. apply Hstep. lia.
    + split; [|done]. by rewrite Nat.add_succ_r.
Qed.

Ltac run_step H :=
  let a := fresh "a" in
  let Ha := fresh "Ha" in
  let Ht := fresh "Ht" in
  apply run_bind in H as (a & Ha & H & Ht);
  rewrite Ht; clear Ht;
  rewrite ?result_lift in Ha;
  cbv beta zeta in H |- *.

Section template_runs.
Import Torch TemplateEmbedder.
Context {D : Type}.
Implicit Types (self : module D) (imp : imports D) (batch : gmap string (Tensor D))
  (z pair_mask : Tensor D) (chunk_size : pyval) (st : locals D).

Lemma py_index_short {X} (l : list X) (i : Z) :
  (length l ≤ Z.to_nat i)%nat → 0 ≤ i → py_index l i = Raise IndexError.
Proof.
  intros Hl Hi. unfold py_index. cbv zeta.
  destruct (decide (0 ≤ i)) as [_|]; [|lia].
  destruct (decide (0 ≤ i < Z.of_nat (length l))) as [Hj|]; [lia|done].
Qed.

Lemma empty_for_Ok (n_templ : nat) z (dev : Device) (b : Buffer D) :
  result (empty_for n_templ z dev) = Ok b →
  ∃ z0 z1 : nat,
    py_index (shape z) 0 = Ok z0 ∧ py_index (shape z) 1 = Ok z1 ∧
    b = empty n_templ z0 z1 64 (dtype z) dev ∧
    trace (empty_for n_templ z dev) = [EvEmpty [n_templ; z0; z1; 64%nat] (dtype z) dev].
Proof.
  intros H. unfold empty_for in H |- *.
  run_step H. run_step H. run_step H.
  injection H as <-. by exists a, a0.
Qed.

(** An iteration that runs to its end makes the two calls of
    [template_calls], stores [template_slot] at index [i] and nothing
    elsewhere, appends one dictionary and binds both loop-carried names. *)
Lemma loop_body_Ok self imp batch z pair_mask templ_dim chunk_size mt ip i st st' :
  result (loop_body self imp batch z pair_mask templ_dim chunk_size mt ip i st) = Ok st' →
  trace (loop_body self imp batch z pair_mask templ_dim chunk_size mt ip i st)
    = template_calls chunk_size mt ip i ∧
  ∃ d e,
    template_slot self imp batch z pair_mask templ_dim chunk_size mt i = Ok d ∧
    (i < length (slots (t st)))%nat ∧
    t st' = mkBuffer (b_shape (t st)) (b_dtype (t st)) (b_device (t st))
              (<[i := Some d]> (slots (t st))) ∧
    template_embeds st' = template_embeds st ++ [e] ∧
    angle_only self e ∧
    is_Some (tt st') ∧ is_Some (single_template_feats st').
Proof.
  intros H. unfold loop_body in H |- *.
  run_step H.
  apply run_bind in H as (e & He & H & ->). cbv beta zeta in H |- *.
  assert (trace (if embed_angles self
                 then template_angle_feat ← lift (build_template_angle_feat imp a);
                      a0 ← lift (template_angle_embedder self template_angle_feat);
                      mret (<["angle" := a0]> (∅ : gmap string (Tensor D)))
                 else mret (∅ : gmap string (Tensor D))) = [] ∧ angle_only self e)
    as [-> Hangle].
  { unfold angle_only. destruct (embed_angles self).
    - run_step He. run_step He. injection He as <-. eauto.
    - injection He as <-. done. }
  run_step H. run_step H. run_step H.
  assert (∃ r mask,
    unsqueeze_m3 pair_mask = Ok mask ∧
    template_pair_stack self a2 (to_dtype (cast imp) (dtype z) mask) chunk_size mt = Ok r ∧
    setitem (t st) i (to_device (b_device (t st)) r) = Ok (t st') ∧
    template_embeds st' = template_embeds st ++ [e] ∧
    is_Some (tt st') ∧ is_Some (single_template_feats st') ∧
    trace (if ip
           then mask ← lift (unsqueeze_m3 pair_mask);
                emit (EvPairStack i true chunk_size mt);;
                tt ← lift (template_pair_stack_inplace self [a2]
                             (to_dtype (cast imp) (dtype z) mask) chunk_size mt);
                r ← lift (py_index tt 0);
                t ← lift (setitem (t st) i (to_device (b_device (t st)) r));
                mret (mkLocals t (template_embeds st ++ [e]) (Some (TList tt)) (Some a))
           else mask ← lift (unsqueeze_m3 pair_mask);
                emit (EvPairStack i false chunk_size mt);;
                r ← lift (template_pair_stack self a2
                            (to_dtype (cast imp) (dtype z) mask) chunk_size mt);
                t ← lift (setitem (t st) i (to_device (b_device (t st)) r));
                mret (mkLocals t (template_embeds st ++ [e]) (Some (TTensor a2)) (Some a)))
      = [EvPairStack i ip chunk_size mt])
    as (r & mask & Hmask & Hstack & Hset & Hemb & Htt & Hfeats & ->).
  { destruct ip.
    - run_step H. run_step H. run_step H. run_step H. run_step H.
      injection H as <-. cbn [t template_embeds tt single_template_feats].
      pose proof (inplace_single self a2 (to_dtype (cast imp) (dtype z) a3) chunk_size mt)
        as Hsingle.
      rewrite Ha5 in Hsingle. rewrite Res_bind_Ok, Ha6 in Hsingle.
      exists a6, a3. eauto 10.
    - run_step H. run_step H. run_step H. run_step H.
      injection H as <-. cbn [t template_embeds tt single_template_feats].
      exists a5, a3. eauto 10. }
  split; [done|].
  unfold setitem in Hset.
  destruct (decide (i < length (slots (t st)))%nat) as [Hi|]; [|done].
  destruct (assignable _ _); [|done]. injection Hset as Hset.
  exists (data r), e. split; [|by eauto 10].
  unfold template_slot.
  eapply Res_bind_eq; [exact Ha|].
  eapply Res_bind_eq; [exact Ha1|].
  eapply Res_bind_eq; [exact Ha2|].
  eapply Res_bind_eq; [exact Hmask|].
  eapply Res_bind_eq; [exact Hstack|]. done.
Qed.

End template_runs.

Section template_results.
Import Torch TemplateEmbedder.
Context {D : Type}.
Implicit Types (self : module D) (imp : imports D) (batch : gmap string (Tensor D))
  (z pair_mask : Tensor D) (chunk_size : pyval) (st : locals D).

Lemma getitem_Ok {V} (d : gmap string V) (key : string) (v : V) :
  getitem d key = Ok v → d !! key = Some v.
Proof. unfold getitem. destruct (d !! key); [|done]. by intros [= ->]. Qed.

(** The allocation and the loop, when they return: the calls made, and the
    state they leave. *)
Lemma embed_templates_Ok self imp batch z pair_mask templ_dim chunk_size mt ip st :
  result (embed_templates self imp batch z pair_mask templ_dim chunk_size mt ip) = Ok st →
  ∃ (aatype : Tensor D) (n z0 z1 : nat),
    batch !! "template_aatype" = Some aatype ∧
    py_index (shape aatype) templ_dim = Ok n ∧
    py_index (shape z) 0 = Ok z0 ∧ py_index (shape z) 1 = Ok z1 ∧
    trace (embed_templates self imp batch z pair_mask templ_dim chunk_size mt ip) =
      EvEmpty [n; z0; z1; 64%nat] (dtype z)
              (if small_chunk chunk_size then Cpu else device z)
      :: flat_map (template_calls chunk_size mt ip) (seq 0 n) ∧
    b_shape (t st) = [n; z0; z1; 64%nat] ∧
    b_dtype (t st) = dtype z ∧
    b_device (t st) = (if small_chunk chunk_size then Cpu else device z) ∧
    length (slots (t st)) = n ∧
    (∀ i, (i < n)%nat →
       ∃ d, template_slot self imp batch z pair_mask templ_dim chunk_size mt i = Ok d ∧
            slots (t st) !! i = Some (Some d)) ∧
    length (template_embeds st) = n ∧
    Forall (angle_only self) (template_embeds st) ∧
    (n = 0%nat → tt st = None) ∧
    ((0 < n)%nat → is_Some (tt st) ∧ is_Some (single_template_feats st)).
Proof.
  intros H. unfold embed_templates in H |- *.
  run_step H. apply getitem_Ok in Ha.
  run_step H.
  apply run_bind in H as (b & Hb & H & ->).
  set (dev := if small_chunk chunk_size then Cpu else device z).
  assert (result (empty_for a0 z dev) = Ok b ∧
          trace (if small_chunk chunk_size
                 then empty_for a0 z Cpu else empty_for a0 z (device z))
          = trace (empty_for a0 z dev)) as [Hb' ->].
  { subst dev. by destruct (small_chunk chunk_size). }
  apply empty_for_Ok in Hb' as (z0 & z1 & Hz0 & Hz1 & -> & ->).
  set (Inv := λ (j : nat) (s : locals D),
    b_shape (t s) = [a0; z0; z1; 64%nat] ∧
    b_dtype (t s) = dtype z ∧
    b_device (t s) = dev ∧
    length (slots (t s)) = a0 ∧
    (∀ i, (i < j)%nat →
       ∃ d, template_slot self imp batch z pair_mask templ_dim chunk_size mt i = Ok d ∧
            slots (t s) !! i = Some (Some d)) ∧
    length (template_embeds s) = j ∧
    Forall (angle_only self) (template_embeds s) ∧
    (j = 0%nat → tt s = None) ∧
    ((0 < j)%nat → is_Some (tt s) ∧ is_Some (single_template_feats s))).
  edestruct (for_each_seq_Ok Inv (template_calls chunk_size mt ip))
    as [Hinv Htr]; [| |exact H|].
  - intros i s s' Hi (Hshape & Hdt & Hdev & Hlen & Hslots & Hemb & Hang & _ & _) Hrun.
    apply loop_body_Ok in Hrun
      as [Htr (d & e & Hd & Hlt & Ht & He & Hae & Htt & Hfeats)].
    split; [|exact Htr]. unfold Inv. rewrite Ht, He. cbn [b_shape b_dtype b_device slots].
    rewrite length_insert, length_app, Hemb. cbn [length].
    repeat split; try done; try lia.
    + intros i' Hi'. destruct (decide (i' = i)) as [->|Hne].
      * exists d. split; [done|]. by apply list_lookup_insert_eq.
      * destruct (Hslots i' ltac:(lia)) as (d' & Hd' & Hl').
        exists d'. split; [done|]. by rewrite list_lookup_insert_ne.
    + apply Forall_app. split; [done|]. by constructor.
  - unfold Inv. cbn [t template_embeds tt single_template_feats empty
                       b_shape b_dtype b_device slots length].
    rewrite length_replicate. repeat split; try done; try lia.
  - rewrite Htr.
    destruct Hinv as (Hshape & Hdt & Hdev & Hlen & Hslots & Hemb & Hang & Htt0 & Htt).
    exists a, a0, z0, z1. repeat split; try done; try (intros; by apply Htt).
    all: try (by apply Htt).
Qed.

(** A call of [forward] that returns: the calls made, the buffer and the
    dictionaries the loop built, and where the two results come from. *)
Lemma forward_Ok self imp batch z pair_mask templ_dim chunk_size mt ip ret z' :
  result (forward self imp batch z pair_mask templ_dim chunk_size mt ip) = Ok (ret, z') →
  ∃ (aatype template_mask : Tensor D) (n z0 z1 : nat) (chunk : pyval)
    (b : Buffer D) (embeds : list (gmap string (Tensor D))) (cat : gmap string (Tensor D)),
    batch !! "template_aatype" = Some aatype ∧
    py_index (shape aatype) templ_dim = Ok n ∧
    (0 < n)%nat ∧
    py_index (shape z) 0 = Ok z0 ∧ py_index (shape z) 1 = Ok z1 ∧
    batch !! "template_mask" = Some template_mask ∧
    att_chunk_size chunk_size = Ok chunk ∧
    trace (forward self imp batch z pair_mask templ_dim chunk_size mt ip) =
      EvEmpty [n; z0; z1; 64%nat] (dtype z)
              (if small_chunk chunk_size then Cpu else device z)
      :: flat_map (template_calls chunk_size mt ip) (seq 0 n)
      ++ [EvPointwiseAtt chunk] ∧
    template_pointwise_att self b z (to_dtype (cast imp) (dtype z) template_mask) chunk
      = Ok z' ∧
    b_shape b = [n; z0; z1; 64%nat] ∧
    b_dtype b = dtype z ∧
    b_device b = (if small_chunk chunk_size then Cpu else device z) ∧
    length (slots b) = n ∧
    (∀ i, (i < n)%nat →
       ∃ d, template_slot self imp batch z pair_mask templ_dim chunk_size mt i = Ok d ∧
            slots b !! i = Some (Some d)) ∧
    length embeds = n ∧
    Forall (angle_only self) embeds ∧
    dict_multimap_cat imp templ_dim embeds = Ok cat ∧
    (if embed_angles self
     then ∃ a, cat !! "angle" = Some a ∧ ret = <["template_single_embedding" := a]> ∅
     else ret = ∅).
Proof.
  intros H. unfold forward in H |- *.
  apply run_bind in H as (st & Hst & H & ->). cbv beta zeta in H |- *.
  apply embed_templates_Ok in Hst
    as (aatype & n & z0 & z1 & Hb & Hn & Hz0 & Hz1 & -> & Hshape & Hdt & Hdev
        & Hlen & Hslots & Hemb & Hang & Htt0 & _).
  run_step H. run_step H. run_step H. run_step H. run_step H. run_step H. run_step H.
  apply run_bind in H as (r & Hr & H & ->). cbv beta in H |- *.
  injection H as -> ->.
  assert (trace (if embed_angles self
                 then a6 ← lift (getitem a1 "angle");
                      mret (<["template_single_embedding" := a6]>
                              (∅ : gmap string (Tensor D)))
                 else mret (∅ : gmap string (Tensor D))) = [] ∧
          (if embed_angles self
           then ∃ x, a1 !! "angle" = Some x ∧ ret = <["template_single_embedding" := x]> ∅
           else ret = ∅)) as [-> Hret].
  { destruct (embed_angles self).
    - run_step Hr. injection Hr as <-. apply getitem_Ok in Ha6. eauto.
    - by injection Hr as <-. }
  apply getitem_Ok in Ha2.
  assert (0 < n)%nat as Hpos.
  { destruct n; [|lia]. rewrite Htt0 in Ha by done. done. }
  exists aatype, a2, n, z0, z1, a3, (t st), (template_embeds st), a1.
  repeat split; done.
Qed.

End template_results.

(** X9. A batch without the key ["template_aatype"] is rejected at the first
    statement that reads it: [forward] raises [KeyError] before anything is
    allocated and before any collaborator is called. *)
Theorem forward_missing_aatype {D : Type}
    (self : TemplateEmbedder.module D) (imp : TemplateEmbedder.imports D)
    (batch : gmap string (Torch.Tensor D)) (z pair_mask : Torch.Tensor D)
    (templ_dim : Z) (chunk_size : pyval) (mask_trans inplace : bool) :
  batch !! "template_aatype" = None →
  TemplateEmbedder.forward self imp batch z pair_mask templ_dim chunk_size
    mask_trans inplace
  = mkM [] (Raise (KeyError "template_aatype")).
Proof.
  intros Hb. unfold TemplateEmbedder.forward, TemplateEmbedder.embed_templates, getitem.
  by rewrite Hb.
Qed.

(** X10. A pair embedding [z] with fewer than two axes is rejected when the
    shape of the buffer is computed ([z.shape[0]], [z.shape[1]]): [forward]
    raises [IndexError] with nothing allocated and no collaborator called,
    for every chunk size. *)
Theorem forward_flat_pair_embedding {D : Type}
    (self : TemplateEmbedder.module D) (imp : TemplateEmbedder.imports D)
    (batch : gmap string (Torch.Tensor D)) (z pair_mask : Torch.Tensor D)
    (templ_dim : Z) (chunk_size : pyval) (mask_trans inplace : bool)
    (aatype : Torch.Tensor D) (n_templ : nat) :
  batch !! "template_aatype" = Some aatype →
  py_index (Torch.shape aatype) templ_dim = Ok n_templ →
  (length (Torch.shape z) < 2)%nat →
  TemplateEmbedder.forward self imp batch z pair_mask templ_dim chunk_size
    mask_trans inplace
  = mkM [] (Raise IndexError).
Proof.
  intros Hb Hn Hz.
  unfold TemplateEmbedder.forward, TemplateEmbedder.embed_templates, getitem.
  rewrite Hb, bind_lift_Ok, Hn, bind_lift_Ok.
  assert (∀ dev, TemplateEmbedder.empty_for n_templ z dev = mkM [] (Raise IndexError))
    as Hempty.
  { intros dev. unfold TemplateEmbedder.empty_for.
    destruct (Torch.shape z) as [|z0 [|z1 zs]]; [| |cbn in Hz; lia].
    - by rewrite py_index_short by (cbn; lia).
    - rewrite py_index_0, bind_lift_Ok. by rewrite py_index_short by (cbn; lia). }
  destruct (TemplateEmbedder.small_chunk chunk_size); by rewrite Hempty.
Qed.

(** X11. When [forward] returns, the pair update it returns is the pointwise
    attention applied to a completely written buffer: the batch has at least
    one template, the buffer has the shape, dtype and device it was
    allocated with, and for every template index [i] the slot [t[i]] holds
    the pair-stack output of template [i], which depends on the arguments of
    [forward] and on [i] only, not on the other iterations, and is the same
    on the in-place path (taken through the contract of
    [TemplatePairStack.inplace] modelled above) and on the standard path.
    No slot is left as [torch.empty] allocated it. *)
Theorem forward_buffer_complete {D : Type}
    (self : TemplateEmbedder.module D) (imp : TemplateEmbedder.imports D)
    (batch : gmap string (Torch.Tensor D)) (z pair_mask : Torch.Tensor D)
    (templ_dim : Z) (chunk_size : pyval) (mask_trans inplace : bool)
    (ret : gmap string (Torch.Tensor D)) (z' : Torch.Tensor D) :
  result (TemplateEmbedder.forward self imp batch z pair_mask templ_dim chunk_size
            mask_trans inplace) = Ok (ret, z') →
  ∃ (aatype template_mask : Torch.Tensor D) (n z0 z1 : nat) (chunk : pyval)
    (b : Torch.Buffer D),
    batch !! "template_aatype" = Some aatype ∧
    py_index (Torch.shape aatype) templ_dim = Ok n ∧
    (0 < n)%nat ∧
    batch !! "template_mask" = Some template_mask ∧
    TemplateEmbedder.att_chunk_size chunk_size = Ok chunk ∧
    TemplateEmbedder.template_pointwise_att self b z
      (Torch.to_dtype (TemplateEmbedder.cast imp) (Torch.dtype z) template_mask) chunk
      = Ok z' ∧
    Torch.b_shape b = [n; z0; z1; 64%nat] ∧
    py_index (Torch.shape z) 0 = Ok z0 ∧ py_index (Torch.shape z) 1 = Ok z1 ∧
    Torch.b_dtype b = Torch.dtype z ∧
    Torch.b_device b =
      (if TemplateEmbedder.small_chunk chunk_size then Torch.Cpu else Torch.device z) ∧
    length (Torch.slots b) = n ∧
    ∀ i, (i < n)%nat →
      ∃ d, template_slot self imp batch z pair_mask templ_dim chunk_size mask_trans i
             = Ok d ∧
           Torch.slots b !! i = Some (Some d).
Proof.
  intros H. apply forward_Ok in H
    as (aatype & template_mask & n & z0 & z1 & chunk & b & embeds & cat & H).
  exists aatype, template_mask, n, z0, z1, chunk, b. intuition.
Qed.

(** X12. The calls of a run of [forward] that returns, in order: the one
    allocation of the buffer; then for each template index [0, 1, ...,
    n_templ - 1] in ascending order the pair-feature builder followed by the
    pair stack, each exactly once and with the caller's [chunk_size] and
    [_mask_trans]; then the pointwise attention, once, with the scaled chunk
    size.  Nothing is called after the attention. *)
Theorem forward_call_sequence {D : Type}
    (self : TemplateEmbedder.module D) (imp : TemplateEmbedder.imports D)
    (batch : gmap string (Torch.Tensor D)) (z pair_mask : Torch.Tensor D)
    (templ_dim : Z) (chunk_size : pyval) (mask_trans inplace : bool)
    (ret : gmap string (Torch.Tensor D)) (z' : Torch.Tensor D) :
  result (TemplateEmbedder.forward self imp batch z pair_mask templ_dim chunk_size
            mask_trans inplace) = Ok (ret, z') →
  ∃ (aatype : Torch.Tensor D) (n z0 z1 : nat) (chunk : pyval),
    batch !! "template_aatype" = Some aatype ∧
    py_index (Torch.shape aatype) templ_dim = Ok n ∧
    py_index (Torch.shape z) 0 = Ok z0 ∧ py_index (Torch.shape z) 1 = Ok z1 ∧
    TemplateEmbedder.att_chunk_size chunk_size = Ok chunk ∧
    trace (TemplateEmbedder.forward self imp batch z pair_mask templ_dim chunk_size
             mask_trans inplace) =
      EvEmpty [n; z0; z1; 64%nat] (Torch.dtype z)
              (if TemplateEmbedder.small_chunk chunk_size
               then Torch.Cpu else Torch.device z)
      :: flat_map (λ i, [EvPairFeat i chunk_size;
                         EvPairStack i inplace chunk_size mask_trans]) (seq 0 n)
      ++ [EvPointwiseAtt chunk].
Proof.
  intros H. apply forward_Ok in H
    as (aatype & template_mask & n & z0 & z1 & chunk & b & embeds & cat & H).
  exists aatype, n, z0, z1, chunk. intuition.
Qed.

(** X13. The mapping [forward] returns has the single key
    ["template_single_embedding"] when [config.embed_angles] is set and is
    empty otherwise.  The value under the key is the ["angle"] entry of the
    concatenation, along [templ_dim], of one dictionary per template, each
    holding the key ["angle"] alone. *)
Theorem forward_output_keys {D : Type}
    (self : TemplateEmbedder.module D) (imp : TemplateEmbedder.imports D)
    (batch : gmap string (Torch.Tensor D)) (z pair_mask : Torch.Tensor D)
    (templ_dim : Z) (chunk_size : pyval) (mask_trans inplace : bool)
    (ret : gmap string (Torch.Tensor D)) (z' : Torch.Tensor D) :
  result (TemplateEmbedder.forward self imp batch z pair_mask templ_dim chunk_size
            mask_trans inplace) = Ok (ret, z') →
  ∃ (aatype : Torch.Tensor D) (n : nat)
    (embeds : list (gmap string (Torch.Tensor D))) (cat : gmap string (Torch.Tensor D)),
    batch !! "template_aatype" = Some aatype ∧
    py_index (Torch.shape aatype) templ_dim = Ok n ∧
    length embeds = n ∧
    TemplateEmbedder.dict_multimap_cat imp templ_dim embeds = Ok cat ∧
    (if TemplateEmbedder.embed_angles self
     then Forall (λ d, ∃ a, d = <["angle" := a]> ∅) embeds ∧
          ∃ a, cat !! "angle" = Some a ∧
               ret = <["template_single_embedding" := a]> ∅
     else Forall (λ d, d = ∅) embeds ∧ ret = ∅).
Proof.
  intros H. apply forward_Ok in H
    as (aatype & template_mask & n & z0 & z1 & chunk & b & embeds & cat & H).
  exists aatype, n, embeds, cat.
  destruct H as (? & ? & _ & _ & _ & _ & _ & _ & _ & _ & _ & _ & _ & _ & ? & Hang & ? & Hret).
  repeat split; try done.
  unfold angle_only in Hang. by destruct (TemplateEmbedder.embed_angles self).
Qed.

(** X14. With [config.embed_angles] unset neither [build_template_angle_feat]
    nor the angle embedder is consulted: exchanging them for any others
    changes neither the result of [forward] nor the calls it makes. *)
Theorem forward_without_angles {D : Type}
    (angle_embedder angle_embedder' pair_embedder : Torch.Tensor D → Res (Torch.Tensor D))
    (pair_stack : Torch.Tensor D → Torch.Tensor D → pyval → bool → Res (Torch.Tensor D))
    (pointwise_att : Torch.Buffer D → Torch.Tensor D → Torch.Tensor D → pyval
                     → Res (Torch.Tensor D))
    (cast : Torch.DType → D → D)
    (index_select : gmap string (Torch.Tensor D) → Z → nat → Res (gmap string (Torch.Tensor D)))
    (angle_feat angle_feat' : gmap string (Torch.Tensor D) → Res (Torch.Tensor D))
    (pair_feat : gmap string (Torch.Tensor D) → pyval → Res (Torch.Tensor D))
    (multimap_cat : Z → list (gmap string (Torch.Tensor D)) → Res (gmap string (Torch.Tensor D)))
    (batch : gmap string (Torch.Tensor D)) (z pair_mask : Torch.Tensor D)
    (templ_dim : Z) (chunk_size : pyval) (mask_trans inplace : bool) :
  TemplateEmbedder.forward
    (TemplateEmbedder.mk false angle_embedder pair_embedder pair_stack pointwise_att)
    (TemplateEmbedder.mkImports cast index_select angle_feat pair_feat multimap_cat)
    batch z pair_mask templ_dim chunk_size mask_trans inplace
  = TemplateEmbedder.forward
      (TemplateEmbedder.mk false angle_embedder' pair_embedder pair_stack pointwise_att)
      (TemplateEmbedder.mkImports cast index_select angle_feat' pair_feat multimap_cat)
      batch z pair_mask templ_dim chunk_size mask_trans inplace.
Proof. reflexivity. Qed.

(** X15. [forward] has no partial success.  For a batch with [n_templ]
    templates it raises whenever the batch lacks the key ["template_mask"],
    or [chunk_size] is not [None] and cannot be multiplied by 256, or the
    pair features, pair embedding or pair stack of any single template
    raise: a failing template is never skipped and its slot never left
    unwritten in a returned result. *)
Theorem forward_no_partial_success {D : Type}
    (self : TemplateEmbedder.module D) (imp : TemplateEmbedder.imports D)
    (batch : gmap string (Torch.Tensor D)) (z pair_mask : Torch.Tensor D)
    (templ_dim : Z) (chunk_size : pyval) (mask_trans inplace : bool)
    (aatype : Torch.Tensor D) (n_templ : nat) :
  batch !! "template_aatype" = Some aatype →
  py_index (Torch.shape aatype) templ_dim = Ok n_templ →
  batch !! "template_mask" = None ∨
  (∃ e, TemplateEmbedder.att_chunk_size chunk_size = Raise e) ∨
  (∃ i e, (i < n_templ)%nat ∧
          template_slot self imp batch z pair_mask templ_dim chunk_size mask_trans i
            = Raise e) →
  ∃ e, result (TemplateEmbedder.forward self imp batch z pair_mask templ_dim chunk_size
                 mask_trans inplace) = Raise e.
Proof.
  intros Hb Hn Hbad.
  destruct (result _) as [[ret z']|e] eqn:Hrun; [exfalso|by eauto].
  apply forward_Ok in Hrun
    as (aatype' & template_mask & n & z0 & z1 & chunk & b & embeds & cat
        & Hb' & Hn' & _ & _ & _ & Hmask & Hchunk & _ & _ & _ & _ & _ & _ & Hslots & _).
  rewrite Hb in Hb'. injection Hb' as <-. rewrite Hn in Hn'. injection Hn' as <-.
  destruct Hbad as [Hnone|[[e He]|(i & e & Hi & He)]].
  - by rewrite Hnone in Hmask.
  - by rewrite He in Hchunk.
  - destruct (Hslots i Hi) as (d & Hd & _). by rewrite He in Hd.
Qed.

(** ** The order of the calls in every run *)

Section call_order.
Context {A B : Type}.
Implicit Types (m : M A) (f : A → M B).

Lemma prefix_bind_silent m f (L : list event) :
  trace m = [] → (∀ a, trace (f a) `prefix_of` L) → trace (m ≫= f) `prefix_of` L.
Proof.
  intros Hm Hf. rewrite trace_bind, Hm. cbn [app].
  destruct (result m); [apply Hf|apply prefix_nil].
Qed.

Lemma trace_bind_silent m f :
  trace m = [] → (∀ a, trace (f a) = []) → trace (m ≫= f) = [].
Proof.
  intros Hm Hf. rewrite trace_bind, Hm. cbn [app]. by destruct (result m).
Qed.

End call_order.

Lemma prefix_bind_emit {B} (e : event) (f : unit → M B) (L : list event) :
  trace (f ()) `prefix_of` L → trace (emit e ≫= f) `prefix_of` e :: L.
Proof. intros Hf. rewrite bind_emit. cbn [trace]. by apply prefix_cons. Qed.

Lemma for_each_prefix {St} (tr : nat → list event) (body : nat → St → M St)
    (n a : nat) (st : St) :
  (∀ i s, trace (body i s) `prefix_of` tr i) →
  (∀ i s s', result (body i s) = Ok s' → trace (body i s) = tr i) →
  trace (for_each (seq a n) body st) `prefix_of` flat_map tr (seq a n).
Proof.
  intros Hpre Hfull. revert a st. induction n as [|n IH]; intros a st.
  - apply prefix_nil.
  - cbn [seq for_each flat_map]. rewrite trace_bind.
    destruct (result (body a st)) as [s1|e] eqn:Hrun.
    + rewrite (Hfull a st s1 Hrun). apply prefix_app, IH.
    + rewrite app_nil_r. apply prefix_app_r, Hpre.
Qed.

Section template_call_order.
Import Torch TemplateEmbedder.
Context {D : Type}.
Implicit Types (self : module D) (imp : imports D) (batch : gmap string (Tensor D))
  (z pair_mask : Tensor D) (chunk_size : pyval) (st : locals D).

Lemma loop_body_prefix self imp batch z pair_mask templ_dim chunk_size mt ip i st :
  trace (loop_body self imp batch z pair_mask templ_dim chunk_size mt ip i st)
    `prefix_of` template_calls chunk_size mt ip i.
Proof.
  unfold loop_body, template_calls.
  apply prefix_bind_silent; [done|intros feats].
  apply prefix_bind_silent.
  { destruct (embed_angles self); [|done].
    apply trace_bind_silent; [done|intros x].
    by apply trace_bind_silent. }
  intros emb. apply prefix_bind_emit.
  apply prefix_bind_silent; [done|intros x]. cbv zeta.
  apply prefix_bind_silent; [done|intros y].
  destruct ip.
  - apply prefix_bind_silent; [done|intros mask]. cbv zeta.
    apply prefix_bind_emit.
    repeat (apply prefix_bind_silent; [done|intros ?]). done.
  - apply prefix_bind_silent; [done|intros mask]. cbv zeta.
    apply prefix_bind_emit.
    repeat (apply prefix_bind_silent; [done|intros ?]). done.
Qed.

(** The calls of any run of [forward], returning or raising, are an initial
    part of the full sequence of calls. *)
Lemma forward_prefix self imp batch z pair_mask templ_dim chunk_size mt ip
    (aatype : Tensor D) (n_templ z0 z1 : nat) (zs : list nat) :
  batch !! "template_aatype" = Some aatype →
  py_index (shape aatype) templ_dim = Ok n_templ →
  shape z = z0 :: z1 :: zs →
  trace (forward self imp batch z pair_mask templ_dim chunk_size mt ip) `prefix_of`
    EvEmpty [n_templ; z0; z1; 64%nat] (dtype z)
            (if small_chunk chunk_size then Cpu else device z)
    :: flat_map (template_calls chunk_size mt ip) (seq 0 n_templ)
    ++ match att_chunk_size chunk_size with
       | Ok chunk => [EvPointwiseAtt chunk]
       | Raise _ => []
       end.
Proof.
  intros Hb Hn Hz. unfold forward.
  rewrite (embed_templates_eq self imp batch z pair_mask templ_dim chunk_size
             mt ip aatype n_templ z0 z1 zs Hb Hn Hz).
  cbv zeta. rewrite trace_bind, bind_emit. cbn [trace result app].
  apply prefix_cons.
  match goal with
  | |- context [result (for_each ?xs ?body ?s0)] =>
      destruct (result (for_each xs body s0)) as [st|e] eqn:Hloop
  end.
  - edestruct (for_each_seq_Ok (λ (_ : nat) (_ : locals D), True)
                  (template_calls chunk_size mt ip))
      as [_ ->]; [|done|exact Hloop|].
    { intros i s s' _ _ Hrun. split; [done|]. by apply loop_body_Ok in Hrun as [-> _]. }
    apply prefix_app.
    do 4 (apply prefix_bind_silent; [done|intros ?]). cbv zeta.
    destruct (att_chunk_size chunk_size) as [chunk|e].
    + rewrite bind_lift_Ok. apply prefix_bind_emit.
      apply prefix_bind_silent; [done|intros z'].
      apply prefix_bind_silent; [|done].
      destruct (embed_angles self); [|done].
      by apply trace_bind_silent.
    + rewrite bind_lift_Raise. apply prefix_nil.
  - rewrite app_nil_r. apply prefix_app_r.
    apply for_each_prefix; [intros; apply loop_body_prefix|].
    intros i s s' Hrun. by apply loop_body_Ok in Hrun as [-> _].
Qed.

End template_call_order.

(** X16. In every run of [forward], whether it returns or raises, the calls
    made are an initial part of the sequence: the allocation, then for the
    template indices in ascending order the pair-feature builder followed by
    the pair stack, then the pointwise attention.  So no template is
    processed twice or out of order, nothing is called once a template has
    failed, the attention is never reached before every template has been
    processed, and nothing is allocated besides the one buffer. *)
Theorem forward_calls_in_order {D : Type}
    (self : TemplateEmbedder.module D) (imp : TemplateEmbedder.imports D)
    (batch : gmap string (Torch.Tensor D)) (z pair_mask : Torch.Tensor D)
    (templ_dim : Z) (chunk_size : pyval) (mask_trans inplace : bool)
    (aatype : Torch.Tensor D) (n_templ z0 z1 : nat) (zs : list nat) :
  batch !! "template_aatype" = Some aatype →
  py_index (Torch.shape aatype) templ_dim = Ok n_templ →
  Torch.shape z = z0 :: z1 :: zs →
  trace (TemplateEmbedder.forward self imp batch z pair_mask templ_dim chunk_size
           mask_trans inplace) `prefix_of`
    EvEmpty [n_templ; z0; z1; 64%nat] (Torch.dtype z)
            (if TemplateEmbedder.small_chunk chunk_size
             then Torch.Cpu else Torch.device z)
    :: flat_map (λ i, [EvPairFeat i chunk_size;
                       EvPairStack i inplace chunk_size mask_trans]) (seq 0 n_templ)
    ++ match TemplateEmbedder.att_chunk_size chunk_size with
       | Ok chunk => [EvPointwiseAtt chunk]
       | Raise _ => []
       end.
Proof. apply forward_prefix. Qed.

Section further_witnesses.
Import Torch TemplateEmbedder Examples.

Lemma relpos_entries_witness :
  ∃ rel,
    InputEmbedder.relpos input_small 1 ([[5; 6; 9]] : tens 1 (list Z)) = Ok rel ∧
    tshape 1 [1%nat] (shape3 3 3 (InputEmbedder.c_z input_small)) rel ∧
    ∀ p i j a b,
      at2 1 ([[5; 6; 9]] : tens 1 (list Z)) p i = Some a →
      at2 1 ([[5; 6; 9]] : tens 1 (list Z)) p j = Some b →
      at3 1 rel p i j =
        Some (Linear.affine (InputEmbedder.linear_relpos input_small)
                (one_hot (rsub a b)
                   (arange (- Z.of_nat (InputEmbedder.relpos_k input_small))
                           (Z.of_nat (InputEmbedder.relpos_k input_small) + 1)))).
Proof.
  apply (relpos_entries (R:=Z) input_small 1 [1%nat] 3 [[5; 6; 9]]); repeat constructor.
Defined.

Lemma forward_entries_closed_form_witness :
  ∃ msa_emb pair_emb,
    InputEmbedder.forward input_small 1 [[[1; 2]; [3; 4]]] [[7; 8]]
      [[[[1]; [2]]; [[3]; [4]]; [[5]; [6]]]] = Ok (msa_emb, pair_emb) ∧
    (∀ p i j x_i x_j r_i r_j,
       at2 1 ([[[1; 2]; [3; 4]]] : tens 1 (list (list Z))) p i = Some x_i →
       at2 1 ([[[1; 2]; [3; 4]]] : tens 1 (list (list Z))) p j = Some x_j →
       at2 1 ([[7; 8]] : tens 1 (list Z)) p i = Some r_i →
       at2 1 ([[7; 8]] : tens 1 (list Z)) p j = Some r_j →
       at3 1 pair_emb p i j = Some (pair_entry input_small x_i x_j r_i r_j)) ∧
    (∀ p s i m x,
       in_batch p [1%nat] →
       at3 1 ([[[[1]; [2]]; [[3]; [4]]; [[5]; [6]]]] : tens 1 (list (list (list Z)))) p s i
         = Some m →
       at2 1 ([[[1; 2]; [3; 4]]] : tens 1 (list (list Z))) p i = Some x →
       at3 1 msa_emb p s i = Some (msa_entry input_small m x)).
Proof.
  apply (forward_entries_closed_form input_small 1 [1%nat] 2 3
           [[[1; 2]; [3; 4]]] [[7; 8]] [[[[1]; [2]]; [[3]; [4]]; [[5]; [6]]]]);
    repeat constructor.
Defined.

Lemma forward_select_witness :
  ∃ msa_emb pair_emb msa_emb' pair_emb',
    InputEmbedder.forward input_small 1 [[[1; 2]; [3; 4]]] [[7; 8]]
      [[[[1]; [2]]; [[3]; [4]]; [[5]; [6]]]] = Ok (msa_emb, pair_emb) ∧
    InputEmbedder.forward input_small 1
      (tmap 1 (select [1; 0]%nat) ([[[1; 2]; [3; 4]]] : tens 1 (list (list Z))))
      (tmap 1 (select [1; 0]%nat) ([[7; 8]] : tens 1 (list Z)))
      (tmap 1 (fmap (M:=list) (select [1; 0]%nat))
         ([[[[1]; [2]]; [[3]; [4]]; [[5]; [6]]]] : tens 1 (list (list (list Z)))))
      = Ok (msa_emb', pair_emb') ∧
    ∀ p i i', in_batch p [1%nat] → [1; 0]%nat !! i = Some i' →
      (∀ j j', [1; 0]%nat !! j = Some j' →
         at3 1 pair_emb' p i j = at3 1 pair_emb p i' j') ∧
      (∀ s, (s < 3)%nat → at3 1 msa_emb' p s i = at3 1 msa_emb p s i').
Proof.
  apply (forward_select_equivariant input_small 1 [1%nat] 2 3 [1; 0]%nat
           [[[1; 2]; [3; 4]]] [[7; 8]] [[[[1]; [2]]; [[3]; [4]]; [[5]; [6]]]]);
    repeat constructor.
Defined.

Lemma forward_rejects_wrong_width_witness :
  InputEmbedder.forward input_small 1 [[[1; 2; 3]; [4; 5; 6]]] [[7; 8]]
    [[[[1]; [2]]; [[3]; [4]]; [[5]; [6]]]] = Raise RuntimeError.
Proof.
  apply (forward_rejects_wrong_width input_small 1 [1%nat] 2 3
           [[[1; 2; 3]; [4; 5; 6]]] [[7; 8]] [[[[1]; [2]]; [[3]; [4]]; [[5]; [6]]]]);
    first [discriminate | repeat constructor].
Defined.

Lemma forward_rejects_residue_mismatch_witness :
  InputEmbedder.forward input_small 1 [[[1; 2]; [3; 4]]] [[7; 8; 9]]
    [[[[1]; [2]]; [[3]; [4]]; [[5]; [6]]]] = Raise RuntimeError.
Proof.
  apply (forward_rejects_residue_mismatch input_small 1 [1%nat] 2 3
           [[[1; 2]; [3; 4]]] [[7; 8; 9]] [[[[1]; [2]]; [[3]; [4]]; [[5]; [6]]]]);
    first [discriminate | repeat constructor].
Defined.

Lemma forward_single_residue_witness :
  ∃ msa_emb pair_emb,
    InputEmbedder.forward input_small 1 [[[1; 2]]] [[7; 8]]
      [[[[1]; [2]; [3]]; [[4]; [5]; [6]]]] = Ok (msa_emb, pair_emb) ∧
    (∀ p i j x r_i r_j,
       at2 1 ([[[1; 2]]] : tens 1 (list (list Z))) p 0 = Some x →
       at2 1 ([[7; 8]] : tens 1 (list Z)) p i = Some r_i →
       at2 1 ([[7; 8]] : tens 1 (list Z)) p j = Some r_j →
       at3 1 pair_emb p i j = Some (pair_entry input_small x x r_i r_j)) ∧
    (∀ p s i mv x,
       in_batch p [1%nat] →
       at3 1 ([[[[1]; [2]; [3]]; [[4]; [5]; [6]]]] : tens 1 (list (list (list Z)))) p s i
         = Some mv →
       at2 1 ([[[1; 2]]] : tens 1 (list (list Z))) p 0 = Some x →
       at3 1 msa_emb p s i = Some (msa_entry input_small mv x)).
Proof.
  apply (forward_single_residue_broadcasts input_small 1 [1%nat] 2 3 2
           [[[1; 2]]] [[7; 8]] [[[[1]; [2]; [3]]; [[4]; [5]; [6]]]]);
    repeat constructor.
Defined.

Lemma pair_embedder_forward_witness :
  (3%nat = TemplatePairEmbedder.c_in pair_small →
     ∃ y, TemplatePairEmbedder.forward pair_small 2
            ([[[1; 2; 3]; [4; 5; 6]]] : tens 2 (list Z)) = Ok y ∧
          tshape 2 [1; 2]%nat (shape1 (TemplatePairEmbedder.c_out pair_small)) y ∧
          ∀ p, tget 2 y p =
                 Linear.affine (TemplatePairEmbedder.linear pair_small) <$>
                   tget 2 ([[[1; 2; 3]; [4; 5; 6]]] : tens 2 (list Z)) p) ∧
  (3%nat ≠ TemplatePairEmbedder.c_in pair_small → Forall (λ b, (0 < b)%nat) [1; 2]%nat →
     TemplatePairEmbedder.forward pair_small 2
       ([[[1; 2; 3]; [4; 5; 6]]] : tens 2 (list Z)) = Raise RuntimeError).
Proof.
  apply (pair_embedder_forward pair_small 2 [1; 2]%nat 3 [[[1; 2; 3]; [4; 5; 6]]]);
    repeat constructor.
Defined.

Lemma extra_msa_embedder_forward_witness :
  (2%nat = ExtraMSAEmbedder.c_in extra_msa_small →
     ∃ y, ExtraMSAEmbedder.forward extra_msa_small 3
            ([[[[1; 2]]; [[3; 4]]]] : tens 3 (list Z)) = Ok y ∧
          tshape 3 [1; 2; 1]%nat (shape1 (ExtraMSAEmbedder.c_out extra_msa_small)) y ∧
          ∀ p, tget 3 y p =
                 Linear.affine (ExtraMSAEmbedder.linear extra_msa_small) <$>
                   tget 3 ([[[[1; 2]]; [[3; 4]]]] : tens 3 (list Z)) p) ∧
  (2%nat ≠ ExtraMSAEmbedder.c_in extra_msa_small →
     Forall (λ b, (0 < b)%nat) [1; 2; 1]%nat →
     ExtraMSAEmbedder.forward extra_msa_small 3
       ([[[[1; 2]]; [[3; 4]]]] : tens 3 (list Z)) = Raise RuntimeError).
Proof.
  apply (extra_msa_embedder_forward extra_msa_small 3 [1; 2; 1]%nat 2
           [[[[1; 2]]; [[3; 4]]]]);
    repeat constructor.
Defined.

Lemma forward_missing_aatype_witness :
  forward template_module template_imports (∅ : gmap string (Tensor Z)) pair_z
    pair_mask 0 (PyInt 4) true false
  = mkM [] (Raise (KeyError "template_aatype")).
Proof.
  apply (forward_missing_aatype template_module template_imports ∅ pair_z
           pair_mask 0 (PyInt 4) true false).
  reflexivity.
Defined.

Lemma forward_flat_pair_embedding_witness :
  forward template_module template_imports (template_batch 2) flat_z
    pair_mask 0 (PyInt 4) true false
  = mkM [] (Raise IndexError).
Proof.
  apply (forward_flat_pair_embedding template_module template_imports
           (template_batch 2) flat_z pair_mask 0 (PyInt 4) true false
           (mkTensor [2; 3]%nat Float32 (Cuda 0) 7) 2);
    [reflexivity|reflexivity|cbn; lia].
Defined.

Lemma forward_buffer_complete_witness :
  ∃ (aatype template_mask : Tensor Z) (n z0 z1 : nat) (chunk : pyval) (b : Buffer Z),
    template_batch 2 !! "template_aatype" = Some aatype ∧
    py_index (shape aatype) 0 = Ok n ∧
    (0 < n)%nat ∧
    template_batch 2 !! "template_mask" = Some template_mask ∧
    att_chunk_size (PyInt 4) = Ok chunk ∧
    template_pointwise_att template_module b pair_z
      (to_dtype (cast template_imports) (dtype pair_z) template_mask) chunk
      = Ok updated_z ∧
    b_shape b = [n; z0; z1; 64%nat] ∧
    py_index (shape pair_z) 0 = Ok z0 ∧ py_index (shape pair_z) 1 = Ok z1 ∧
    b_dtype b = dtype pair_z ∧
    b_device b = (if small_chunk (PyInt 4) then Cpu else device pair_z) ∧
    length (slots b) = n ∧
    ∀ i, (i < n)%nat →
      ∃ d, template_slot template_module template_imports (template_batch 2) pair_z
             pair_mask 0 (PyInt 4) true i = Ok d ∧
           slots b !! i = Some (Some d).
Proof.
  apply (forward_buffer_complete template_module template_imports (template_batch 2)
           pair_z pair_mask 0 (PyInt 4) true false angle_ret updated_z).
  vm_compute. reflexivity.
Defined.

Lemma forward_call_sequence_witness :
  ∃ (aatype : Tensor Z) (n z0 z1 : nat) (chunk : pyval),
    template_batch 2 !! "template_aatype" = Some aatype ∧
    py_index (shape aatype) 0 = Ok n ∧
    py_index (shape pair_z) 0 = Ok z0 ∧ py_index (shape pair_z) 1 = Ok z1 ∧
    att_chunk_size (PyInt 16) = Ok chunk ∧
    trace (forward template_module template_imports (template_batch 2) pair_z
             pair_mask 0 (PyInt 16) true true) =
      EvEmpty [n; z0; z1; 64%nat] (dtype pair_z)
              (if small_chunk (PyInt 16) then Cpu else device pair_z)
      :: flat_map (λ i, [EvPairFeat i (PyInt 16);
                         EvPairStack i true (PyInt 16) true]) (seq 0 n)
      ++ [EvPointwiseAtt chunk].
Proof.
  apply (forward_call_sequence template_module template_imports (template_batch 2)
           pair_z pair_mask 0 (PyInt 16) true true angle_ret updated_z).
  vm_compute. reflexivity.
Defined.

Lemma forward_output_keys_witness :
  ∃ (aatype : Tensor Z) (n : nat)
    (embeds : list (gmap string (Tensor Z))) (cat : gmap string (Tensor Z)),
    template_batch 2 !! "template_aatype" = Some aatype ∧
    py_index (shape aatype) 0 = Ok n ∧
    length embeds = n ∧
    dict_multimap_cat template_imports 0 embeds = Ok cat ∧
    (if embed_angles template_module
     then Forall (λ d, ∃ a, d = <["angle" := a]> ∅) embeds ∧
          ∃ a, cat !! "angle" = Some a ∧
               angle_ret = <["template_single_embedding" := a]> ∅
     else Forall (λ d, d = ∅) embeds ∧ angle_ret = ∅).
Proof.
  apply (forward_output_keys template_module template_imports (template_batch 2)
           pair_z pair_mask 0 PyNone true false angle_ret updated_z).
  vm_compute. reflexivity.
Defined.

Lemma forward_no_partial_success_witness :
  ∃ e, result (forward template_module template_imports (template_batch 2) pair_z
                 pair_mask 0 (PyObject 0) true false) = Raise e.
Proof.
  apply (forward_no_partial_success template_module template_imports (template_batch 2)
           pair_z pair_mask 0 (PyObject 0) true false
           (mkTensor [2; 3]%nat Float32 (Cuda 0) 7) 2);
    [reflexivity|reflexivity|].
  right. left. exists TypeError. reflexivity.
Defined.

Lemma forward_calls_in_order_witness :
  trace (forward template_module template_imports (template_batch 2) pair_z
           pair_mask 0 (PyObject 0) true false) `prefix_of`
    EvEmpty [2; 3; 3; 64]%nat (dtype pair_z)
            (if small_chunk (PyObject 0) then Cpu else device pair_z)
    :: flat_map (λ i, [EvPairFeat i (PyObject 0);
                       EvPairStack i false (PyObject 0) true]) (seq 0 2)
    ++ match att_chunk_size (PyObject 0) with
       | Ok chunk => [EvPointwiseAtt chunk]
       | Raise _ => []
       end.
Proof.
  apply (forward_calls_in_order template_module template_imports (template_batch 2)
           pair_z pair_mask 0 (PyObject 0) true false
           (mkTensor [2; 3]%nat Float32 (Cuda 0) 7) 2 3 3 [128%nat]);
    reflexivity.
Defined.

End further_witnesses.
